(** * edu5.0.1backend: authentication gate and relationship-assignment handlers

    A shallow embedding of the Express/Supabase handlers of the school
    backend: [middleware/auth.ts], [controllers/authController.ts],
    [controllers/adminController.ts] and [controllers/hodController.ts].

    - The hosted relational store is a record of tables, each a list of rows.
      Reads, updates and deletes are answered from the tables; an insert is
      refused when the constraints of its table refuse the row, and so may
      be the delete by which [register] takes back a user row.
    - A handler is a state-and-exception computation over the store: a
      [throw new AppError(..)] leaves the writes made so far in place and is
      turned into a response by the handler's [catch] block.
    - Response bodies are JSON values; JS objects are finite maps.
    - A JS string is held as the bytes of its UTF-8 encoding. *)

From stdpp Require Import gmap strings list pretty.
From Stdlib Require Import ZArith Ascii.

Set Warnings "-register-all".
Open Scope Z_scope.

(** ** JSON values and HTTP responses *)

Inductive Json :=
| JNull
| JBool (b : bool)
| JNum (n : Z)
| JStr (s : string)
| JArr (l : list Json)
| JObj (o : gmap string Json).

(** [res.status(code).json(body)] *)
Record Response := { status : Z; json : gmap string Json }.

Definition opt_json (o : option string) : Json :=
  match o with Some s => JStr s | None => JNull end.

(** ** JavaScript helpers *)

(** Truthiness of a possibly absent string: [undefined], [null] and the
    empty string are falsy. *)
Definition truthy (o : option string) : bool :=
  match o with
  | Some s => negb (String.eqb s "")
  | None => false
  end.

(** [a || null] on a possibly absent string. *)
Definition or_null (o : option string) : option string :=
  if truthy o then o else None.

(** [s.split(sep)] for a one-character separator. *)
Fixpoint split (sep : ascii) (s : string) : list string :=
  match s with
  | EmptyString => [EmptyString]
  | String c rest =>
      if Ascii.eqb c sep then EmptyString :: split sep rest
      else match split sep rest with
           | x :: xs => String c x :: xs
           | [] => [String c EmptyString]
           end
  end.

Definition lower_ascii (c : ascii) : ascii :=
  let n := nat_of_ascii c in
  if ((65 <=? n) && (n <=? 90))%nat then ascii_of_nat (n + 32) else c.

(** Lower-casing of the letters A to Z, every other byte kept: what
    [s.toLowerCase()] gives on a string of ASCII characters. The sample
    runtime below carries it; the handlers take the lower-casing of the
    runtime they are given. *)
Fixpoint lower_ascii_string (s : string) : string :=
  match s with
  | EmptyString => EmptyString
  | String c rest => String (lower_ascii c) (lower_ascii_string rest)
  end.

(** [s.length]: the number of UTF-16 code units of the string. Of the UTF-8
    bytes, one below 0x80 or one that leads a two- or three-byte sequence
    (0xC0 to 0xEF) stands for one unit, one that leads a four-byte sequence
    (0xF0 and above) for the two units of a surrogate pair, and a
    continuation byte (0x80 to 0xBF) for none. *)
Definition utf16_units (c : ascii) : nat :=
  let n := nat_of_ascii c in
  if (n <? 128)%nat then 1%nat
  else if (n <? 192)%nat then 0%nat
  else if (n <? 240)%nat then 1%nat
  else 2%nat.

Fixpoint js_length (s : string) : nat :=
  match s with
  | EmptyString => 0%nat
  | String c rest => (utf16_units c + js_length rest)%nat
  end.

(** ** Roles: [User['role']] in [types/index.ts] *)

Inductive Role := admin | headmaster | hod | teacher | parent | student.

#[global] Instance Role_eq_dec : EqDecision Role.
Proof. solve_decision. Defined.

Definition all_roles : list Role :=
  [admin; headmaster; hod; teacher; parent; student].

Definition role_name (r : Role) : string :=
  match r with
  | admin => "admin"
  | headmaster => "headmaster"
  | hod => "hod"
  | teacher => "teacher"
  | parent => "parent"
  | student => "student"
  end.

(** [validRoles.includes(role)] together with the value it denotes. *)
Definition role_of_string (s : string) : option Role :=
  list_find (fun r => role_name r = s) all_roles ≫= (fun p => Some p.2).

(** [roles.includes(r)] *)
Definition includes (roles : list Role) (r : Role) : bool :=
  bool_decide (r ∈ roles).

(** ** Tables *)

Module Users.
Record row := {
  id : string;
  email : string;
  password_hash : string;
  role : Role;
  first_name : string;
  last_name : string;
  phone : option string;
  profile_image : option string;
  is_active : bool;
  last_login : option string
}.

(** The row as the JS object returned by [select('*')]. *)
Definition to_json (u : row) : gmap string Json :=
  <["id" := JStr (id u)]>
  (<["email" := JStr (email u)]>
  (<["password_hash" := JStr (password_hash u)]>
  (<["role" := JStr (role_name (role u))]>
  (<["first_name" := JStr (first_name u)]>
  (<["last_name" := JStr (last_name u)]>
  (<["phone" := opt_json (phone u)]>
  (<["profile_image" := opt_json (profile_image u)]>
  (<["is_active" := JBool (is_active u)]>
  (<["last_login" := opt_json (last_login u)]> ∅))))))))).

Definition set_active (b : bool) (u : row) : row :=
  {| id := id u; email := email u; password_hash := password_hash u;
     role := role u; first_name := first_name u; last_name := last_name u;
     phone := phone u; profile_image := profile_image u;
     is_active := b; last_login := last_login u |}.

Definition set_last_login (t : string) (u : row) : row :=
  {| id := id u; email := email u; password_hash := password_hash u;
     role := role u; first_name := first_name u; last_name := last_name u;
     phone := phone u; profile_image := profile_image u;
     is_active := is_active u; last_login := Some t |}.
End Users.

Definition User := Users.row.

Module Departments.
Record row := { id : string; name : string; hod_id : option string }.
End Departments.

Module Subjects.
Record row := {
  id : string;
  name : option string;
  code : option string;
  description : option string;
  department_id : option string
}.
Definition to_json (s : row) : gmap string Json :=
  <["id" := JStr (id s)]>
  (<["name" := opt_json (name s)]>
  (<["code" := opt_json (code s)]>
  (<["description" := opt_json (description s)]>
  (<["department_id" := opt_json (department_id s)]> ∅)))).
End Subjects.

Module Classes.
Record row := { id : string; name : string; level : option string }.
End Classes.

Module ClassSubjects.
Record row := {
  id : string; class_id : string; subject_id : string; teacher_id : string
}.
End ClassSubjects.

Module Teachers.
Record row := {
  id : string;
  user_id : string;
  employee_number : string;
  department_id : option string;
  hire_date : string
}.
End Teachers.

Module Students.
Record row := {
  id : string;
  user_id : string;
  student_number : string;
  class_id : option string;
  date_of_birth : option string;
  gender : option string;
  address : option string;
  enrollment_date : string
}.
End Students.

Module Parents.
Record row := {
  id : string;
  user_id : string;
  relationship : option string;
  occupation : option string
}.
End Parents.

Module StudentParents.
Record row := { parent_id : string; student_id : string }.
#[global] Instance row_eq_dec : EqDecision row.
Proof. solve_decision. Defined.
Definition to_json (r : row) : Json :=
  JObj (<["parent_id" := JStr (parent_id r)]>
        (<["student_id" := JStr (student_id r)]> ∅)).
End StudentParents.

Module AcademicLevels.
Record row := { id : string; name : string }.
End AcademicLevels.

Module SubjectAcademicLevels.
Record row := {
  id : string;
  subject_id : string;
  academic_level_id : string;
  is_required : bool
}.
Definition to_json (r : row) : gmap string Json :=
  <["id" := JStr (id r)]>
  (<["subject_id" := JStr (subject_id r)]>
  (<["academic_level_id" := JStr (academic_level_id r)]>
  (<["is_required" := JBool (is_required r)]> ∅))).
End SubjectAcademicLevels.

(** The store. *)
Record Db := {
  users : list Users.row;
  departments : list Departments.row;
  subjects : list Subjects.row;
  classes : list Classes.row;
  class_subjects : list ClassSubjects.row;
  teachers : list Teachers.row;
  students : list Students.row;
  parents : list Parents.row;
  student_parents : list StudentParents.row;
  academic_levels : list AcademicLevels.row;
  subject_academic_levels : list SubjectAcademicLevels.row
}.

Definition empty_db : Db :=
  {| users := []; departments := []; subjects := []; classes := [];
     class_subjects := []; teachers := []; students := []; parents := [];
     student_parents := []; academic_levels := [];
     subject_academic_levels := [] |}.

Definition with_users (f : list Users.row -> list Users.row) (d : Db) : Db :=
  {| users := f (users d); departments := departments d;
     subjects := subjects d; classes := classes d;
     class_subjects := class_subjects d; teachers := teachers d;
     students := students d; parents := parents d;
     student_parents := student_parents d;
     academic_levels := academic_levels d;
     subject_academic_levels := subject_academic_levels d |}.

Definition with_subjects (f : list Subjects.row -> list Subjects.row) (d : Db) : Db :=
  {| users := users d; departments := departments d;
     subjects := f (subjects d); classes := classes d;
     class_subjects := class_subjects d; teachers := teachers d;
     students := students d; parents := parents d;
     student_parents := student_parents d;
     academic_levels := academic_levels d;
     subject_academic_levels := subject_academic_levels d |}.

Definition with_class_subjects
    (f : list ClassSubjects.row -> list ClassSubjects.row) (d : Db) : Db :=
  {| users := users d; departments := departments d;
     subjects := subjects d; classes := classes d;
     class_subjects := f (class_subjects d); teachers := teachers d;
     students := students d; parents := parents d;
     student_parents := student_parents d;
     academic_levels := academic_levels d;
     subject_academic_levels := subject_academic_levels d |}.

Definition with_teachers (f : list Teachers.row -> list Teachers.row) (d : Db) : Db :=
  {| users := users d; departments := departments d;
     subjects := subjects d; classes := classes d;
     class_subjects := class_subjects d; teachers := f (teachers d);
     students := students d; parents := parents d;
     student_parents := student_parents d;
     academic_levels := academic_levels d;
     subject_academic_levels := subject_academic_levels d |}.

Definition with_students (f : list Students.row -> list Students.row) (d : Db) : Db :=
  {| users := users d; departments := departments d;
     subjects := subjects d; classes := classes d;
     class_subjects := class_subjects d; teachers := teachers d;
     students := f (students d); parents := parents d;
     student_parents := student_parents d;
     academic_levels := academic_levels d;
     subject_academic_levels := subject_academic_levels d |}.

Definition with_parents (f : list Parents.row -> list Parents.row) (d : Db) : Db :=
  {| users := users d; departments := departments d;
     subjects := subjects d; classes := classes d;
     class_subjects := class_subjects d; teachers := teachers d;
     students := students d; parents := f (parents d);
     student_parents := student_parents d;
     academic_levels := academic_levels d;
     subject_academic_levels := subject_academic_levels d |}.

Definition with_student_parents
    (f : list StudentParents.row -> list StudentParents.row) (d : Db) : Db :=
  {| users := users d; departments := departments d;
     subjects := subjects d; classes := classes d;
     class_subjects := class_subjects d; teachers := teachers d;
     students := students d; parents := parents d;
     student_parents := f (student_parents d);
     academic_levels := academic_levels d;
     subject_academic_levels := subject_academic_levels d |}.

Definition with_subject_academic_levels
    (f : list SubjectAcademicLevels.row -> list SubjectAcademicLevels.row)
    (d : Db) : Db :=
  {| users := users d; departments := departments d;
     subjects := subjects d; classes := classes d;
     class_subjects := class_subjects d; teachers := teachers d;
     students := students d; parents := parents d;
     student_parents := student_parents d;
     academic_levels := academic_levels d;
     subject_academic_levels := f (subject_academic_levels d) |}.

(** ** Query results of the Supabase client *)

(** [.single()]: the row when exactly one row matches; otherwise [data] is
    null and [error] is set. *)
Definition single {A} (rows : list A) : option A :=
  match rows with
  | [x] => Some x
  | _ => None
  end.

(** [.maybeSingle()]: [data] is the row when exactly one row matches and
    null otherwise (no rows: no error; several rows: an error). *)
Definition maybeSingle {A} (rows : list A) : option A :=
  match rows with
  | [x] => Some x
  | _ => None
  end.

(** [.eq(column, value)] over a table. *)
Definition where_eq {A} (col : A -> string) (v : string) (rows : list A) : list A :=
  filter (fun r => col r = v) rows.

Definition where_eq_opt {A} (col : A -> option string) (v : string)
    (rows : list A) : list A :=
  filter (fun r => col r = Some v) rows.

(** [.update(..).eq(column, value)]: every matching row is rewritten. *)
Definition update_where {A} (col : A -> string) (v : string) (f : A -> A)
    (rows : list A) : list A :=
  map (fun r => if decide (col r = v) then f r else r) rows.

(** [.delete().eq(column, value)] *)
Definition delete_where {A} (col : A -> string) (v : string) (rows : list A) : list A :=
  filter (fun r => col r ≠ v) rows.

(** ** Handlers: store state plus [AppError] exceptions *)

Record AppError := { message : string; statusCode : Z }.

Definition Handler (A : Type) : Type := Db -> Db * (AppError + A).

Definition ret {A} (a : A) : Handler A := fun db => (db, inr a).

Definition bind {A B} (m : Handler A) (k : A -> Handler B) : Handler B :=
  fun db =>
    match m db with
    | (db', inl e) => (db', inl e)
    | (db', inr a) => k a db'
    end.

Definition throw {A} (msg : string) (code : Z) : Handler A :=
  fun db => (db, inl {| message := msg; statusCode := code |}).

Definition query {A} (f : Db -> A) : Handler A := fun db => (db, inr (f db)).

Definition exec (f : Db -> Db) : Handler unit := fun db => (f db, inr tt).

Notation "x <~ m ;; k" := (bind m (fun x => k))
  (at level 100, m at next level, right associativity, only parsing).
Notation "m ;;; k" := (bind m (fun _ => k))
  (at level 100, right associativity, only parsing).

Definition fail_body (msg : string) : gmap string Json :=
  <["success" := JBool false]> (<["error" := JStr msg]> ∅).

(** The [catch] block of the admin and HOD controllers:
    [res.status(error.statusCode || 500).json({ success: false, error: error.message })]. *)
Definition catch_any (h : Handler Response) (db : Db) : Db * Response :=
  match h db with
  | (db', inr r) => (db', r)
  | (db', inl e) =>
      (db', {| status := if statusCode e =? 0 then 500 else statusCode e;
               json := fail_body (message e) |})
  end.

(** The [catch] block of the auth controller: an [AppError] keeps its own
    status code. *)
Definition catch_AppError (h : Handler Response) (db : Db) : Db * Response :=
  match h db with
  | (db', inr r) => (db', r)
  | (db', inl e) => (db', {| status := statusCode e; json := fail_body (message e) |})
  end.

(** ** Token codec *)

(** [TokenPayload] in [types/index.ts]. *)
Record TokenPayload := { userId : string; email : string; role : Role }.

(** The claims of an issued token: the payload plus the issue and expiry
    times, in seconds. *)
Record JwtClaims := { payload : TokenPayload; iat : Z; exp : Z }.

(** A signed token before serialization. *)
Record Jws := { claims : JwtClaims; signature : string }.

(** The primitives of the signing library: the keyed MAC and the compact
    serialization of a signed token with its parser. *)
Record TokenLib := {
  hmac : string -> JwtClaims -> string;
  jws_encode : Jws -> string;
  jws_decode : string -> option Jws
}.

(** ['7d'] in seconds. *)
Definition seven_days : Z := 7 * 24 * 60 * 60.

(** Modelled from the spec: the [jsonwebtoken] package ([jwt.sign]) is not
    among the sources. Section 4.1: issue embeds the payload plus issued and
    expiry timestamps, signs with the server-held secret, and the validity
    window is fixed by [expiresIn]. [now] is [Date.now()], in milliseconds. *)
Definition jwt_sign (L : TokenLib) (p : TokenPayload) (secret : string)
    (expiresIn : Z) (now : Z) : string :=
  let t := now / 1000 in
  let c := {| payload := p; iat := t; exp := t + expiresIn |} in
  jws_encode L {| claims := c; signature := hmac L secret c |}.

(** Modelled from the spec: the [jsonwebtoken] package ([jwt.verify]) is not
    among the sources. Section 4.1: verify checks signature and expiry and
    fails on a malformed token, a signature mismatch or an expired
    timestamp; [None] stands for the exception it raises. *)
Definition jwt_verify (L : TokenLib) (token secret : string) (now : Z)
    : option JwtClaims :=
  match jws_decode L token with
  | None => None
  | Some j =>
      if bool_decide (signature j = hmac L secret (claims j)) then
        if bool_decide (exp (claims j) <= now / 1000) then None
        else Some (claims j)
      else None
  end.

(** ** Requests *)

Record AuthRequest (B : Type) := {
  authorization : option string;
  user : option User;
  params_id : string;
  body : B
}.
Arguments authorization {B} _.
Arguments user {B} _.
Arguments params_id {B} _.
Arguments body {B} _.

Definition attach_user {B} (u : User) (req : AuthRequest B) : AuthRequest B :=
  {| authorization := authorization req; user := Some u;
     params_id := params_id req; body := body req |}.

(** What a middleware does with a request: call [next()] or send a response. *)
Inductive Outcome (B : Type) :=
| Next (req : AuthRequest B)
| Sent (res : Response).
Arguments Next {B} _.
Arguments Sent {B} _.

Definition error_body (msg : string) : gmap string Json := {[ "error" := JStr msg ]}.

(** ** middleware/auth.ts *)

Section Auth.
Variable L : TokenLib.
(** [process.env.JWT_SECRET] *)
Variable env_JWT_SECRET : option string.

Definition JWT_SECRET : string :=
  match env_JWT_SECRET with
  | Some s => if truthy (Some s) then s else "your-super-secret-jwt-token"
  | None => "your-super-secret-jwt-token"
  end.

(** [authHeader && authHeader.split(' ')[1]] *)
Definition bearer_token {B} (req : AuthRequest B) : option string :=
  match authorization req with
  | Some h => if truthy (Some h) then split " " h !! 1%nat else Some h
  | None => None
  end.

Definition authenticateToken {B} (db : Db) (now : Z) (req : AuthRequest B)
    : Outcome B :=
  match bearer_token req with
  | Some token =>
      if negb (truthy (Some token)) then
        Sent {| status := 401; json := error_body "Access token required" |}
      else
        match jwt_verify L token JWT_SECRET now with
        | None =>
            Sent {| status := 403; json := error_body "Invalid or expired token" |}
        | Some decoded =>
            match single (where_eq Users.id (userId (payload decoded)) (users db)) with
            | None => Sent {| status := 401; json := error_body "Invalid token" |}
            | Some u =>
                if negb (Users.is_active u) then
                  Sent {| status := 403;
                          json := error_body
                            "Account is not active. Please contact administrator." |}
                else Next (attach_user u req)
            end
        end
  | None => Sent {| status := 401; json := error_body "Access token required" |}
  end.

Definition authorizeRoles {B} (roles : list Role) (req : AuthRequest B)
    : Outcome B :=
  match user req with
  | None => Sent {| status := 401; json := error_body "Authentication required" |}
  | Some u =>
      if negb (includes roles (Users.role u)) then
        Sent {| status := 403;
                json :=
                  <["error" := JStr "Access denied. Insufficient permissions."]>
                  (<["required" := JArr (map (fun r => JStr (role_name r)) roles)]>
                  (<["current" := JStr (role_name (Users.role u))]> ∅)) |}
      else Next req
  end.

Definition generateToken (u : User) (now : Z) : string :=
  let payload :=
    {| userId := Users.id u; email := Users.email u; role := Users.role u |} in
  jwt_sign L payload JWT_SECRET seven_days now.

(** A protected route: [router.use(authenticateToken)],
    [router.use(authorizeRoles(..))], then the handler. *)
Definition protected {B} (roles : list Role)
    (handler : AuthRequest B -> Db -> Db * Response)
    (now : Z) (req : AuthRequest B) (db : Db) : Db * Response :=
  match authenticateToken db now req with
  | Sent r => (db, r)
  | Next req1 =>
      match authorizeRoles roles req1 with
      | Sent r => (db, r)
      | Next req2 => handler req2 db
      end
  end.

(** A route behind [authenticateToken] only, such as [GET /me]. *)
Definition authenticated {B}
    (handler : AuthRequest B -> Db -> Db * Response)
    (now : Z) (req : AuthRequest B) (db : Db) : Db * Response :=
  match authenticateToken db now req with
  | Sent r => (db, r)
  | Next req1 => handler req1 db
  end.

End Auth.

(** The allow-list each router declares. *)
Inductive RouteGroup :=
| AdminRoutes | HeadmasterRoutes | HodRoutes | TeacherRoutes
| ParentRoutes | StudentRoutes | RegisterRoute.

Definition allowed_roles (g : RouteGroup) : list Role :=
  match g with
  | AdminRoutes => [admin]
  | HeadmasterRoutes => [headmaster]
  | HodRoutes => [hod]
  | TeacherRoutes => [teacher]
  | ParentRoutes => [parent]
  | StudentRoutes => [student]
  | RegisterRoute => [admin]
  end.

(** ** The store's side of a write *)

(** [schema.sql] is not among the sources, so the constraints of the tables
    it declares are a parameter: for each insert the store answers with a
    SQLSTATE code when it rejects the rows and with [None] when it accepts
    them. [gen_id] is the [uuid_generate_v4()] default of an [id] column.
    [users_delete_reject] is the store's answer to
    [from('users').delete().eq('id', id)]: a code when it does not carry the
    delete out, in which case the table is as it was. *)
Record Store := {
  gen_id : Db -> string;
  users_reject : Db -> Users.row -> option string;
  users_delete_reject : Db -> string -> option string;
  subjects_reject : Db -> Subjects.row -> option string;
  subjects_update_reject : Db -> list Subjects.row -> option string;
  class_subjects_reject : Db -> ClassSubjects.row -> option string;
  teachers_reject : Db -> Teachers.row -> option string;
  students_reject : Db -> Students.row -> option string;
  parents_reject : Db -> Parents.row -> option string;
  student_parents_reject : Db -> list StudentParents.row -> option string
}.

(** Modelled from the spec: the declaration of [student_parents] is in
    [schema.sql], which is not among the sources. Section 3: a junction row
    is unique on its natural key, by a unique constraint at the store; a
    bulk insert that would repeat a (parent, student) pair is refused as a
    whole with SQLSTATE 23505. Whatever else the table declares is left to
    [student_parents_reject]. *)
Definition student_parents_verdict (S : Store) (db : Db)
    (rows : list StudentParents.row) : option string :=
  if bool_decide (NoDup rows) &&
     forallb (fun r => bool_decide (r ∉ student_parents db)) rows
  then student_parents_reject S db rows
  else Some "23505".

(** [academic_structure_migration.sql]: [UNIQUE(subject_id, academic_level_id)]
    and the two [REFERENCES] clauses of [subject_academic_levels]. *)
Definition subject_academic_levels_verdict (db : Db)
    (r : SubjectAcademicLevels.row) : option string :=
  if bool_decide
       (Exists (fun x =>
          SubjectAcademicLevels.subject_id x = SubjectAcademicLevels.subject_id r ∧
          SubjectAcademicLevels.academic_level_id x =
            SubjectAcademicLevels.academic_level_id r)
        (subject_academic_levels db))
  then Some "23505"
  else if bool_decide
       (Exists (fun s => Subjects.id s = SubjectAcademicLevels.subject_id r)
          (subjects db) ∧
        Exists (fun l => AcademicLevels.id l = SubjectAcademicLevels.academic_level_id r)
          (academic_levels db))
  then None
  else Some "23503".

(** What the handlers take from the runtime: [bcrypt], the ISO rendering of
    a timestamp, and [String.prototype.toLowerCase], which lower-cases by
    the Unicode case mappings of the engine. *)
Record Runtime := {
  bcrypt_hash : string -> string;
  bcrypt_compare : string -> string -> bool;
  toISOString : Z -> string;
  toLowerCase : string -> string
}.

(** ** Request bodies *)

Module AssignTeacherBody.
Record t := {
  teacher_id : option string;
  subject_id : option string;
  class_id : option string
}.
End AssignTeacherBody.

Module LinkBody.
(** [student_ids] is [None] when the field is absent or not an array. *)
Record t := { parent_id : option string; student_ids : option (list string) }.
End LinkBody.

Module UnlinkBody.
Record t := { parent_id : option string; student_id : option string }.
End UnlinkBody.

Module LevelSubjectBody.
(** [is_required] is [None] when the field is [undefined]. *)
Record t := {
  academic_level_id : option string;
  subject_id : option string;
  is_required : option bool
}.
End LevelSubjectBody.

Module SubjectBody.
(** The three fields the HOD handlers read, and the department a client
    may put next to them. *)
Record t := {
  name : option string;
  code : option string;
  description : option string;
  department_id : option string
}.
End SubjectBody.

Module LoginRequest.
Record t := { email : option string; password : option string }.
End LoginRequest.

Module RegisterUserRequest.
Record t := {
  email : option string;
  password : option string;
  role : option string;
  first_name : option string;
  last_name : option string;
  phone : option string;
  department_id : option string;
  subject_id : option string;
  class_id : option string;
  date_of_birth : option string;
  gender : option string;
  address : option string;
  relationship : option string;
  occupation : option string
}.
End RegisterUserRequest.

Definition str (o : option string) : string := default "" o.

Definition ok_body (msg : string) : gmap string Json :=
  <["success" := JBool true]> (<["message" := JStr msg]> ∅).

(** ** controllers/adminController.ts *)

Section AdminController.
Variable S : Store.

Definition deactivateUser {B} (req : AuthRequest B) : Handler Response :=
  let id := params_id req in
  if bool_decide (Some id = Users.id <$> user req) then
    throw "Cannot deactivate your own account" 400
  else
    exec (with_users (update_where Users.id id (Users.set_active false))) ;;;
    data <~ query (fun db => single (where_eq Users.id id (users db))) ;;
    match data with
    | None => throw "Failed to deactivate user" 500
    | Some u =>
        ret {| status := 200;
               json :=
                 <["user" := JObj
                    (<["id" := JStr (Users.id u)]>
                    (<["email" := JStr (Users.email u)]>
                    (<["first_name" := JStr (Users.first_name u)]>
                    (<["last_name" := JStr (Users.last_name u)]>
                    (<["is_active" := JBool (Users.is_active u)]> ∅)))))]>
                 (ok_body "User deactivated successfully") |}
    end.

(** The embedded resources of the [select] that follows the insert of a
    [class_subjects] row. *)
Definition class_ref (db : Db) (id : string) : Json :=
  match single (where_eq Classes.id id (classes db)) with
  | Some c =>
      JObj (<["id" := JStr (Classes.id c)]>
            (<["name" := JStr (Classes.name c)]>
            (<["level" := opt_json (Classes.level c)]> ∅)))
  | None => JNull
  end.

Definition subject_ref (db : Db) (id : string) : Json :=
  match single (where_eq Subjects.id id (subjects db)) with
  | Some s =>
      JObj (<["id" := JStr (Subjects.id s)]>
            (<["name" := opt_json (Subjects.name s)]>
            (<["code" := opt_json (Subjects.code s)]> ∅)))
  | None => JNull
  end.

Definition teacher_ref (db : Db) (id : string) : Json :=
  match single (where_eq Users.id id (users db)) with
  | Some u =>
      JObj (<["id" := JStr (Users.id u)]>
            (<["first_name" := JStr (Users.first_name u)]>
            (<["last_name" := JStr (Users.last_name u)]>
            (<["email" := JStr (Users.email u)]> ∅))))
  | None => JNull
  end.

Definition assignTeacherToSubject (req : AuthRequest AssignTeacherBody.t)
    : Handler Response :=
  let teacher_id := AssignTeacherBody.teacher_id (body req) in
  let subject_id := AssignTeacherBody.subject_id (body req) in
  let class_id := AssignTeacherBody.class_id (body req) in
  if negb (truthy teacher_id) || negb (truthy subject_id) || negb (truthy class_id)
  then throw "teacher_id, subject_id, and class_id are required" 400
  else
    (* Verify teacher exists and has teacher role *)
    tch <~ query (fun db =>
      single (filter (fun u => Users.id u = str teacher_id ∧ Users.role u = teacher)
                (users db))) ;;
    if negb (bool_decide (is_Some tch)) then
      throw "Teacher not found or user is not a teacher" 404
    else
    (* Verify subject exists *)
    subject <~ query (fun db =>
      single (where_eq Subjects.id (str subject_id) (subjects db))) ;;
    if negb (bool_decide (is_Some subject)) then throw "Subject not found" 404
    else
    (* Verify class exists *)
    classData <~ query (fun db =>
      single (where_eq Classes.id (str class_id) (classes db))) ;;
    if negb (bool_decide (is_Some classData)) then throw "Class not found" 404
    else
    (* Check if this assignment already exists *)
    existing <~ query (fun db =>
      maybeSingle
        (filter (fun r => ClassSubjects.class_id r = str class_id ∧
                          ClassSubjects.subject_id r = str subject_id ∧
                          ClassSubjects.teacher_id r = str teacher_id)
           (class_subjects db))) ;;
    if bool_decide (is_Some existing) then
      throw "This teacher is already assigned to teach this subject in this class" 409
    else
    (* Create the assignment *)
    row <~ query (fun db =>
      {| ClassSubjects.id := gen_id S db;
         ClassSubjects.class_id := str class_id;
         ClassSubjects.subject_id := str subject_id;
         ClassSubjects.teacher_id := str teacher_id |}) ;;
    error <~ query (fun db => class_subjects_reject S db row) ;;
    match error with
    | Some _ => throw "Failed to assign teacher to subject" 500
    | None =>
        exec (with_class_subjects (fun t => t ++ [row])) ;;;
        data <~ query (fun db =>
          <["id" := JStr (ClassSubjects.id row)]>
          (<["class" := class_ref db (ClassSubjects.class_id row)]>
          (<["subject" := subject_ref db (ClassSubjects.subject_id row)]>
          (<["teacher" := teacher_ref db (ClassSubjects.teacher_id row)]> ∅)))) ;;
        ret {| status := 201;
               json := <["assignment" := JObj data]>
                       (ok_body "Teacher assigned to subject successfully") |}
    end.

Definition linkParentToStudents (req : AuthRequest LinkBody.t) : Handler Response :=
  let parent_id := LinkBody.parent_id (body req) in
  match LinkBody.student_ids (body req) with
  | None => throw "parent_id and student_ids array are required" 400
  | Some student_ids =>
      if negb (truthy parent_id) || bool_decide (length student_ids = 0%nat) then
        throw "parent_id and student_ids array are required" 400
      else
        (* Verify parent exists *)
        par <~ query (fun db =>
          single (where_eq Parents.id (str parent_id) (parents db))) ;;
        if negb (bool_decide (is_Some par)) then throw "Parent not found" 404
        else
        (* Create student_parents records for each student *)
        let studentParentRecords :=
          map (fun student_id =>
                 {| StudentParents.parent_id := str parent_id;
                    StudentParents.student_id := student_id |}) student_ids in
        error <~ query (fun db => student_parents_verdict S db studentParentRecords) ;;
        match error with
        | Some code =>
            (* Handle duplicate entries gracefully *)
            if String.eqb code "23505" then
              throw "One or more students are already linked to this parent" 409
            else throw "Failed to link parent to students" 500
        | None =>
            exec (with_student_parents (fun t => t ++ studentParentRecords)) ;;;
            ret {| status := 201;
                   json := <["data" := JArr (map StudentParents.to_json
                                               studentParentRecords)]>
                           (ok_body "Parent linked to students successfully") |}
        end
  end.

Definition unlinkParentFromStudent (req : AuthRequest UnlinkBody.t)
    : Handler Response :=
  let parent_id := UnlinkBody.parent_id (body req) in
  let student_id := UnlinkBody.student_id (body req) in
  if negb (truthy parent_id) || negb (truthy student_id) then
    throw "parent_id and student_id are required" 400
  else
    exec (with_student_parents
            (filter (fun r => ¬ (StudentParents.parent_id r = str parent_id ∧
                                 StudentParents.student_id r = str student_id)))) ;;;
    ret {| status := 200;
           json := ok_body "Parent unlinked from student successfully" |}.

Definition assignSubjectToAcademicLevel (req : AuthRequest LevelSubjectBody.t)
    : Handler Response :=
  let academic_level_id := LevelSubjectBody.academic_level_id (body req) in
  let subject_id := LevelSubjectBody.subject_id (body req) in
  let is_required := LevelSubjectBody.is_required (body req) in
  if negb (truthy academic_level_id) || negb (truthy subject_id) then
    throw "academic_level_id and subject_id are required" 400
  else
    row <~ query (fun db =>
      {| SubjectAcademicLevels.id := gen_id S db;
         SubjectAcademicLevels.subject_id := str subject_id;
         SubjectAcademicLevels.academic_level_id := str academic_level_id;
         SubjectAcademicLevels.is_required :=
           match is_required with Some b => b | None => true end |}) ;;
    error <~ query (fun db => subject_academic_levels_verdict db row) ;;
    match error with
    | Some code =>
        if String.eqb code "23505" then
          throw "Subject already assigned to this academic level" 409
        else throw "Failed to assign subject to academic level" 500
    | None =>
        exec (with_subject_academic_levels (fun t => t ++ [row])) ;;;
        ret {| status := 201;
               json := <["data" := JObj (SubjectAcademicLevels.to_json row)]>
                       (ok_body "Subject assigned to academic level successfully") |}
    end.

End AdminController.

(** ** controllers/hodController.ts *)

Section HodController.
Variable S : Store.

(** [supabase.from('departments').select('id').eq('hod_id', userId).single()]
    with [userId = req.user?.id]. *)
Definition my_department {B} (req : AuthRequest B) (db : Db)
    : option Departments.row :=
  match user req with
  | Some u => single (where_eq_opt Departments.hod_id (Users.id u) (departments db))
  | None => None
  end.

Definition createSubject (req : AuthRequest SubjectBody.t) : Handler Response :=
  let name := SubjectBody.name (body req) in
  let code := SubjectBody.code (body req) in
  let description := SubjectBody.description (body req) in
  department <~ query (my_department req) ;;
  match department with
  | None => throw "Department not found" 404
  | Some department =>
      row <~ query (fun db =>
        {| Subjects.id := gen_id S db;
           Subjects.name := name;
           Subjects.code := code;
           Subjects.description := description;
           Subjects.department_id := Some (Departments.id department) |}) ;;
      error <~ query (fun db => subjects_reject S db row) ;;
      match error with
      | Some sqlstate =>
          if String.eqb sqlstate "23505" then
            throw "Subject with this code already exists" 409
          else throw "Failed to create subject" 500
      | None =>
          exec (with_subjects (fun t => t ++ [row])) ;;;
          ret {| status := 201;
                 json := <["subject" := JObj (Subjects.to_json row)]>
                         (ok_body "Subject created successfully") |}
      end
  end.

(** The [updates] object of [updateSubject] applied to a row. *)
Definition apply_updates (b : SubjectBody.t) (s : Subjects.row) : Subjects.row :=
  {| Subjects.id := Subjects.id s;
     Subjects.name :=
       if truthy (SubjectBody.name b) then SubjectBody.name b else Subjects.name s;
     Subjects.code :=
       if truthy (SubjectBody.code b) then SubjectBody.code b else Subjects.code s;
     Subjects.description :=
       match SubjectBody.description b with
       | Some d => Some d
       | None => Subjects.description s
       end;
     Subjects.department_id := Subjects.department_id s |}.

Definition updateSubject (req : AuthRequest SubjectBody.t) : Handler Response :=
  let id := params_id req in
  department <~ query (my_department req) ;;
  match department with
  | None => throw "Access denied" 403
  | Some department =>
      let hit (s : Subjects.row) : Prop :=
        Subjects.id s = id ∧
        Subjects.department_id s = Some (Departments.id department) in
      changed <~ query (fun db =>
        map (apply_updates (body req)) (filter hit (subjects db))) ;;
      error <~ query (fun db => subjects_update_reject S db changed) ;;
      match error, single changed with
      | None, Some data =>
          exec (with_subjects
                  (map (fun s => if decide (hit s)
                                 then apply_updates (body req) s else s))) ;;;
          ret {| status := 200;
                 json := <["subject" := JObj (Subjects.to_json data)]>
                         (ok_body "Subject updated successfully") |}
      | None, None =>
          exec (with_subjects
                  (map (fun s => if decide (hit s)
                                 then apply_updates (body req) s else s))) ;;;
          throw "Failed to update subject" 500
      | Some _, _ => throw "Failed to update subject" 500
      end
  end.

End HodController.

(** ** controllers/authController.ts *)

Section AuthController.
Variable L : TokenLib.
Variable env_JWT_SECRET : option string.
Variable R : Runtime.
Variable S : Store.

Definition login (now : Z) (req : AuthRequest LoginRequest.t) : Handler Response :=
  let email := LoginRequest.email (body req) in
  let password := LoginRequest.password (body req) in
  if negb (truthy email) || negb (truthy password) then
    throw "Email and password are required" 400
  else
    found <~ query (fun db =>
      single (where_eq Users.email (toLowerCase R (str email)) (users db))) ;;
    match found with
    | None => throw "Invalid email or password" 401
    | Some u =>
        if negb (bcrypt_compare R (str password) (Users.password_hash u)) then
          throw "Invalid email or password" 401
        else if negb (Users.is_active u) then
          throw "Your account is not active. Please contact the administrator." 403
        else
          exec (with_users
                  (update_where Users.id (Users.id u)
                     (Users.set_last_login (toISOString R now)))) ;;;
          let token := generateToken L env_JWT_SECRET u now in
          let userWithoutPassword := delete "password_hash" (Users.to_json u) in
          ret {| status := 200;
                 json := <["token" := JStr token]>
                         (<["user" := JObj userWithoutPassword]>
                         (ok_body "Login successful")) |}
    end.

(** [new Date().toISOString().split('T')[0]] *)
Definition today (now : Z) : string :=
  str (split "T" (toISOString R now) !! 0%nat).

(** [await supabase.from('users').delete().eq('id', id);] as the three
    rollbacks of [register] write it: what the store answers is not looked
    at, so a delete the store does not carry out goes unnoticed. *)
Definition rollback_user (id : string) : Handler unit :=
  error <~ query (fun db => users_delete_reject S db id) ;;
  match error with
  | Some _ => ret tt
  | None => exec (with_users (delete_where Users.id id))
  end.

Definition register (now : Z) (req : AuthRequest RegisterUserRequest.t)
    : Handler Response :=
  let b := body req in
  if negb (bool_decide (Users.role <$> user req = Some admin)) then
    throw "Only administrators can register new users" 403
  else if negb (truthy (RegisterUserRequest.email b))
       || negb (truthy (RegisterUserRequest.password b))
       || negb (truthy (RegisterUserRequest.role b))
       || negb (truthy (RegisterUserRequest.first_name b))
       || negb (truthy (RegisterUserRequest.last_name b)) then
    throw "Required fields: email, password, role, first_name, last_name" 400
  else
  match role_of_string (str (RegisterUserRequest.role b)) with
  | None => throw "Invalid role" 400
  | Some role =>
    let email := toLowerCase R (str (RegisterUserRequest.email b)) in
    existingUser <~ query (fun db => single (where_eq Users.email email (users db))) ;;
    if bool_decide (is_Some existingUser) then
      throw "User with this email already exists" 409
    else
    let hashedPassword := bcrypt_hash R (str (RegisterUserRequest.password b)) in
    newUser <~ query (fun db =>
      {| Users.id := gen_id S db;
         Users.email := email;
         Users.password_hash := hashedPassword;
         Users.role := role;
         Users.first_name := str (RegisterUserRequest.first_name b);
         Users.last_name := str (RegisterUserRequest.last_name b);
         Users.phone := RegisterUserRequest.phone b;
         Users.profile_image := None;
         Users.is_active := true;
         Users.last_login := None |}) ;;
    error <~ query (fun db => users_reject S db newUser) ;;
    match error with
    | Some _ => throw "Failed to create user" 500
    | None =>
      exec (with_users (fun t => t ++ [newUser])) ;;;
      (* If role is teacher, create an entry in the teachers table *)
      (if bool_decide (role = teacher) then
         row <~ query (fun db =>
           {| Teachers.id := gen_id S db;
              Teachers.user_id := Users.id newUser;
              Teachers.employee_number := "TCH" +:+ pretty now;
              Teachers.department_id := or_null (RegisterUserRequest.department_id b);
              Teachers.hire_date := today now |}) ;;
         teacherError <~ query (fun db => teachers_reject S db row) ;;
         match teacherError with
         | Some _ =>
             (* Rollback user creation if teacher entry fails *)
             rollback_user (Users.id newUser) ;;;
             throw "Failed to create teacher profile" 500
         | None => exec (with_teachers (fun t => t ++ [row]))
         end
       else ret tt) ;;;
      (* If role is student, create an entry in the students table *)
      studentData <~
        (if bool_decide (role = student) then
           row <~ query (fun db =>
             {| Students.id := gen_id S db;
                Students.user_id := Users.id newUser;
                Students.student_number := "STU" +:+ pretty now;
                Students.class_id := or_null (RegisterUserRequest.class_id b);
                Students.date_of_birth := or_null (RegisterUserRequest.date_of_birth b);
                Students.gender := or_null (RegisterUserRequest.gender b);
                Students.address := or_null (RegisterUserRequest.address b);
                Students.enrollment_date := today now |}) ;;
           studentError <~ query (fun db => students_reject S db row) ;;
           match studentError with
           | Some _ =>
               (* Rollback user creation if student entry fails *)
               rollback_user (Users.id newUser) ;;;
               throw "Failed to create student profile" 500
           | None =>
               exec (with_students (fun t => t ++ [row])) ;;; ret (Some row)
           end
         else ret None) ;;
      (* If role is parent, create an entry in the parents table *)
      parentData <~
        (if bool_decide (role = parent) then
           row <~ query (fun db =>
             {| Parents.id := gen_id S db;
                Parents.user_id := Users.id newUser;
                Parents.relationship := or_null (RegisterUserRequest.relationship b);
                Parents.occupation := or_null (RegisterUserRequest.occupation b) |}) ;;
           parentError <~ query (fun db => parents_reject S db row) ;;
           match parentError with
           | Some _ =>
               (* Rollback user creation if parent entry fails *)
               rollback_user (Users.id newUser) ;;;
               throw "Failed to create parent profile" 500
           | None =>
               exec (with_parents (fun t => t ++ [row])) ;;; ret (Some row)
           end
         else ret None) ;;
      let userWithoutPassword := delete "password_hash" (Users.to_json newUser) in
      ret {| status := 201;
             json := <["user" := JObj userWithoutPassword]>
                     (<["student_id" := opt_json (or_null (Students.id <$> studentData))]>
                     (<["parent_id" := opt_json (or_null (Parents.id <$> parentData))]>
                     (ok_body "User registered successfully"))) |}
    end
  end.

End AuthController.

(** ** A small school on which the handlers are run *)

Definition sample_user (id email : string) (r : Role) (active : bool) : User :=
  {| Users.id := id; Users.email := email; Users.password_hash := "$2a$10$" +:+ id;
     Users.role := r; Users.first_name := "First"; Users.last_name := "Last";
     Users.phone := None; Users.profile_image := None;
     Users.is_active := active; Users.last_login := None |}.

Definition root_admin : User := sample_user "u-admin" "admin@school.com" admin true.
Definition head_of_science : User := sample_user "u-hod" "hod@school.com" hod true.
Definition retired_teacher : User := sample_user "u-old" "old@school.com" teacher false.
Definition maths_teacher : User := sample_user "u-tch" "tch@school.com" teacher true.

Definition sample_db : Db :=
  {| users := [root_admin; head_of_science; retired_teacher; maths_teacher];
     departments :=
       [ {| Departments.id := "d-sci"; Departments.name := "Science";
            Departments.hod_id := Some "u-hod" |};
         {| Departments.id := "d-art"; Departments.name := "Arts";
            Departments.hod_id := None |} ];
     subjects :=
       [ {| Subjects.id := "s-phy"; Subjects.name := Some "Physics";
            Subjects.code := Some "PHY"; Subjects.description := None;
            Subjects.department_id := Some "d-sci" |} ];
     classes := [ {| Classes.id := "c-1a"; Classes.name := "1A";
                     Classes.level := Some "Form 1" |} ];
     class_subjects := [];
     teachers := [ {| Teachers.id := "t-1"; Teachers.user_id := "u-tch";
                      Teachers.employee_number := "TCH1";
                      Teachers.department_id := Some "d-sci";
                      Teachers.hire_date := "2024-01-01" |};
                   {| Teachers.id := "t-2"; Teachers.user_id := "u-old";
                      Teachers.employee_number := "TCH2";
                      Teachers.department_id := None;
                      Teachers.hire_date := "2001-01-01" |} ];
     students := [];
     parents := [ {| Parents.id := "p-1"; Parents.user_id := "u-par";
                     Parents.relationship := None; Parents.occupation := None |} ];
     student_parents :=
       [ {| StudentParents.parent_id := "p-1"; StudentParents.student_id := "st-1" |} ];
     academic_levels := [ {| AcademicLevels.id := "l-f1"; AcademicLevels.name := "Form 1" |} ];
     subject_academic_levels := [] |}.

(** A store that accepts every row the handlers send. *)
Definition lenient_store : Store :=
  {| gen_id := fun _ => "new-id";
     users_reject := fun _ _ => None;
     users_delete_reject := fun _ _ => None;
     subjects_reject := fun _ _ => None;
     subjects_update_reject := fun _ _ => None;
     class_subjects_reject := fun _ _ => None;
     teachers_reject := fun _ _ => None;
     students_reject := fun _ _ => None;
     parents_reject := fun _ _ => None;
     student_parents_reject := fun _ _ => None |}.

(** A store whose role-profile tables refuse every row. *)
Definition strict_profile_store : Store :=
  {| gen_id := fun _ => "new-id";
     users_reject := fun _ _ => None;
     users_delete_reject := fun _ _ => None;
     subjects_reject := fun _ _ => None;
     subjects_update_reject := fun _ _ => None;
     class_subjects_reject := fun _ _ => None;
     teachers_reject := fun _ _ => Some "23503";
     students_reject := fun _ _ => Some "23503";
     parents_reject := fun _ _ => Some "23503";
     student_parents_reject := fun _ _ => None |}.

(** A store whose role-profile tables refuse every row and that carries out
    no delete on the users table. *)
Definition unreliable_store : Store :=
  {| gen_id := fun _ => "new-id";
     users_reject := fun _ _ => None;
     users_delete_reject := fun _ _ => Some "08006";
     subjects_reject := fun _ _ => None;
     subjects_update_reject := fun _ _ => None;
     class_subjects_reject := fun _ _ => None;
     teachers_reject := fun _ _ => Some "23503";
     students_reject := fun _ _ => Some "23503";
     parents_reject := fun _ _ => Some "23503";
     student_parents_reject := fun _ _ => None |}.

Definition sample_runtime : Runtime :=
  {| bcrypt_hash := fun p => "$2a$10$" +:+ p;
     bcrypt_compare := fun p h => String.eqb ("$2a$10$" +:+ p) h;
     toISOString := fun _ => "2026-01-05T08:00:00.000Z";
     toLowerCase := lower_ascii_string |}.

Definition old_claims : JwtClaims :=
  {| payload := {| userId := "u-old"; email := "old@school.com"; role := teacher |};
     iat := 1700000000; exp := 1700604800 |}.

(** A token library that knows one token, the one issued to
    [retired_teacher] at [iat old_claims]. *)
Definition sample_lib : TokenLib :=
  {| hmac := fun secret c => secret +:+ "/" +:+ userId (payload c);
     jws_encode := fun j => userId (payload (claims j)) +:+ "." +:+ signature j;
     jws_decode := fun s =>
       if String.eqb s "u-old.your-super-secret-jwt-token/u-old" then
         Some {| claims := old_claims;
                 signature := "your-super-secret-jwt-token/u-old" |}
       else None |}.

Definition request {B} (auth : option string) (u : option User) (id : string)
    (b : B) : AuthRequest B :=
  {| authorization := auth; user := u; params_id := id; body := b |}.

Definition noop_handler {B} (_ : AuthRequest B) (db : Db) : Db * Response :=
  (db, {| status := 200; json := ok_body "ok" |}).

(** ** Vocabulary of the properties *)

(** The answers of the two gates. *)
Definition account_disabled : Response :=
  {| status := 403;
     json := error_body "Account is not active. Please contact administrator." |}.

Definition access_denied (roles : list Role) (r : Role) : Response :=
  {| status := 403;
     json := <["error" := JStr "Access denied. Insufficient permissions."]>
             (<["required" := JArr (map (fun r => JStr (role_name r)) roles)]>
             (<["current" := JStr (role_name r)]> ∅)) |}.

(** The condition as C3 words it: [teacher_id] resolves to an active identity
    whose role is teacher. *)
Definition resolves_active_teacher (db : Db) (teacher_id : string) : bool :=
  bool_decide (is_Some (single
    (filter (fun u => Users.id u = teacher_id ∧ Users.role u = teacher ∧
                      Users.is_active u = true) (users db)))).


(** The row assigns subject [s] to academic level [l]. *)
Definition same_pair (l s : string) (x : SubjectAcademicLevels.row) : Prop :=
  SubjectAcademicLevels.subject_id x = s ∧
  SubjectAcademicLevels.academic_level_id x = l.

(** The identity has a row in the table of its role, when its role has one. *)
Definition has_profile (db : Db) (u : User) : Prop :=
  match Users.role u with
  | teacher => Exists (fun t => Teachers.user_id t = Users.id u) (teachers db)
  | student => Exists (fun s => Students.user_id s = Users.id u) (students db)
  | parent => Exists (fun p => Parents.user_id p = Users.id u) (parents db)
  | _ => True
  end.

(** Every identity with the teacher, student or parent role has its row in
    the table of that role. *)
Definition profiles_complete (db : Db) : Prop := Forall (has_profile db) (users db).

(** The request passes the checks [register] makes before it reads the
    store, and asks for [role]. *)
Definition well_formed (req : AuthRequest RegisterUserRequest.t) (role : Role) : Prop :=
  Users.role <$> user req = Some admin ∧
  truthy (RegisterUserRequest.email (body req)) = true ∧
  truthy (RegisterUserRequest.password (body req)) = true ∧
  truthy (RegisterUserRequest.role (body req)) = true ∧
  truthy (RegisterUserRequest.first_name (body req)) = true ∧
  truthy (RegisterUserRequest.last_name (body req)) = true ∧
  role_of_string (str (RegisterUserRequest.role (body req))) = Some role.

(** A row of one of the three role-profile tables. *)
Inductive Profile :=
| TeacherProfile (r : Teachers.row)
| StudentProfile (r : Students.row)
| ParentProfile (r : Parents.row).

Definition profile_role (p : Profile) : Role :=
  match p with
  | TeacherProfile _ => teacher
  | StudentProfile _ => student
  | ParentProfile _ => parent
  end.

Definition profile_user_id (p : Profile) : string :=
  match p with
  | TeacherProfile r => Teachers.user_id r
  | StudentProfile r => Students.user_id r
  | ParentProfile r => Parents.user_id r
  end.

(** The store's answer to the insert of the profile row. *)
Definition profile_reject (S : Store) (db : Db) (p : Profile) : option string :=
  match p with
  | TeacherProfile r => teachers_reject S db r
  | StudentProfile r => students_reject S db r
  | ParentProfile r => parents_reject S db r
  end.

(** The store with the profile row appended to its table. *)
Definition add_profile (p : Profile) (db : Db) : Db :=
  match p with
  | TeacherProfile r => with_teachers (fun t => t ++ [r]) db
  | StudentProfile r => with_students (fun t => t ++ [r]) db
  | ParentProfile r => with_parents (fun t => t ++ [r]) db
  end.

(** The store with the user row appended. *)
Definition add_user (newUser : User) (db : Db) : Db :=
  with_users (fun t => t ++ [newUser]) db.

(** The store after the user row was inserted and deleted again. *)
Definition rolled_back (newUser : User) (db : Db) : Db :=
  with_users (delete_where Users.id (Users.id newUser)) (add_user newUser db).

(** No row of the users table has the id. *)
Definition unused_id (id : string) (db : Db) : Prop :=
  Forall (fun u => Users.id u ≠ id) (users db).

(** No row of the three role-profile tables refers to the id. *)
Definition unreferenced (id : string) (db : Db) : Prop :=
  Forall (fun t => Teachers.user_id t ≠ id) (teachers db) ∧
  Forall (fun s => Students.user_id s ≠ id) (students db) ∧
  Forall (fun p => Parents.user_id p ≠ id) (parents db).

(** The ways a call of [register] can end. *)
Inductive register_end (S : Store) (db : Db) : Db * Response -> Prop :=
| reg_refused (code : Z) (msg : string) :
    code ≠ 201 ->
    register_end S db (db, {| status := code; json := fail_body msg |})
| reg_rolled_back (newUser : User) (msg : string) :
    Users.role newUser ∈ [teacher; student; parent] ->
    Users.id newUser = gen_id S db ->
    users_delete_reject S (add_user newUser db) (Users.id newUser) = None ->
    register_end S db
      (rolled_back newUser db, {| status := 500; json := fail_body msg |})
| reg_orphaned (newUser : User) (msg : string) (e : string) :
    Users.role newUser ∈ [teacher; student; parent] ->
    Users.id newUser = gen_id S db ->
    users_delete_reject S (add_user newUser db) (Users.id newUser) = Some e ->
    register_end S db
      (add_user newUser db, {| status := 500; json := fail_body msg |})
| reg_plain (newUser : User) (body : gmap string Json) :
    Users.role newUser ∉ [teacher; student; parent] ->
    body !! "user" = Some (JObj (delete "password_hash" (Users.to_json newUser))) ->
    register_end S db (add_user newUser db, {| status := 201; json := body |})
| reg_profiled (newUser : User) (p : Profile) (body : gmap string Json) :
    Users.role newUser = profile_role p ->
    profile_user_id p = Users.id newUser ->
    profile_reject S (add_user newUser db) p = None ->
    body !! "user" = Some (JObj (delete "password_hash" (Users.to_json newUser))) ->
    register_end S db
      (add_profile p (add_user newUser db), {| status := 201; json := body |}).

(** *** What a response shows *)

(** Some object of the JSON value, at any depth, has the key. *)
Fixpoint has_key (k : string) (j : Json) : bool :=
  match j with
  | JArr l => existsb (has_key k) l
  | JObj o => bool_decide (is_Some (o !! k)) ||
              map_fold (fun _ v found => has_key k v || found) false o
  | _ => false
  end.

(** The two rows agree in every column but, possibly, the password hash. *)
Definition same_public (u u' : User) : Prop :=
  Users.id u = Users.id u' ∧ Users.email u = Users.email u' ∧
  Users.role u = Users.role u' ∧ Users.first_name u = Users.first_name u' ∧
  Users.last_name u = Users.last_name u' ∧ Users.phone u = Users.phone u' ∧
  Users.profile_image u = Users.profile_image u' ∧
  Users.is_active u = Users.is_active u' ∧ Users.last_login u = Users.last_login u'.

(** The store draws the same id after either of two user rows that differ
    in the password hash only was appended. *)
Definition draws_blind_to_hash (S : Store) (db : Db) : Prop :=
  forall u u', same_public u u' -> gen_id S (add_user u db) = gen_id S (add_user u' db).

Ltac decide_roles :=
  repeat match goal with
  | |- context [bool_decide (?a = ?b)] =>
      first [ rewrite (bool_decide_eq_true_2 (a = b)) by done
            | rewrite (bool_decide_eq_false_2 (a = b)) by done ]
  end.

Definition new_teacher_request : AuthRequest RegisterUserRequest.t :=
  request None (Some root_admin) ""
    {| RegisterUserRequest.email := Some "New.Teacher@School.com";
       RegisterUserRequest.password := Some "s3cret";
       RegisterUserRequest.role := Some "teacher";
       RegisterUserRequest.first_name := Some "New";
       RegisterUserRequest.last_name := Some "Teacher";
       RegisterUserRequest.phone := None;
       RegisterUserRequest.department_id := Some "d-none";
       RegisterUserRequest.subject_id := None;
       RegisterUserRequest.class_id := None;
       RegisterUserRequest.date_of_birth := None;
       RegisterUserRequest.gender := None;
       RegisterUserRequest.address := None;
       RegisterUserRequest.relationship := None;
       RegisterUserRequest.occupation := None |}.

Definition new_student_request : AuthRequest RegisterUserRequest.t :=
  request None (Some root_admin) ""
    {| RegisterUserRequest.email := Some "New.Student@School.com";
       RegisterUserRequest.password := Some "s3cret";
       RegisterUserRequest.role := Some "student";
       RegisterUserRequest.first_name := Some "New";
       RegisterUserRequest.last_name := Some "Student";
       RegisterUserRequest.phone := None;
       RegisterUserRequest.department_id := None;
       RegisterUserRequest.subject_id := None;
       RegisterUserRequest.class_id := None;
       RegisterUserRequest.date_of_birth := None;
       RegisterUserRequest.gender := Some "F";
       RegisterUserRequest.address := None;
       RegisterUserRequest.relationship := None;
       RegisterUserRequest.occupation := None |}.

Definition new_parent_request : AuthRequest RegisterUserRequest.t :=
  request None (Some root_admin) ""
    {| RegisterUserRequest.email := Some "New.Parent@School.com";
       RegisterUserRequest.password := Some "s3cret";
       RegisterUserRequest.role := Some "parent";
       RegisterUserRequest.first_name := Some "New";
       RegisterUserRequest.last_name := Some "Parent";
       RegisterUserRequest.phone := None;
       RegisterUserRequest.department_id := None;
       RegisterUserRequest.subject_id := None;
       RegisterUserRequest.class_id := None;
       RegisterUserRequest.date_of_birth := None;
       RegisterUserRequest.gender := None;
       RegisterUserRequest.address := None;
       RegisterUserRequest.relationship := Some "mother";
       RegisterUserRequest.occupation := None |}.
(** * More of the controllers *)

(** ** controllers/adminController.ts: users *)

Module CreateUserBody.
Record t := {
  email : option string;
  password : option string;
  role : option string;
  first_name : option string;
  last_name : option string;
  phone : option string
}.
End CreateUserBody.

Section AdminUsers.
Variable R : Runtime.
Variable S : Store.
(** What the store makes of [DELETE FROM users WHERE id = ..]: [schema.sql]
    is not among the sources, so whether dependent rows block or follow the
    delete is the store's: [None] when it refuses, the new store otherwise. *)
Variable delete_user : Db -> string -> option Db.

Definition createUser (req : AuthRequest CreateUserBody.t) : Handler Response :=
  let b := body req in
  if negb (truthy (CreateUserBody.email b))
     || negb (truthy (CreateUserBody.password b))
     || negb (truthy (CreateUserBody.role b))
     || negb (truthy (CreateUserBody.first_name b))
     || negb (truthy (CreateUserBody.last_name b)) then
    throw "Required fields missing" 400
  else
  match role_of_string (str (CreateUserBody.role b)) with
  | None => throw "Invalid role" 400
  | Some role =>
    let email := toLowerCase R (str (CreateUserBody.email b)) in
    existing <~ query (fun db => single (where_eq Users.email email (users db))) ;;
    if bool_decide (is_Some existing) then
      throw "User with this email already exists" 409
    else
    let hashedPassword := bcrypt_hash R (str (CreateUserBody.password b)) in
    data <~ query (fun db =>
      {| Users.id := gen_id S db;
         Users.email := email;
         Users.password_hash := hashedPassword;
         Users.role := role;
         Users.first_name := str (CreateUserBody.first_name b);
         Users.last_name := str (CreateUserBody.last_name b);
         Users.phone := CreateUserBody.phone b;
         Users.profile_image := None;
         Users.is_active := true;
         Users.last_login := None |}) ;;
    error <~ query (fun db => users_reject S db data) ;;
    match error with
    | Some _ => throw "Failed to create user" 500
    | None =>
        exec (with_users (fun t => t ++ [data])) ;;;
        ret {| status := 201;
               json :=
                 <["user" := JObj
                    (<["id" := JStr (Users.id data)]>
                    (<["email" := JStr (Users.email data)]>
                    (<["role" := JStr (role_name (Users.role data))]>
                    (<["first_name" := JStr (Users.first_name data)]>
                    (<["last_name" := JStr (Users.last_name data)]>
                    (<["phone" := opt_json (Users.phone data)]>
                    (<["is_active" := JBool (Users.is_active data)]> ∅)))))))]>
                 (ok_body "User created successfully") |}
    end
  end.

Definition deleteUser {B} (req : AuthRequest B) : Handler Response :=
  let id := params_id req in
  if bool_decide (Some id = Users.id <$> user req) then
    throw "Cannot delete your own account" 400
  else
    outcome <~ query (fun db => delete_user db id) ;;
    match outcome with
    | None => throw "Failed to delete user" 500
    | Some db' =>
        exec (fun _ => db') ;;;
        ret {| status := 200; json := ok_body "User deleted successfully" |}
    end.

Definition activateUser {B} (req : AuthRequest B) : Handler Response :=
  let id := params_id req in
  exec (with_users (update_where Users.id id (Users.set_active true))) ;;;
  data <~ query (fun db => single (where_eq Users.id id (users db))) ;;
  match data with
  | None => throw "Failed to activate user" 500
  | Some u =>
      ret {| status := 200;
             json :=
               <["user" := JObj
                  (<["id" := JStr (Users.id u)]>
                  (<["email" := JStr (Users.email u)]>
                  (<["first_name" := JStr (Users.first_name u)]>
                  (<["last_name" := JStr (Users.last_name u)]>
                  (<["is_active" := JBool (Users.is_active u)]> ∅)))))]>
               (ok_body "User activated successfully") |}
  end.

End AdminUsers.

(** ** controllers/adminController.ts: class subjects and academic levels *)



Definition removeTeacherAssignment {B} (req : AuthRequest B) : Handler Response :=
  let id := params_id req in
  exec (with_class_subjects (delete_where ClassSubjects.id id)) ;;;
  ret {| status := 200; json := ok_body "Teacher assignment removed successfully" |}.

Definition removeSubjectFromAcademicLevel {B} (req : AuthRequest B)
    : Handler Response :=
  let id := params_id req in
  exec (with_subject_academic_levels (delete_where SubjectAcademicLevels.id id)) ;;;
  ret {| status := 200;
         json := ok_body "Subject removed from academic level successfully" |}.

(** The admin's [createSubject] and the HOD's have the same name in their
    modules; the admin's lives here. *)
Module Admin.
Section Subjects.
Variable S : Store.

Definition createSubject (req : AuthRequest SubjectBody.t) : Handler Response :=
  let name := SubjectBody.name (body req) in
  let code := SubjectBody.code (body req) in
  let department_id := SubjectBody.department_id (body req) in
  let description := SubjectBody.description (body req) in
  if negb (truthy name) || negb (truthy code) then
    throw "Name and code are required" 400
  else
    row <~ query (fun db =>
      {| Subjects.id := gen_id S db;
         Subjects.name := name;
         Subjects.code := code;
         Subjects.description := description;
         Subjects.department_id := department_id |}) ;;
    error <~ query (fun db => subjects_reject S db row) ;;
    match error with
    | Some sqlstate =>
        if String.eqb sqlstate "23505" then throw "Subject code already exists" 409
        else throw "Failed to create subject" 500
    | None =>
        exec (with_subjects (fun t => t ++ [row])) ;;;
        ret {| status := 201;
               json := <["subject" := JObj (Subjects.to_json row)]>
                       (ok_body "Subject created successfully") |}
    end.

End Subjects.
End Admin.

(** ** controllers/hodController.ts: reading a department *)

Section HodReads.
(** [.order('name')]: the rows in the store's collation order. *)
Variable order_by_name : list Subjects.row -> list Subjects.row.

Definition getDepartmentSubjects {B} (req : AuthRequest B) : Handler Response :=
  department <~ query (my_department req) ;;
  match department with
  | None => throw "Department not found" 404
  | Some department =>
      data <~ query (fun db =>
        order_by_name
          (where_eq_opt Subjects.department_id (Departments.id department)
             (subjects db))) ;;
      ret {| status := 200;
             json := <["success" := JBool true]>
                     (<["count" := JNum (Z.of_nat (length data))]>
                     (<["subjects" :=
                          JArr (map (fun s => JObj (Subjects.to_json s)) data)]> ∅)) |}
  end.

End HodReads.

(** ** controllers/authController.ts: the caller's own account *)

Module ProfileBody.
Record t := {
  first_name : option string;
  last_name : option string;
  phone : option string;
  profile_image : option string
}.
End ProfileBody.

Module PasswordBody.
Record t := { current_password : option string; new_password : option string }.
End PasswordBody.

(** The [updates] object of [updateProfile] applied to a row. *)
Definition apply_profile (b : ProfileBody.t) (u : User) : User :=
  {| Users.id := Users.id u;
     Users.email := Users.email u;
     Users.password_hash := Users.password_hash u;
     Users.role := Users.role u;
     Users.first_name :=
       if truthy (ProfileBody.first_name b) then str (ProfileBody.first_name b)
       else Users.first_name u;
     Users.last_name :=
       if truthy (ProfileBody.last_name b) then str (ProfileBody.last_name b)
       else Users.last_name u;
     Users.phone :=
       if truthy (ProfileBody.phone b) then ProfileBody.phone b else Users.phone u;
     Users.profile_image :=
       if truthy (ProfileBody.profile_image b) then ProfileBody.profile_image b
       else Users.profile_image u;
     Users.is_active := Users.is_active u;
     Users.last_login := Users.last_login u |}.

(** [update({ password_hash: hashedPassword })] on a row. *)
Definition set_password_hash (h : string) (u : User) : User :=
  {| Users.id := Users.id u;
     Users.email := Users.email u;
     Users.password_hash := h;
     Users.role := Users.role u;
     Users.first_name := Users.first_name u;
     Users.last_name := Users.last_name u;
     Users.phone := Users.phone u;
     Users.profile_image := Users.profile_image u;
     Users.is_active := Users.is_active u;
     Users.last_login := Users.last_login u |}.

(** The [catch] block of [getCurrentUser]: whatever was thrown, the answer
    is 500. *)
Definition catch_getCurrentUser (h : Handler Response) (db : Db) : Db * Response :=
  match h db with
  | (db', inr r) => (db', r)
  | (db', inl _) => (db', {| status := 500; json := fail_body "Failed to get user data" |})
  end.

Definition getCurrentUser {B} (req : AuthRequest B) : Handler Response :=
  match user req with
  | None => throw "User not authenticated" 401
  | Some u =>
      let userWithoutPassword := delete "password_hash" (Users.to_json u) in
      ret {| status := 200;
             json := <["success" := JBool true]>
                     (<["user" := JObj userWithoutPassword]> ∅) |}
  end.

Section OwnAccount.
Variable R : Runtime.

Definition updateProfile (req : AuthRequest ProfileBody.t) : Handler Response :=
  match user req with
  | None => throw "User not authenticated" 401
  | Some me =>
      exec (with_users
              (update_where Users.id (Users.id me) (apply_profile (body req)))) ;;;
      data <~ query (fun db => single (where_eq Users.id (Users.id me) (users db))) ;;
      match data with
      | None => throw "Failed to update profile" 500
      | Some data =>
          let userWithoutPassword := delete "password_hash" (Users.to_json data) in
          ret {| status := 200;
                 json := <["user" := JObj userWithoutPassword]>
                         (ok_body "Profile updated successfully") |}
      end
  end.

(** [new_password.length] counts the UTF-16 code units of the string,
    [js_length]. When the caller's row is not found, [user!.password_hash]
    raises a [TypeError], which the [catch] block answers with 500 and
    ['Password change failed']. *)
Definition changePassword (req : AuthRequest PasswordBody.t) : Handler Response :=
  match user req with
  | None => throw "User not authenticated" 401
  | Some me =>
      let current_password := PasswordBody.current_password (body req) in
      let new_password := PasswordBody.new_password (body req) in
      if negb (truthy current_password) || negb (truthy new_password) then
        throw "Current password and new password are required" 400
      else if (js_length (str new_password) <? 6)%nat then
        throw "New password must be at least 6 characters long" 400
      else
        found <~ query (fun db =>
          single (where_eq Users.id (Users.id me) (users db))) ;;
        match found with
        | None => throw "Password change failed" 500
        | Some u =>
            if negb (bcrypt_compare R (str current_password) (Users.password_hash u))
            then throw "Current password is incorrect" 401
            else
              let hashedPassword := bcrypt_hash R (str new_password) in
              exec (with_users
                      (update_where Users.id (Users.id me)
                         (set_password_hash hashedPassword))) ;;;
              ret {| status := 200; json := ok_body "Password changed successfully" |}
        end
  end.

End OwnAccount.

(** ** controllers/parentController.ts *)

(** [supabase.from('parents').select('id').eq('user_id', userId).single()]
    with [userId = req.user?.id]. *)
Definition my_parent_profile {B} (req : AuthRequest B) (db : Db) : option Parents.row :=
  match user req with
  | Some u => single (where_eq Parents.user_id (Users.id u) (parents db))
  | None => None
  end.

(** The [student] resource embedded by [getMyChildren]. *)
Definition student_ref (db : Db) (id : string) : Json :=
  match single (where_eq Students.id id (students db)) with
  | Some s =>
      JObj (<["id" := JStr (Students.id s)]>
            (<["student_number" := JStr (Students.student_number s)]>
            (<["user" :=
                 match single (where_eq Users.id (Students.user_id s) (users db)) with
                 | Some u =>
                     JObj (<["id" := JStr (Users.id u)]>
                           (<["first_name" := JStr (Users.first_name u)]>
                           (<["last_name" := JStr (Users.last_name u)]>
                           (<["email" := JStr (Users.email u)]>
                           (<["profile_image" := opt_json (Users.profile_image u)]> ∅)))))
                 | None => JNull
                 end]>
            (<["class" :=
                 match Students.class_id s with
                 | Some c => class_ref db c
                 | None => JNull
                 end]> ∅))))
  | None => JNull
  end.

Definition getMyChildren {B} (req : AuthRequest B) : Handler Response :=
  par <~ query (my_parent_profile req) ;;
  match par with
  | None => throw "Parent profile not found" 404
  | Some par =>
      data <~ query (fun db =>
        where_eq StudentParents.parent_id (Parents.id par) (student_parents db)) ;;
      children <~ query (fun db =>
        map (fun d => student_ref db (StudentParents.student_id d)) data) ;;
      ret {| status := 200;
             json := <["success" := JBool true]>
                     (<["count" := JNum (Z.of_nat (length data))]>
                     (<["children" := JArr children]> ∅)) |}
  end.

Section ChildPerformance.
(** The [grades] table is declared in [schema.sql], which is not among the
    sources: its rows are a type of their own, with the column the handler
    filters on, the JSON of a row with its embedded subject, and the
    store's [created_at] ordering. *)
Variable Grade : Type.
Variable grade_student_id : Grade -> string.
Variable grade_json : Db -> Grade -> Json.
Variable order_by_created_at_desc : list Grade -> list Grade.

(** [req.params.studentId] is read from [params_id]. *)
Definition getChildPerformance {B} (grades : list Grade) (req : AuthRequest B)
    : Handler Response :=
  let studentId := params_id req in
  par <~ query (my_parent_profile req) ;;
  match par with
  | None => throw "Parent profile not found" 404
  | Some par =>
      relationship <~ query (fun db =>
        single (filter (fun r => StudentParents.parent_id r = Parents.id par ∧
                                 StudentParents.student_id r = studentId)
                  (student_parents db))) ;;
      match relationship with
      | None => throw "Access denied" 403
      | Some _ =>
          found <~ query (fun db =>
            map (grade_json db)
              (order_by_created_at_desc
                 (where_eq grade_student_id studentId grades))) ;;
          ret {| status := 200;
                 json := <["success" := JBool true]>
                         (<["grades" := JArr found]> ∅) |}
      end
  end.

End ChildPerformance.

(** ** Vocabulary of the further properties *)

(** The character does not occur in the string. *)
Fixpoint free_of (c : ascii) (s : string) : Prop :=
  match s with
  | EmptyString => True
  | String a rest => a ≠ c ∧ free_of c rest
  end.

(** What a middleware decided: the identity on the request it passes on, or
    the response it sent. *)
Definition verdict {B} (o : Outcome B) : option User + Response :=
  match o with
  | Next r => inl (user r)
  | Sent res => inr res
  end.

(** ** More sample requests *)

Definition new_teacher_body : CreateUserBody.t :=
  {| CreateUserBody.email := Some "New.Teacher@School.com";
     CreateUserBody.password := Some "s3cret";
     CreateUserBody.role := Some "teacher";
     CreateUserBody.first_name := Some "New";
     CreateUserBody.last_name := Some "Teacher";
     CreateUserBody.phone := None |}.

(** The row carries the triple of a teacher assignment. *)
Definition same_triple (c s t : string) (r : ClassSubjects.row) : Prop :=
  ClassSubjects.class_id r = c ∧ ClassSubjects.subject_id r = s ∧
  ClassSubjects.teacher_id r = t.

Definition physics_assignment : AssignTeacherBody.t :=
  {| AssignTeacherBody.teacher_id := Some "u-tch";
     AssignTeacherBody.subject_id := Some "s-phy";
     AssignTeacherBody.class_id := Some "c-1a" |}.

(** The rows [linkParentToStudents] builds for a parent and student ids. *)
Definition links (p : string) (ids : list string) : list StudentParents.row :=
  map (fun student_id => {| StudentParents.parent_id := p;
                            StudentParents.student_id := student_id |}) ids.

Definition parent_user : User := sample_user "u-par" "par@school.com" parent true.

Definition music_body : SubjectBody.t :=
  {| SubjectBody.name := Some "Music"; SubjectBody.code := Some "MUS";
     SubjectBody.description := None; SubjectBody.department_id := Some "d-art" |}.

Definition tch_password_change : AuthRequest PasswordBody.t :=
  request None (Some maths_teacher) ""
    {| PasswordBody.current_password := Some "u-tch";
       PasswordBody.new_password := Some "longer-secret" |}.

(** A password of three letters, each of three UTF-8 bytes and one UTF-16
    code unit. *)
Definition three_letter_password : string := "日本語".

Definition short_password_change : AuthRequest PasswordBody.t :=
  request None (Some maths_teacher) ""
    {| PasswordBody.current_password := Some "u-tch";
       PasswordBody.new_password := Some three_letter_password |}.

(** A second [bcrypt], with another version and cost, and the sample store
    with every password hashed by it. *)
Definition other_runtime : Runtime :=
  {| bcrypt_hash := fun p => "$2b$12$" +:+ p;
     bcrypt_compare := fun p h => String.eqb ("$2b$12$" +:+ p) h;
     toISOString := toISOString sample_runtime;
     toLowerCase := toLowerCase sample_runtime |}.

Definition rehashed_db : Db :=
  with_users (map (fun u => set_password_hash ("$2b$12$" +:+ Users.id u) u)) sample_db.

(** Every stored email is in lower case: lower-casing it changes nothing. *)
Definition emails_lowercase (R : Runtime) (db : Db) : Prop :=
  Forall (fun u => toLowerCase R (Users.email u) = Users.email u) (users db).

(** * Properties *)

(** ** Query helpers *)

Lemma where_eq_update_where {A} (col : A -> string) (v : string) (f : A -> A)
    (rows : list A) :
  (forall r, col (f r) = col r) ->
  where_eq col v (update_where col v f rows) = map f (where_eq col v rows).
Proof.
  intros Hcol. unfold where_eq, update_where.
  induction rows as [|r rows IH]; [done|].
  cbn [map]. destruct (decide (col r = v)) as [Hr|Hr].
  - rewrite !filter_cons_True; [|done|by rewrite Hcol].
    cbn [map]. by rewrite IH.
  - rewrite !filter_cons_False; done.
Qed.

Lemma single_map {A B} (f : A -> B) (rows : list A) (x : A) :
  single rows = Some x -> single (map f rows) = Some (f x).
Proof.
  destruct rows as [|a [|b rest]]; cbn; intros H; by simplify_eq.
Qed.

Lemma where_eq_delete_where {A} (col : A -> string) (v : string) (rows : list A) :
  where_eq col v (delete_where col v rows) = [].
Proof.
  unfold where_eq, delete_where.
  induction rows as [|r rows IH]; [done|].
  destruct (decide (col r = v)) as [Hr|Hr].
  - by rewrite filter_cons_False; [|intros ?; done].
  - rewrite (filter_cons_True (fun r => col r ≠ v)); [|done].
    by rewrite filter_cons_False.
Qed.

Lemma decide_is_Some {A} (x : A) : bool_decide (is_Some (Some x)) = true.
Proof. apply bool_decide_eq_true_2. by exists x. Qed.

Lemma decide_is_None {A} : bool_decide (is_Some (@None A)) = false.
Proof. apply bool_decide_eq_false_2. apply is_Some_None. Qed.

Lemma truthy_Some (s : string) : s ≠ "" -> truthy (Some s) = true.
Proof.
  intros Hs. cbn. destruct (String.eqb_spec s ""); [done|reflexivity].
Qed.

(** ** The session resolver *)

Lemma authenticateToken_inactive (L : TokenLib) (env : option string) {B}
    (db : Db) (now : Z) (req : AuthRequest B) (tok : string) (c : JwtClaims)
    (u : User) :
  bearer_token req = Some tok ->
  tok ≠ "" ->
  jwt_verify L tok (JWT_SECRET env) now = Some c ->
  single (where_eq Users.id (userId (payload c)) (users db)) = Some u ->
  Users.is_active u = false ->
  authenticateToken L env db now req = Sent account_disabled.
Proof.
  intros Htok Hne Hver Hrow Hact. unfold authenticateToken.
  rewrite Htok, (truthy_Some _ Hne). cbn [negb].
  rewrite Hver, Hrow, Hact. reflexivity.
Qed.

Lemma deactivateUser_store {B} (req : AuthRequest B) (db : Db) :
  Users.id <$> user req ≠ Some (params_id req) ->
  (catch_any (deactivateUser req) db).1
  = with_users (update_where Users.id (params_id req) (Users.set_active false)) db.
Proof.
  intros Hself. unfold catch_any, deactivateUser.
  rewrite bool_decide_eq_false_2 by (intros E; by rewrite <- E in Hself).
  unfold bind, exec, query. cbn. by destruct (single _).
Qed.

Lemma deactivateUser_row {B} (req : AuthRequest B) (db : Db) (u : User) :
  Users.id <$> user req ≠ Some (params_id req) ->
  single (where_eq Users.id (params_id req) (users db)) = Some u ->
  single (where_eq Users.id (params_id req)
            (users (catch_any (deactivateUser req) db).1))
  = Some (Users.set_active false u).
Proof.
  intros Hself Hrow. rewrite deactivateUser_store by done.
  cbn [with_users users].
  rewrite where_eq_update_where by done.
  by apply single_map.
Qed.

(** C1. A request to a protected route whose token verifies, but whose
    identity row, re-fetched by the token's subject id, has
    [is_active = false], is answered 403 (account disabled) and the store is
    left as it was, whatever the route's allow-list and handler are. In
    particular, once [deactivateUser] has run for an identity, the next
    request carrying a still-valid token of that identity is rejected this
    way, whatever role the token's payload carries. *)
Theorem inactive_identity_rejected_before_handler :
  forall (L : TokenLib) (env : option string) (B : Type) (roles : list Role)
         (handler : AuthRequest B -> Db -> Db * Response)
         (db : Db) (now : Z) (req : AuthRequest B) (tok : string) (c : JwtClaims),
    bearer_token req = Some tok ->
    tok ≠ "" ->
    jwt_verify L tok (JWT_SECRET env) now = Some c ->
    (forall u : User,
        single (where_eq Users.id (userId (payload c)) (users db)) = Some u ->
        Users.is_active u = false ->
        authenticateToken L env db now req = Sent account_disabled /\
        protected L env roles handler now req db = (db, account_disabled)) /\
    (forall (B' : Type) (admin_req : AuthRequest B') (u : User),
        params_id admin_req = userId (payload c) ->
        Users.id <$> user admin_req ≠ Some (params_id admin_req) ->
        single (where_eq Users.id (userId (payload c)) (users db)) = Some u ->
        let db' := (catch_any (deactivateUser admin_req) db).1 in
        protected L env roles handler now req db' = (db', account_disabled)).
Proof.
  intros L env B roles handler db now req tok c Htok Hne Hver. split.
  - intros u Hrow Hact.
    pose proof (authenticateToken_inactive L env db now req tok c u
                  Htok Hne Hver Hrow Hact) as Hauth.
    split; [exact Hauth|]. unfold protected. by rewrite Hauth.
  - intros B' admin_req u Hid Hself Hrow db'.
    rewrite <- Hid in Hrow.
    pose proof (deactivateUser_row admin_req db u Hself Hrow) as Hrow'.
    fold db' in Hrow'. rewrite Hid in Hrow'.
    unfold protected.
    by rewrite (authenticateToken_inactive L env db' now req tok c _
                  Htok Hne Hver Hrow' eq_refl).
Qed.

(** ** The token codec *)

(** C6. A token issued for an identity at time [t0] and verified at a time
    whose second count is below [iat + 7 days] yields the claims issued,
    that is the identity's id, email and role; verified at a time at or
    past [iat + 7 days] it is invalid. The verdict is computed from the
    token, the secret and the clock only: the session resolver answers an
    invalid token the same way over any two stores. *)
Theorem verify_generateToken :
  forall (L : TokenLib) (env : option string) (u : User) (t0 : Z),
    let issued :=
      {| payload := {| userId := Users.id u; email := Users.email u;
                       role := Users.role u |};
         iat := t0 / 1000; exp := t0 / 1000 + 604800 |} in
    jws_decode L (jws_encode L {| claims := issued;
                                  signature := hmac L (JWT_SECRET env) issued |})
    = Some {| claims := issued; signature := hmac L (JWT_SECRET env) issued |} ->
    (forall t, t / 1000 < t0 / 1000 + 604800 ->
       jwt_verify L (generateToken L env u t0) (JWT_SECRET env) t = Some issued /\
       payload <$> jwt_verify L (generateToken L env u t0) (JWT_SECRET env) t
       = Some {| userId := Users.id u; email := Users.email u;
                 role := Users.role u |}) /\
    (forall t, t0 / 1000 + 604800 <= t / 1000 ->
       jwt_verify L (generateToken L env u t0) (JWT_SECRET env) t = None) /\
    (forall (B : Type) (t : Z) (req : AuthRequest B) (db1 db2 : Db),
       bearer_token req = Some (generateToken L env u t0) ->
       t0 / 1000 + 604800 <= t / 1000 ->
       authenticateToken L env db1 t req = authenticateToken L env db2 t req).
Proof.
  intros L env u t0 issued Hcodec.
  assert (Hv : forall t, jwt_verify L (generateToken L env u t0) (JWT_SECRET env) t
                = if bool_decide (t0 / 1000 + 604800 <= t / 1000) then None
                  else Some issued).
  { intros t. unfold jwt_verify, generateToken, jwt_sign.
    change seven_days with 604800. fold issued. rewrite Hcodec. cbn.
    by rewrite bool_decide_eq_true_2. }
  repeat split.
  - rewrite Hv. rewrite bool_decide_eq_false_2 by lia. done.
  - rewrite Hv. rewrite bool_decide_eq_false_2 by lia. done.
  - intros t Ht. rewrite Hv. by rewrite bool_decide_eq_true_2.
  - intros B t req db1 db2 Htok Ht. unfold authenticateToken.
    rewrite Htok. destruct (negb _); [done|].
    rewrite Hv. by rewrite bool_decide_eq_true_2.
Qed.

(** ** The role gate *)

(** C7. With a resolved identity attached, [authorizeRoles] lets the request
    through exactly when the identity's role is in the allow-list, for any
    allow-list and so for each router's declared one; a denial for a role
    outside the list is a 403 whose body holds the required roles and the
    caller's role; with no identity attached the answer is 401. *)
Theorem authorizeRoles_allows_exactly_listed :
  forall (B : Type) (roles : list Role) (req : AuthRequest B),
    (forall u, user req = Some u ->
       (authorizeRoles roles req = Next req <-> Users.role u ∈ roles) /\
       (Users.role u ∉ roles ->
          authorizeRoles roles req = Sent (access_denied roles (Users.role u)) /\
          json (access_denied roles (Users.role u)) !! "required"
          = Some (JArr (map (fun r => JStr (role_name r)) roles)) /\
          json (access_denied roles (Users.role u)) !! "current"
          = Some (JStr (role_name (Users.role u))))) /\
    (forall u (g : RouteGroup), user req = Some u ->
       (authorizeRoles (allowed_roles g) req = Next req
        <-> Users.role u ∈ allowed_roles g)) /\
    (user req = None ->
       authorizeRoles roles req
       = Sent {| status := 401; json := error_body "Authentication required" |}).
Proof.
  intros B roles req.
  assert (Hiff : forall rs u, user req = Some u ->
            (authorizeRoles rs req = Next req <-> Users.role u ∈ rs)).
  { intros rs u Hu. unfold authorizeRoles, includes. rewrite Hu.
    case_bool_decide; cbn; split; intros; done. }
  split; [|split].
  - intros u Hu. split; [by apply Hiff|].
    intros Hnot. split; [|split].
    + unfold authorizeRoles, includes. rewrite Hu.
      by rewrite bool_decide_eq_false_2.
    + cbn. rewrite lookup_insert_ne by done. by rewrite lookup_insert_eq.
    + cbn. rewrite !lookup_insert_ne by done. by rewrite lookup_insert_eq.
  - intros u g Hu. by apply Hiff.
  - intros Hu. unfold authorizeRoles. by rewrite Hu.
Qed.

Lemma authenticateToken_invalid (L : TokenLib) (env : option string) {B}
    (db : Db) (now : Z) (req : AuthRequest B) (tok : string) :
  bearer_token req = Some tok ->
  tok ≠ "" ->
  jwt_verify L tok (JWT_SECRET env) now = None ->
  authenticateToken L env db now req
  = Sent {| status := 403; json := error_body "Invalid or expired token" |}.
Proof.
  intros Htok Hne Hver. unfold authenticateToken.
  rewrite Htok, (truthy_Some _ Hne). cbn [negb]. by rewrite Hver.
Qed.

(** C8. The bodies the session resolver sends, run on a request without an
    [Authorization] header and on one whose token does not parse: the first
    is answered 401 and the second 403, each with a body whose only field
    is [error]; neither body has the [success] field of the error format
    the controllers use. *)
Theorem authenticateToken_bodies_lack_success :
  forall (env : option string) (db : Db) (now : Z),
    authenticateToken sample_lib env db now (request None None "" tt)
    = Sent {| status := 401; json := {[ "error" := JStr "Access token required" ]} |} /\
    authenticateToken sample_lib env db now (request (Some "Bearer abc") None "" tt)
    = Sent {| status := 403; json := {[ "error" := JStr "Invalid or expired token" ]} |} /\
    error_body "Access token required" !! "success" = None /\
    error_body "Invalid or expired token" !! "success" = None /\
    error_body "Access token required" ≠ fail_body "Access token required" /\
    error_body "Invalid or expired token" ≠ fail_body "Invalid or expired token".
Proof.
  intros env db now.
  split; [reflexivity|]. split; [reflexivity|].
  split; [reflexivity|]. split; [reflexivity|].
  split; intros E; apply (f_equal (fun m => m !! "success")) in E;
    vm_compute in E; discriminate.
Qed.

(** ** Runs on the sample school *)

Lemma inactive_identity_rejected_witness :
  let req := request (Some "Bearer u-old.your-super-secret-jwt-token/u-old")
               None "" tt in
  let admin_req := request None (Some root_admin) "u-old" tt in
  let active_db := with_users (map (Users.set_active true)) sample_db in
  let db' := (catch_any (deactivateUser admin_req) active_db).1 in
  protected sample_lib None [teacher] noop_handler 1700000500000 req sample_db
  = (sample_db, account_disabled) /\
  protected sample_lib None [teacher] noop_handler 1700000500000 req active_db
  = (active_db, {| status := 200; json := ok_body "ok" |}) /\
  protected sample_lib None [teacher] noop_handler 1700000500000 req db'
  = (db', account_disabled).
Proof.
  intros req admin_req active_db db'.
  split; [|split].
  - refine (proj2 (proj1 (inactive_identity_rejected_before_handler sample_lib None
             unit [teacher] noop_handler sample_db 1700000500000 req
             "u-old.your-super-secret-jwt-token/u-old" old_claims
             eq_refl _ eq_refl) retired_teacher eq_refl eq_refl)).
    discriminate.
  - reflexivity.
  - refine (proj2 (inactive_identity_rejected_before_handler sample_lib None
             unit [teacher] noop_handler active_db 1700000500000 req
             "u-old.your-super-secret-jwt-token/u-old" old_claims
             eq_refl _ eq_refl) unit admin_req
             (Users.set_active true retired_teacher) eq_refl _ eq_refl);
      discriminate.
Defined.

Lemma verify_generateToken_witness :
  let tok := generateToken sample_lib None retired_teacher 1700000000123 in
  jwt_verify sample_lib tok (JWT_SECRET None) 1700604799999
  = Some {| payload := {| userId := "u-old"; email := "old@school.com";
                          role := teacher |};
            iat := 1700000000; exp := 1700604800 |} /\
  jwt_verify sample_lib tok (JWT_SECRET None) 1700604800000 = None.
Proof.
  pose proof (verify_generateToken sample_lib None retired_teacher 1700000000123
                eq_refl) as [Hbefore [Hafter _]].
  split.
  - exact (proj1 (Hbefore 1700604799999 eq_refl)).
  - apply Hafter. discriminate.
Defined.

Lemma authorizeRoles_witness :
  let req := request None (Some maths_teacher) "" tt in
  let anonymous := request None None "" tt in
  authorizeRoles [admin; teacher] req = Next req /\
  authorizeRoles (allowed_roles TeacherRoutes) req = Next req /\
  authorizeRoles [admin; hod] req = Sent (access_denied [admin; hod] teacher) /\
  authorizeRoles [admin] anonymous
  = Sent {| status := 401; json := error_body "Authentication required" |}.
Proof.
  intros req anonymous.
  pose proof (authorizeRoles_allows_exactly_listed unit [admin; teacher] req)
    as [Hlisted [Hgroup _]].
  pose proof (authorizeRoles_allows_exactly_listed unit [admin; hod] req)
    as [Hdenied _].
  pose proof (authorizeRoles_allows_exactly_listed unit [admin] anonymous)
    as [_ [_ Hanon]].
  split; [|split; [|split]].
  - apply (proj1 (Hlisted maths_teacher eq_refl)).
    apply (bool_decide_unpack _). exact I.
  - apply (Hgroup maths_teacher TeacherRoutes eq_refl).
    apply (bool_decide_unpack _). exact I.
  - apply (proj2 (Hdenied maths_teacher eq_refl)).
    apply (bool_decide_unpack _). exact I.
  - exact (Hanon eq_refl).
Defined.

(** ** Teacher, subject and class *)

(** C3, as stated, fails: a teacher whose account is disabled is not an
    active identity, yet the assignment goes through and the junction row is
    inserted. *)
Lemma assignTeacher_accepts_inactive_teacher :
  let req := request None (Some root_admin) ""
               {| AssignTeacherBody.teacher_id := Some "u-old";
                  AssignTeacherBody.subject_id := Some "s-phy";
                  AssignTeacherBody.class_id := Some "c-1a" |} in
  let out := catch_any (assignTeacherToSubject lenient_store req) sample_db in
  resolves_active_teacher sample_db "u-old" = false /\
  status out.2 = 201 /\
  class_subjects out.1
  = [ {| ClassSubjects.id := "new-id"; ClassSubjects.class_id := "c-1a";
         ClassSubjects.subject_id := "s-phy";
         ClassSubjects.teacher_id := "u-old" |} ].
Proof. repeat split; reflexivity. Qed.

(** C3, amended. With the three ids present, [assignTeacherToSubject] fails
    with 404 whenever [teacher_id] does not resolve to an identity whose
    role is teacher, or [subject_id] does not resolve to a subject row, or
    [class_id] does not resolve to a class row; the store is then left as
    it was, so no junction row is inserted. *)
Theorem assignTeacher_missing_endpoint_NotFound :
  forall (S : Store) (req : AuthRequest AssignTeacherBody.t) (db : Db)
         (t s c : string),
    AssignTeacherBody.teacher_id (body req) = Some t -> t ≠ "" ->
    AssignTeacherBody.subject_id (body req) = Some s -> s ≠ "" ->
    AssignTeacherBody.class_id (body req) = Some c -> c ≠ "" ->
    single (filter (fun u => Users.id u = t ∧ Users.role u = teacher) (users db)) = None
    \/ single (where_eq Subjects.id s (subjects db)) = None
    \/ single (where_eq Classes.id c (classes db)) = None ->
    exists msg,
      catch_any (assignTeacherToSubject S req) db
      = (db, {| status := 404; json := fail_body msg |}).
Proof.
  intros S req db t s c Ht Hte Hs Hse Hc Hce Hmissing.
  unfold catch_any, assignTeacherToSubject.
  rewrite Ht, Hs, Hc, !truthy_Some by done.
  cbn [negb orb]. change (str (Some t)) with t.
  change (str (Some s)) with s. change (str (Some c)) with c.
  unfold bind, query, throw.
  destruct (single (filter _ (users db))) as [tch|] eqn:Etch; cycle 1.
  { rewrite decide_is_None. cbn. eauto. }
  rewrite decide_is_Some. cbn [negb].
  destruct (single (where_eq Subjects.id s (subjects db))) as [sub|] eqn:Esub; cycle 1.
  { rewrite decide_is_None. cbn. eauto. }
  rewrite decide_is_Some. cbn [negb].
  destruct (single (where_eq Classes.id c (classes db))) as [cls|] eqn:Ecls; cycle 1.
  { rewrite decide_is_None. cbn. eauto. }
  destruct Hmissing as [H|[H|H]]; discriminate.
Qed.

Lemma assignTeacher_missing_endpoint_witness :
  let req := request None (Some root_admin) ""
               {| AssignTeacherBody.teacher_id := Some "u-hod";
                  AssignTeacherBody.subject_id := Some "s-phy";
                  AssignTeacherBody.class_id := Some "c-1a" |} in
  exists msg,
    catch_any (assignTeacherToSubject lenient_store req) sample_db
    = (sample_db, {| status := 404; json := fail_body msg |}).
Proof.
  intros req.
  refine (assignTeacher_missing_endpoint_NotFound lenient_store req sample_db
            "u-hod" "s-phy" "c-1a" eq_refl _ eq_refl _ eq_refl _ (or_introl eq_refl));
    discriminate.
Defined.

(** ** Parent and student *)

Lemma with_student_parents_id (f : list StudentParents.row -> list StudentParents.row)
    (db : Db) :
  f (student_parents db) = student_parents db -> with_student_parents f db = db.
Proof. destruct db. unfold with_student_parents. cbn. by intros ->. Qed.




(** ** Subject and academic level *)

(** C5, as stated, fails: the handler looks up neither endpoint, so an
    academic level that does not exist is not reported as NotFound; the
    insert is refused by the foreign key and the answer is a generic 500. *)
Lemma assignSubjectToAcademicLevel_absent_level_is_500 :
  let req := request None (Some root_admin) ""
               {| LevelSubjectBody.academic_level_id := Some "l-none";
                  LevelSubjectBody.subject_id := Some "s-phy";
                  LevelSubjectBody.is_required := None |} in
  where_eq AcademicLevels.id "l-none" (academic_levels sample_db) = [] /\
  catch_any (assignSubjectToAcademicLevel lenient_store req) sample_db
  = (sample_db,
     {| status := 500;
        json := fail_body "Failed to assign subject to academic level" |}) /\
  status (catch_any (assignSubjectToAcademicLevel lenient_store req) sample_db).2 ≠ 404.
Proof.
  split; [reflexivity|]. split; [reflexivity|]. discriminate.
Qed.

(** C5, amended. [assignSubjectToAcademicLevel] looks up neither endpoint
    and no existing pair: with both ids present it sends the junction row,
    [is_required] defaulting to true, straight to the store and maps the
    store's verdict. A pair that is already present fails with 409; an
    absent subject or academic level fails with 500; otherwise the row is
    appended and the answer is 201. *)
Theorem assignSubjectToAcademicLevel_maps_store_verdict :
  forall (S : Store) (req : AuthRequest LevelSubjectBody.t) (db : Db) (l s : string),
    LevelSubjectBody.academic_level_id (body req) = Some l -> l ≠ "" ->
    LevelSubjectBody.subject_id (body req) = Some s -> s ≠ "" ->
    let row :=
      {| SubjectAcademicLevels.id := gen_id S db;
         SubjectAcademicLevels.subject_id := s;
         SubjectAcademicLevels.academic_level_id := l;
         SubjectAcademicLevels.is_required :=
           default true (LevelSubjectBody.is_required (body req)) |} in
    let out := catch_any (assignSubjectToAcademicLevel S req) db in
    (Exists (same_pair l s) (subject_academic_levels db) ->
       out = (db, {| status := 409;
                     json := fail_body
                       "Subject already assigned to this academic level" |})) /\
    (¬ Exists (same_pair l s) (subject_academic_levels db) ->
     ¬ (Exists (fun x => Subjects.id x = s) (subjects db) ∧
        Exists (fun x => AcademicLevels.id x = l) (academic_levels db)) ->
       out = (db, {| status := 500;
                     json := fail_body
                       "Failed to assign subject to academic level" |})) /\
    (¬ Exists (same_pair l s) (subject_academic_levels db) ->
     Exists (fun x => Subjects.id x = s) (subjects db) ->
     Exists (fun x => AcademicLevels.id x = l) (academic_levels db) ->
       out = (with_subject_academic_levels (fun t => t ++ [row]) db,
              {| status := 201;
                 json := <["data" := JObj (SubjectAcademicLevels.to_json row)]>
                         (ok_body "Subject assigned to academic level successfully") |})
       /\ (LevelSubjectBody.is_required (body req) = None ->
           SubjectAcademicLevels.is_required row = true)).
Proof.
  intros S req db l s Hl Hle Hs Hse row out. subst out.
  unfold catch_any, assignSubjectToAcademicLevel.
  rewrite Hl, Hs, !truthy_Some by done. cbn [negb orb].
  change (str (Some l)) with l. change (str (Some s)) with s.
  unfold bind, query, throw, exec, ret, subject_academic_levels_verdict.
  cbn [SubjectAcademicLevels.subject_id SubjectAcademicLevels.academic_level_id].
  split; [|split].
  - intros Hdup. by rewrite bool_decide_eq_true_2.
  - intros Hnodup Hmiss.
    rewrite bool_decide_eq_false_2 by done.
    by rewrite bool_decide_eq_false_2.
  - intros Hnodup Hsub Hlvl.
    rewrite bool_decide_eq_false_2 by done.
    rewrite bool_decide_eq_true_2 by done.
    split; [|by subst row; cbn; intros ->].
    subst row. by destruct (LevelSubjectBody.is_required (body req)).
Qed.

Lemma assignSubjectToAcademicLevel_witness :
  let req := request None (Some root_admin) ""
               {| LevelSubjectBody.academic_level_id := Some "l-f1";
                  LevelSubjectBody.subject_id := Some "s-phy";
                  LevelSubjectBody.is_required := None |} in
  let row :=
      {| SubjectAcademicLevels.id := "new-id";
         SubjectAcademicLevels.subject_id := "s-phy";
         SubjectAcademicLevels.academic_level_id := "l-f1";
         SubjectAcademicLevels.is_required := true |} in
  let out := catch_any (assignSubjectToAcademicLevel lenient_store req) sample_db in
  subject_academic_levels out.1 = [row] /\ status out.2 = 201 /\
  status (catch_any (assignSubjectToAcademicLevel lenient_store req) out.1).2 = 409.
Proof.
  intros req row out.
  destruct (assignSubjectToAcademicLevel_maps_store_verdict lenient_store req
              sample_db "l-f1" "s-phy" eq_refl ltac:(discriminate)
              eq_refl ltac:(discriminate)) as [_ [_ Hok]].
  destruct Hok as [Hout _].
  - apply (bool_decide_unpack _). exact I.
  - apply (bool_decide_unpack _). exact I.
  - apply (bool_decide_unpack _). exact I.
  - fold out in Hout. rewrite Hout. cbn [fst snd status].
    split; [reflexivity|]. split; reflexivity.
Defined.

(** ** Subjects of a department *)

(** C2, as stated, fails: a head of department who sends a body naming
    another department is answered 201, and the subject is written into the
    caller's own department; a caller who heads no department is answered
    404, not 403. *)
Lemma createSubject_redirects_into_own_department :
  let b := {| SubjectBody.name := Some "Music"; SubjectBody.code := Some "MUS";
              SubjectBody.description := None;
              SubjectBody.department_id := Some "d-art" |} in
  let out := catch_any (createSubject lenient_store
                          (request None (Some head_of_science) "" b)) sample_db in
  let none := catch_any (createSubject lenient_store
                           (request None (Some root_admin) "" b)) sample_db in
  Departments.id <$> my_department (request None (Some head_of_science) "" b) sample_db
  = Some "d-sci" /\
  status out.2 = 201 /\
  subjects out.1
  = subjects sample_db ++
    [ {| Subjects.id := "new-id"; Subjects.name := Some "Music";
         Subjects.code := Some "MUS"; Subjects.description := None;
         Subjects.department_id := Some "d-sci" |} ] /\
  my_department (request None (Some root_admin) "" b) sample_db = None /\
  status none.2 = 404.
Proof. repeat split; reflexivity. Qed.

(** C2, amended. [createSubject] takes no department from its input: the
    body's name, code and description and the caller's identity decide the
    outcome, whatever else the body carries. A caller with exactly one
    department row either gets an error with the store left as it was, or
    gets 201 with one subject appended whose [department_id] is the caller's
    own department; no other write happens. A caller with no department row
    is rejected with 404 and nothing is written; [updateSubject] rejects
    such a caller with 403. *)
Theorem createSubject_writes_only_own_department :
  forall (S : Store) (req : AuthRequest SubjectBody.t) (db : Db),
    (my_department req db = None ->
       catch_any (createSubject S req) db
       = (db, {| status := 404; json := fail_body "Department not found" |})) /\
    (forall d, my_department req db = Some d ->
       let row := {| Subjects.id := gen_id S db;
                     Subjects.name := SubjectBody.name (body req);
                     Subjects.code := SubjectBody.code (body req);
                     Subjects.description := SubjectBody.description (body req);
                     Subjects.department_id := Some (Departments.id d) |} in
       let out := catch_any (createSubject S req) db in
       (out.1 = db /\ (status out.2 = 409 \/ status out.2 = 500)) \/
       out = (with_subjects (fun t => t ++ [row]) db,
              {| status := 201;
                 json := <["subject" := JObj (Subjects.to_json row)]>
                         (ok_body "Subject created successfully") |})) /\
    (forall req' : AuthRequest SubjectBody.t,
       user req' = user req ->
       SubjectBody.name (body req') = SubjectBody.name (body req) ->
       SubjectBody.code (body req') = SubjectBody.code (body req) ->
       SubjectBody.description (body req') = SubjectBody.description (body req) ->
       catch_any (createSubject S req') db = catch_any (createSubject S req) db) /\
    (my_department req db = None ->
       catch_any (updateSubject S req) db
       = (db, {| status := 403; json := fail_body "Access denied" |})).
Proof.
  intros S req db. split; [|split; [|split]].
  - intros Hnone. unfold catch_any, createSubject, bind, query, throw.
    by rewrite Hnone.
  - intros d Hd row out. subst out.
    unfold catch_any, createSubject, bind, query, throw, exec, ret.
    rewrite Hd. fold row.
    destruct (subjects_reject S db row) as [sqlstate|]; [left|by right].
    destruct (String.eqb sqlstate "23505"); cbn; auto.
  - intros req' Hu Hn Hc Hdesc.
    unfold catch_any, createSubject, bind, query, my_department.
    by rewrite Hu, Hn, Hc, Hdesc.
  - intros Hnone. unfold catch_any, updateSubject, bind, query, throw.
    by rewrite Hnone.
Qed.

Lemma createSubject_witness :
  let b := {| SubjectBody.name := Some "Music"; SubjectBody.code := Some "MUS";
              SubjectBody.description := None;
              SubjectBody.department_id := Some "d-art" |} in
  let b' := {| SubjectBody.name := Some "Music"; SubjectBody.code := Some "MUS";
               SubjectBody.description := None;
               SubjectBody.department_id := None |} in
  catch_any (createSubject lenient_store (request None (Some root_admin) "" b)) sample_db
  = (sample_db, {| status := 404; json := fail_body "Department not found" |}) /\
  catch_any (createSubject lenient_store (request None (Some head_of_science) "" b'))
    sample_db
  = catch_any (createSubject lenient_store (request None (Some head_of_science) "" b))
      sample_db.
Proof.
  intros b b'. split.
  - exact (proj1 (createSubject_writes_only_own_department lenient_store
                    (request None (Some root_admin) "" b) sample_db) eq_refl).
  - exact (proj1 (proj2 (proj2 (createSubject_writes_only_own_department
                    lenient_store
                    (request None (Some head_of_science) "" b) sample_db)))
             (request None (Some head_of_science) "" b')
             eq_refl eq_refl eq_refl eq_refl).
Defined.

(** ** Registration *)

Lemma register_ends (R : Runtime) (S : Store) (now : Z)
    (req : AuthRequest RegisterUserRequest.t) (db : Db) :
  register_end S db (catch_AppError (register R S now req) db).
Proof.
  unfold catch_AppError, register.
  destruct (bool_decide (Users.role <$> user req = Some admin)); cbn [negb];
    [|by apply reg_refused].
  match goal with |- context [if ?c then throw _ 400 else _] => destruct c end;
    [by apply reg_refused|].
  destruct (role_of_string _) as [role|]; [|by apply reg_refused].
  unfold bind at 1. unfold query at 1.
  destruct (bool_decide (is_Some _)); [by apply reg_refused|].
  unfold bind at 1. unfold query at 1.
  unfold bind at 1. unfold query at 1.
  destruct (users_reject S db _) as [e|]; [by apply reg_refused|].
  match goal with
  | |- context [rollback_user S (Users.id ?u)] => set (newUser := u)
  end.
  assert (Hrole : Users.role newUser = role) by reflexivity.
  assert (Hid : Users.id newUser = gen_id S db) by reflexivity.
  assert (Huser : forall (a b : Json) (m : gmap string Json),
            (<["user" := JObj (delete "password_hash" (Users.to_json newUser))]>
              (<["student_id" := a]> (<["parent_id" := b]> m))) !! "user"
            = Some (JObj (delete "password_hash" (Users.to_json newUser))))
    by (intros; apply lookup_insert_eq).
  clearbody newUser.
  destruct role; decide_roles;
    cbv beta iota delta [bind query exec ret throw rollback_user].
  - apply reg_plain; [rewrite Hrole; apply (bool_decide_unpack _); exact I|apply Huser].
  - apply reg_plain; [rewrite Hrole; apply (bool_decide_unpack _); exact I|apply Huser].
  - apply reg_plain; [rewrite Hrole; apply (bool_decide_unpack _); exact I|apply Huser].
  - destruct (teachers_reject S _ _) as [e|] eqn:Erej.
    + destruct (users_delete_reject S _ _) as [e'|] eqn:Edel.
      * eapply reg_orphaned; [rewrite Hrole; apply (bool_decide_unpack _); exact I|done|exact Edel].
      * apply reg_rolled_back; [rewrite Hrole; apply (bool_decide_unpack _); exact I|done|exact Edel].
    + by apply reg_profiled
        with (p := TeacherProfile {| Teachers.user_id := Users.id newUser |}).
  - destruct (parents_reject S _ _) as [e|] eqn:Erej.
    + destruct (users_delete_reject S _ _) as [e'|] eqn:Edel.
      * eapply reg_orphaned; [rewrite Hrole; apply (bool_decide_unpack _); exact I|done|exact Edel].
      * apply reg_rolled_back; [rewrite Hrole; apply (bool_decide_unpack _); exact I|done|exact Edel].
    + by apply reg_profiled
        with (p := ParentProfile {| Parents.user_id := Users.id newUser |}).
  - destruct (students_reject S _ _) as [e|] eqn:Erej.
    + destruct (users_delete_reject S _ _) as [e'|] eqn:Edel.
      * eapply reg_orphaned; [rewrite Hrole; apply (bool_decide_unpack _); exact I|done|exact Edel].
      * apply reg_rolled_back; [rewrite Hrole; apply (bool_decide_unpack _); exact I|done|exact Edel].
    + by apply reg_profiled
        with (p := StudentProfile {| Students.user_id := Users.id newUser |}).
Qed.

(** What [register] does with a request that passes its checks, for an
    email no row has. *)
Lemma register_admitted (R : Runtime) (S : Store) (now : Z)
    (req : AuthRequest RegisterUserRequest.t) (db : Db) (role : Role) :
  well_formed req role ->
  single (where_eq Users.email
            (toLowerCase R (str (RegisterUserRequest.email (body req)))) (users db))
  = None ->
  let out := catch_AppError (register R S now req) db in
  exists newUser,
    Users.id newUser = gen_id S db /\ Users.role newUser = role /\
    Users.email newUser
    = toLowerCase R (str (RegisterUserRequest.email (body req))) /\
    match users_reject S db newUser with
    | Some _ => out.1 = db /\ status out.2 = 500
    | None =>
        (role ∉ [teacher; student; parent] ->
           out.1 = add_user newUser db /\ status out.2 = 201) /\
        (role ∈ [teacher; student; parent] ->
           exists p, profile_role p = role /\ profile_user_id p = Users.id newUser /\
             match profile_reject S (add_user newUser db) p with
             | None => out.1 = add_profile p (add_user newUser db) /\
                       status out.2 = 201
             | Some _ =>
                 status out.2 = 500 /\
                 match users_delete_reject S (add_user newUser db) (Users.id newUser) with
                 | None => out.1 = rolled_back newUser db
                 | Some _ => out.1 = add_user newUser db
                 end
             end)
    end.
Proof.
  intros (Hadmin & He & Hp & Hr & Hf & Hl & Hrole) Hfree out.
  assert (E : out = catch_AppError (register R S now req) db) by reflexivity.
  clearbody out. revert E.
  unfold catch_AppError, register.
  rewrite (bool_decide_eq_true_2 _ Hadmin), He, Hp, Hr, Hf, Hl, Hrole.
  cbn [negb orb].
  unfold bind at 1. unfold query at 1. rewrite Hfree, decide_is_None.
  unfold bind at 1. unfold query at 1.
  unfold bind at 1. unfold query at 1.
  match goal with
  | |- context [rollback_user S (Users.id ?u)] => set (newUser := u)
  end.
  intros E. exists newUser. do 3 (split; [reflexivity|]). revert E.
  destruct (users_reject S db newUser) as [e|]; [by intros ->|].
  assert (Hid : Users.id newUser = gen_id S db) by reflexivity.
  clearbody newUser.
  destruct role; decide_roles;
    cbv beta iota delta [bind query exec ret throw rollback_user].
  1-3: intros ->; split; [by intros _|];
       intros Hin; exfalso; revert Hin; apply (bool_decide_unpack _); exact I.
  - intros E.
    split; [intros Hout; exfalso; apply Hout; apply (bool_decide_unpack _); exact I|].
    intros _. revert E.
    match goal with
    | |- context [teachers_reject S _ ?r] => intros E; exists (TeacherProfile r); revert E
    end.
    cbn [profile_reject].
    destruct (teachers_reject S _ _) as [e|]; [|by intros ->].
    destruct (users_delete_reject S _ _); by intros ->.
  - intros E.
    split; [intros Hout; exfalso; apply Hout; apply (bool_decide_unpack _); exact I|].
    intros _. revert E.
    match goal with
    | |- context [parents_reject S _ ?r] => intros E; exists (ParentProfile r); revert E
    end.
    cbn [profile_reject].
    destruct (parents_reject S _ _) as [e|]; [|by intros ->].
    destruct (users_delete_reject S _ _); by intros ->.
  - intros E.
    split; [intros Hout; exfalso; apply Hout; apply (bool_decide_unpack _); exact I|].
    intros _. revert E.
    match goal with
    | |- context [students_reject S _ ?r] => intros E; exists (StudentProfile r); revert E
    end.
    cbn [profile_reject].
    destruct (students_reject S _ _) as [e|]; [|by intros ->].
    destruct (users_delete_reject S _ _); by intros ->.
Qed.

Lemma has_profile_grows (db db' : Db) (u : User) :
  teachers db ⊆ teachers db' -> students db ⊆ students db' ->
  parents db ⊆ parents db' ->
  has_profile db u -> has_profile db' u.
Proof.
  intros Ht Hs Hp. unfold has_profile.
  destruct (Users.role u); try done; rewrite !Exists_exists; intros (x & Hx & E);
    exists x; split; auto.
Qed.

Lemma rolled_back_users (newUser : User) (db : Db) :
  users (rolled_back newUser db) ⊆ users db.
Proof.
  intros u. cbn. unfold delete_where.
  rewrite list_elem_of_filter, elem_of_app, list_elem_of_singleton.
  intros [Hne [Hin| ->]]; done.
Qed.

(** Deleting by a value no earlier row has removes the appended row only. *)
Lemma delete_where_appended {A} (col : A -> string) (v : string)
    (rows : list A) (x : A) :
  Forall (fun r => col r ≠ v) rows -> col x = v ->
  delete_where col v (rows ++ [x]) = rows.
Proof.
  intros Hrows Hx. unfold delete_where.
  rewrite filter_app, (filter_cons_False _ x) by (intros Hne; by apply Hne).
  rewrite filter_nil, app_nil_r.
  induction Hrows as [|r rows Hr _ IH]; [done|].
  by rewrite filter_cons_True, IH.
Qed.

Lemma rolled_back_unused (newUser : User) (db : Db) :
  unused_id (Users.id newUser) db -> rolled_back newUser db = db.
Proof.
  unfold unused_id, rolled_back, add_user. intros Hnew.
  destruct db as [us ds ss cs css ts sts ps sps als sals].
  unfold with_users. cbn -[delete_where] in *. f_equal.
  by apply delete_where_appended.
Qed.

Lemma add_profile_has_profile (p : Profile) (newUser : User) (db : Db) :
  Users.role newUser = profile_role p -> profile_user_id p = Users.id newUser ->
  has_profile (add_profile p db) newUser.
Proof.
  intros Hrole Hid. unfold has_profile. rewrite Hrole.
  destruct p; cbn in *; apply Exists_app; right; by apply Exists_cons_hd.
Qed.

Lemma add_profile_keeps (p : Profile) (u : User) (db : Db) :
  has_profile db u -> has_profile (add_profile p db) u.
Proof.
  apply has_profile_grows; destruct p; cbn;
    first [done | by apply sublist_subseteq, sublist_inserts_r].
Qed.

Lemma not_profiled_role (r : Role) :
  r ∉ [teacher; student; parent] -> r = admin \/ r = headmaster \/ r = hod.
Proof.
  destruct r; auto; intros Hout; exfalso; apply Hout;
    apply (bool_decide_unpack _); exact I.
Qed.

Lemma register_end_complete (S : Store) (db : Db) (out : Db * Response) :
  register_end S db out ->
  (forall d i, users_delete_reject S d i = None) ->
  profiles_complete db -> profiles_complete out.1.
Proof.
  unfold profiles_complete.
  intros Hend Hdel Hall. destruct Hend as
    [code msg Hcode | newUser msg Hrole Hid Hdone | newUser msg e Hrole Hid Hleft
    | newUser body Hrole Hbody | newUser p body Hrole Hrow Hacc Hbody]; cbn [fst].
  - done.
  - apply Forall_forall. intros u Hu%rolled_back_users.
    rewrite Forall_forall in Hall. by apply Hall.
  - by rewrite Hdel in Hleft.
  - cbn. apply Forall_app. split; [done|]. apply Forall_singleton.
    unfold has_profile.
    by destruct (not_profiled_role _ Hrole) as [-> | [-> | ->]].
  - assert (Hus : users (add_profile p (add_user newUser db)) = users db ++ [newUser])
      by (by destruct p).
    rewrite Hus. apply Forall_app. split.
    + eapply Forall_impl; [exact Hall|]. intros u Hu.
      apply add_profile_keeps. revert Hu. by apply has_profile_grows.
    + apply Forall_singleton. by apply add_profile_has_profile.
Qed.

Lemma orphan_has_no_profile (newUser : User) (db : Db) :
  Users.role newUser ∈ [teacher; student; parent] ->
  unreferenced (Users.id newUser) db ->
  ¬ has_profile (add_user newUser db) newUser.
Proof.
  intros Hrole (Ht & Hs & Hp). unfold has_profile.
  destruct (Users.role newUser); cbn;
    try (exfalso; revert Hrole; apply (bool_decide_unpack _); exact I);
    rewrite Exists_exists; intros (x & Hx & E).
  - rewrite Forall_forall in Ht. by apply (Ht x).
  - rewrite Forall_forall in Hp. by apply (Hp x).
  - rewrite Forall_forall in Hs. by apply (Hs x).
Qed.

(** C9. What [register] leaves in the store, for teacher, student and
    parent registrations.
    - A request that passes the checks, for an email no row has, draws the
      id of a user row and, once the store took that row, sends a profile
      row that refers to it. When the store takes the profile row the answer
      is 201 and both rows were appended. When it refuses the profile row
      the answer is 500 and the handler sends a delete of the user row; the
      answer to the delete is not looked at: a store that carries it out is
      left with the user row removed, a store that does not is left with
      the user row and no profile row.
    - A call that answers 201 has appended an identity that has its
      profile row.
    - A call that does not answer 201, on a store that carries deletes out
      and draws unused ids, leaves the store exactly as it was; on a store
      that carries deletes out, every teacher, student and parent identity
      still has its profile row after the call if it was so before.
    - When the store refuses both the profile row and the delete, the new
      identity is in the store without a profile row. *)
Theorem register_profile_or_rollback :
  forall (R : Runtime) (S : Store) (now : Z)
         (req : AuthRequest RegisterUserRequest.t) (db : Db),
    let out := catch_AppError (register R S now req) db in
    let email := toLowerCase R (str (RegisterUserRequest.email (body req))) in
    (forall role,
       well_formed req role -> role ∈ [teacher; student; parent] ->
       single (where_eq Users.email email (users db)) = None ->
       exists newUser p,
         Users.id newUser = gen_id S db /\ Users.role newUser = role /\
         Users.email newUser = email /\
         profile_role p = role /\ profile_user_id p = Users.id newUser /\
         match users_reject S db newUser with
         | Some _ => out.1 = db /\ status out.2 = 500
         | None =>
             match profile_reject S (add_user newUser db) p with
             | None => out.1 = add_profile p (add_user newUser db) /\
                       status out.2 = 201 /\ has_profile out.1 newUser
             | Some _ =>
                 status out.2 = 500 /\
                 match users_delete_reject S (add_user newUser db) (Users.id newUser) with
                 | None => out.1 = rolled_back newUser db /\
                           (unused_id (gen_id S db) db -> out.1 = db)
                 | Some _ => out.1 = add_user newUser db /\
                             (unreferenced (gen_id S db) db ->
                                ¬ has_profile out.1 newUser)
                 end
             end
         end) /\
    (status out.2 = 201 ->
       exists newUser,
         users out.1 = users db ++ [newUser] /\ has_profile out.1 newUser /\
         (Users.role newUser ∈ [teacher; student; parent] ->
            exists p, profile_role p = Users.role newUser /\
              profile_user_id p = Users.id newUser /\
              profile_reject S (add_user newUser db) p = None /\
              out.1 = add_profile p (add_user newUser db))) /\
    (status out.2 ≠ 201 ->
       (forall d i, users_delete_reject S d i = None) ->
       unused_id (gen_id S db) db -> out.1 = db) /\
    ((forall d i, users_delete_reject S d i = None) ->
       profiles_complete db -> profiles_complete out.1) /\
    (forall role,
       well_formed req role -> role ∈ [teacher; student; parent] ->
       single (where_eq Users.email email (users db)) = None ->
       (forall r, users_reject S db r = None) ->
       (forall d p, is_Some (profile_reject S d p)) ->
       (forall d i, is_Some (users_delete_reject S d i)) ->
       unreferenced (gen_id S db) db ->
       status out.2 = 500 /\
       exists newUser,
         Users.role newUser = role /\ out.1 = add_user newUser db /\
         ¬ has_profile out.1 newUser /\ ¬ profiles_complete out.1).
Proof.
  intros R S now req db out email.
  assert (Hfwd : forall role,
       well_formed req role -> role ∈ [teacher; student; parent] ->
       single (where_eq Users.email email (users db)) = None ->
       exists newUser p,
         Users.id newUser = gen_id S db /\ Users.role newUser = role /\
         Users.email newUser = email /\
         profile_role p = role /\ profile_user_id p = Users.id newUser /\
         match users_reject S db newUser with
         | Some _ => out.1 = db /\ status out.2 = 500
         | None =>
             match profile_reject S (add_user newUser db) p with
             | None => out.1 = add_profile p (add_user newUser db) /\
                       status out.2 = 201 /\ has_profile out.1 newUser
             | Some _ =>
                 status out.2 = 500 /\
                 match users_delete_reject S (add_user newUser db) (Users.id newUser) with
                 | None => out.1 = rolled_back newUser db /\
                           (unused_id (gen_id S db) db -> out.1 = db)
                 | Some _ => out.1 = add_user newUser db /\
                             (unreferenced (gen_id S db) db ->
                                ¬ has_profile out.1 newUser)
                 end
             end
         end).
  { intros role Hwf Hrole Hfree.
    destruct (register_admitted R S now req db role Hwf Hfree)
      as (newUser & Hid & Hr & Hmail & Hrun). fold out in Hrun.
    destruct (users_reject S db newUser) as [e|] eqn:Euser.
    - exists newUser.
      exists (match role with
              | student => StudentProfile {| Students.id := ""; Students.user_id := Users.id newUser;
                             Students.student_number := ""; Students.class_id := None;
                             Students.date_of_birth := None; Students.gender := None;
                             Students.address := None; Students.enrollment_date := "" |}
              | parent => ParentProfile {| Parents.id := ""; Parents.user_id := Users.id newUser;
                            Parents.relationship := None; Parents.occupation := None |}
              | _ => TeacherProfile {| Teachers.id := ""; Teachers.user_id := Users.id newUser;
                            Teachers.employee_number := ""; Teachers.department_id := None;
                            Teachers.hire_date := "" |}
              end).
      rewrite Euser. do 3 (split; [done|]).
      split; [|split; [|done]].
      + destruct role; try reflexivity;
          exfalso; revert Hrole; apply (bool_decide_unpack _); exact I.
      + by destruct role.
    - destruct Hrun as [_ Hrun]. destruct (Hrun Hrole) as (p & Hp & Hpid & Hcase).
      exists newUser, p. rewrite Euser. do 5 (split; [done|]).
      destruct (profile_reject S _ p) as [e|].
      + destruct Hcase as [Hst Hcase]. split; [done|].
        destruct (users_delete_reject S _ _) as [e'|].
        * split; [done|]. intros Href. rewrite Hcase.
          apply orphan_has_no_profile; [by rewrite Hr|by rewrite Hid].
        * split; [done|]. intros Hnew. rewrite Hcase.
          apply rolled_back_unused. by rewrite Hid.
      + destruct Hcase as [Hout Hst]. split; [done|]. split; [done|].
        rewrite Hout. apply add_profile_has_profile; [by rewrite Hr, Hp|done]. }
  split; [exact Hfwd|].
  pose proof (register_ends R S now req db) as Hend. fold out in Hend.
  split; [|split; [|split]].
  - destruct Hend as
      [code msg Hcode | newUser msg Hrole Hid Hdone | newUser msg e Hrole Hid Hleft
      | newUser body Hrole Hbody | newUser p body Hrole Hrow Hacc Hbody];
      cbn [fst snd status]; try done.
    + intros _. exists newUser. split; [done|]. split; [|done].
      unfold has_profile.
      by destruct (not_profiled_role _ Hrole) as [-> | [-> | ->]].
    + intros _. exists newUser. split; [by destruct p|].
      split; [by apply add_profile_has_profile|].
      intros _. by exists p.
  - intros Hst Hdel Hnew. destruct Hend as
      [code msg Hcode | newUser msg Hrole Hid Hdone | newUser msg e Hrole Hid Hleft
      | newUser body Hrole Hbody | newUser p body Hrole Hrow Hacc Hbody];
      cbn [fst snd status] in *; try done.
    + apply rolled_back_unused. by rewrite Hid.
    + by rewrite Hdel in Hleft.
  - by apply register_end_complete with (S := S) (db := db).
  - intros role Hwf Hrole Hfree Huser Hprof Hdel Href.
    destruct (Hfwd role Hwf Hrole Hfree)
      as (newUser & p & Hid & Hr & Hmail & Hp & Hpid & Hcase).
    rewrite Huser in Hcase.
    destruct (Hprof (add_user newUser db) p) as [e He]. rewrite He in Hcase.
    destruct (Hdel (add_user newUser db) (Users.id newUser)) as [e' He'].
    rewrite He' in Hcase. destruct Hcase as (Hst & Hout & Horphan).
    split; [done|]. exists newUser. split; [done|]. split; [done|].
    split; [by apply Horphan|].
    unfold profiles_complete. rewrite Forall_forall. intros Hall.
    apply (Horphan Href). apply Hall. rewrite Hout. cbn.
    apply elem_of_app. right. apply list_elem_of_here.
Qed.

Lemma sample_db_complete : profiles_complete sample_db.
Proof.
  unfold profiles_complete. cbn [users sample_db].
  apply Forall_cons_2; [exact I|].
  apply Forall_cons_2; [exact I|].
  apply Forall_cons_2; [apply Exists_cons_tl, Exists_cons_hd; reflexivity|].
  apply Forall_cons_2; [apply Exists_cons_hd; reflexivity|].
  apply Forall_nil_2.
Qed.

Lemma register_profile_or_rollback_witness :
  let run S req := catch_AppError
                     (register sample_runtime S 1767600000000 req) sample_db in
  profiles_complete sample_db /\
  (status (run lenient_store new_teacher_request).2 = 201 /\
   Teachers.user_id <$> last (teachers (run lenient_store new_teacher_request).1)
   = Some "new-id" /\
   Users.email <$> last (users (run lenient_store new_teacher_request).1)
   = Some "new.teacher@school.com") /\
  (status (run lenient_store new_student_request).2 = 201 /\
   Students.user_id <$> last (students (run lenient_store new_student_request).1)
   = Some "new-id") /\
  (status (run lenient_store new_parent_request).2 = 201 /\
   Parents.user_id <$> last (parents (run lenient_store new_parent_request).1)
   = Some "new-id") /\
  run strict_profile_store new_teacher_request
  = (sample_db, {| status := 500;
                   json := fail_body "Failed to create teacher profile" |}) /\
  (run strict_profile_store new_student_request).1 = sample_db /\
  (status (run unreliable_store new_parent_request).2 = 500 /\
   Users.email <$> last (users (run unreliable_store new_parent_request).1)
   = Some "new.parent@school.com" /\
   parents (run unreliable_store new_parent_request).1 = parents sample_db /\
   ¬ profiles_complete (run unreliable_store new_parent_request).1).
Proof.
  intros run.
  split; [exact sample_db_complete|].
  do 4 (split; [repeat split; reflexivity|]).
  split.
  - refine (proj1 (proj2 (proj2 (register_profile_or_rollback sample_runtime
              strict_profile_store 1767600000000 new_student_request sample_db)))
              _ _ _).
    + discriminate.
    + reflexivity.
    + unfold unused_id. apply (bool_decide_unpack _). exact I.
  - destruct (proj2 (proj2 (proj2 (proj2 (register_profile_or_rollback sample_runtime
              unreliable_store 1767600000000 new_parent_request sample_db))))
              parent) as (Hst & newUser & Hrole & Hout & Horphan & Hbroken).
    + repeat split; reflexivity.
    + apply (bool_decide_unpack _). exact I.
    + reflexivity.
    + reflexivity.
    + intros d p. destruct p; eexists; reflexivity.
    + intros d i. eexists; reflexivity.
    + unfold unreferenced. apply (bool_decide_unpack _). exact I.
    + split; [exact Hst|]. split; [reflexivity|]. split; [reflexivity|exact Hbroken].
Defined.
(** ** What a response shows of an identity *)

Lemma fail_body_no_user (msg : string) : fail_body msg !! "user" = None.
Proof.
  unfold fail_body. rewrite !lookup_insert_ne by done. apply lookup_empty.
Qed.

Lemma stripped_user (u : User) :
  delete "password_hash" (Users.to_json u) !! "password_hash" = None.
Proof. apply lookup_delete_eq. Qed.

Lemma stored_hash_is_a_column (u : User) :
  Users.to_json u !! "password_hash" = Some (JStr (Users.password_hash u)).
Proof.
  unfold Users.to_json. rewrite !lookup_insert_ne by done. apply lookup_insert_eq.
Qed.

Lemma single_elem_of {A} (rows : list A) (x : A) : single rows = Some x -> x ∈ rows.
Proof.
  destruct rows as [|a [|b rest]]; cbn; intros H; simplify_eq.
  apply list_elem_of_here.
Qed.

Lemma login_ends (L : TokenLib) (env : option string) (R : Runtime) (now : Z)
    (req : AuthRequest LoginRequest.t) (db : Db) :
  (exists code msg, code ≠ 200 /\
     (catch_AppError (login L env R now req) db).2
     = {| status := code; json := fail_body msg |}) \/
  (exists u, u ∈ users db /\
     (catch_AppError (login L env R now req) db).2
     = {| status := 200;
          json := <["token" := JStr (generateToken L env u now)]>
                  (<["user" := JObj (delete "password_hash" (Users.to_json u))]>
                  (ok_body "Login successful")) |}).
Proof.
  remember (catch_AppError (login L env R now req) db).2 as res eqn:E.
  revert E. unfold catch_AppError, login.
  destruct (negb (truthy _) || negb (truthy _));
    [intros ->; left; do 2 eexists; (split; [|reflexivity]); done|].
  unfold bind at 1. unfold query at 1.
  destruct (single _) as [u|] eqn:Hrow;
    [|intros ->; left; do 2 eexists; (split; [|reflexivity]); done].
  destruct (negb (bcrypt_compare R _ _));
    [intros ->; left; do 2 eexists; (split; [|reflexivity]); done|].
  destruct (negb (Users.is_active u));
    [intros ->; left; do 2 eexists; (split; [|reflexivity]); done|].
  intros ->. right. exists u. split; [|reflexivity].
  apply single_elem_of in Hrow. unfold where_eq in Hrow.
  by apply list_elem_of_filter in Hrow as [_ ?].
Qed.

(** The response of an accepted [login]: the row the email selects, and the
    body made of it. *)
Lemma login_accepted (L : TokenLib) (env : option string) (R : Runtime) (now : Z)
    (req : AuthRequest LoginRequest.t) (db : Db) :
  let res := (catch_AppError (login L env R now req) db).2 in
  status res = 200 ->
  exists u,
    single (where_eq Users.email
              (toLowerCase R (str (LoginRequest.email (body req)))) (users db))
    = Some u /\
    json res = <["token" := JStr (generateToken L env u now)]>
               (<["user" := JObj (delete "password_hash" (Users.to_json u))]>
               (ok_body "Login successful")).
Proof.
  intros res. assert (E : res = (catch_AppError (login L env R now req) db).2)
    by reflexivity.
  clearbody res. revert E. unfold catch_AppError, login.
  destruct (negb (truthy _) || negb (truthy _)); [by intros ->|].
  unfold bind at 1. unfold query at 1.
  destruct (single _) as [u|] eqn:Hrow; [|by intros ->].
  destruct (negb (bcrypt_compare R _ _)); [by intros ->|].
  destruct (negb (Users.is_active u)); [by intros ->|].
  intros -> _. by exists u.
Qed.

(** The response of a [register] that answers 201: the body is made of the
    new row and of the id drawn for the student or parent row. *)
Lemma register_created (R : Runtime) (S : Store) (now : Z)
    (req : AuthRequest RegisterUserRequest.t) (db : Db) :
  let res := (catch_AppError (register R S now req) db).2 in
  status res = 201 ->
  exists newUser,
    Users.id newUser = gen_id S db /\
    Users.email newUser
    = toLowerCase R (str (RegisterUserRequest.email (body req))) /\
    role_of_string (str (RegisterUserRequest.role (body req)))
    = Some (Users.role newUser) /\
    Users.password_hash newUser
    = bcrypt_hash R (str (RegisterUserRequest.password (body req))) /\
    Users.first_name newUser = str (RegisterUserRequest.first_name (body req)) /\
    Users.last_name newUser = str (RegisterUserRequest.last_name (body req)) /\
    Users.phone newUser = RegisterUserRequest.phone (body req) /\
    Users.profile_image newUser = None /\ Users.is_active newUser = true /\
    Users.last_login newUser = None /\
    json res
    = <["user" := JObj (delete "password_hash" (Users.to_json newUser))]>
      (<["student_id" :=
           if bool_decide (Users.role newUser = student)
           then opt_json (or_null (Some (gen_id S (add_user newUser db))))
           else JNull]>
      (<["parent_id" :=
           if bool_decide (Users.role newUser = parent)
           then opt_json (or_null (Some (gen_id S (add_user newUser db))))
           else JNull]>
      (ok_body "User registered successfully"))).
Proof.
  intros res. assert (E : res = (catch_AppError (register R S now req) db).2)
    by reflexivity.
  clearbody res. revert E. unfold catch_AppError, register.
  destruct (bool_decide (Users.role <$> user req = Some admin)); cbn [negb];
    [|by intros ->].
  match goal with |- context [if ?c then throw _ 400 else _] => destruct c end;
    [by intros ->|].
  destruct (role_of_string _) as [role|]; [|by intros ->].
  unfold bind at 1. unfold query at 1.
  destruct (bool_decide (is_Some _)); [by intros ->|].
  unfold bind at 1. unfold query at 1.
  unfold bind at 1. unfold query at 1.
  destruct (users_reject S db _) as [e|]; [by intros ->|].
  match goal with
  | |- context [rollback_user S (Users.id ?u)] => set (newUser := u)
  end.
  intros E Hst. exists newUser. do 10 (split; [reflexivity|]).
  revert E Hst.
  destruct role; decide_roles;
    cbv beta iota delta [bind query exec ret throw rollback_user].
  1-3: by intros ->.
  - destruct (teachers_reject S _ _) as [e|];
      [destruct (users_delete_reject S _ _)|]; by intros ->.
  - destruct (parents_reject S _ _) as [e|];
      [destruct (users_delete_reject S _ _)|]; by intros ->.
  - destruct (students_reject S _ _) as [e|];
      [destruct (users_delete_reject S _ _)|]; by intros ->.
Qed.

(** *** Keys at any depth *)

Lemma has_key_JObj (k : string) (o : gmap string Json) :
  has_key k (JObj o) = false <->
  o !! k = None /\ map_Forall (fun _ v => has_key k v = false) o.
Proof.
  cbn [has_key]. rewrite orb_false_iff, bool_decide_eq_false.
  rewrite <- eq_None_not_Some.
  assert (Hfold : map_fold (fun (_ : string) v found => has_key k v || found) false o
                  = false <-> map_Forall (fun _ v => has_key k v = false) o).
  { apply (map_fold_weak_ind
             (fun r m => r = false <-> map_Forall (fun _ v => has_key k v = false) m)).
    - split; [intros _; apply map_Forall_empty|done].
    - intros i v m r Hi IH. rewrite orb_false_iff, IH.
      by rewrite map_Forall_insert. }
  by rewrite Hfold.
Qed.

Lemma has_key_opt_json (k : string) (o : option string) :
  has_key k (opt_json o) = false.
Proof. by destruct o. Qed.

Lemma has_key_if (k : string) (b : bool) (x y : Json) :
  has_key k x = false -> has_key k y = false ->
  has_key k (if b then x else y) = false.
Proof. by destruct b. Qed.

Lemma has_key_insert (k i : string) (v : Json) (o : gmap string Json) :
  i ≠ k -> has_key k v = false -> has_key k (JObj o) = false ->
  has_key k (JObj (<[i := v]> o)) = false.
Proof.
  rewrite !has_key_JObj. intros Hi Hv [Hk Hall]. split.
  - by rewrite lookup_insert_ne.
  - by apply map_Forall_insert_2.
Qed.

Lemma has_key_empty (k : string) : has_key k (JObj ∅) = false.
Proof. apply has_key_JObj. split; [apply lookup_empty|apply map_Forall_empty]. Qed.

Lemma fail_body_no_hash (msg : string) :
  has_key "password_hash" (JObj (fail_body msg)) = false.
Proof.
  unfold fail_body. repeat (apply has_key_insert; [done|done|]). apply has_key_empty.
Qed.

Lemma ok_body_no_hash (msg : string) :
  has_key "password_hash" (JObj (ok_body msg)) = false.
Proof.
  unfold ok_body. repeat (apply has_key_insert; [done|done|]). apply has_key_empty.
Qed.

Lemma stripped_user_no_hash (u : User) :
  has_key "password_hash" (JObj (delete "password_hash" (Users.to_json u))) = false.
Proof.
  apply has_key_JObj. split; [apply lookup_delete_eq|].
  apply map_Forall_delete. unfold Users.to_json.
  repeat (apply map_Forall_insert_2; [first [reflexivity | apply has_key_opt_json]|]).
  apply map_Forall_empty.
Qed.

(** *** Rows that differ in the hash only *)

Lemma stripped_same_public (u u' : User) :
  same_public u u' ->
  delete "password_hash" (Users.to_json u) = delete "password_hash" (Users.to_json u').
Proof.
  intros (Hid & Hmail & Hrole & Hf & Hl & Hph & Him & Hact & Hlast).
  unfold Users.to_json. rewrite Hid, Hmail, Hrole, Hf, Hl, Hph, Him, Hact, Hlast.
  rewrite !(delete_insert_ne _ "password_hash") by done.
  by rewrite !delete_insert_eq.
Qed.

Lemma where_eq_same_public (e : string) (rows rows' : list User) :
  Forall2 same_public rows rows' ->
  Forall2 same_public (where_eq Users.email e rows) (where_eq Users.email e rows').
Proof.
  unfold where_eq. induction 1 as [|u u' rows rows' Hu Hrows IH]; [constructor|].
  rewrite !filter_cons. destruct Hu as (Hid & Hmail & Hrest).
  rewrite <- Hmail. destruct (decide (Users.email u = e)); [|done].
  constructor; [|done]. exact (conj Hid (conj Hmail Hrest)).
Qed.

Lemma single_same_public (rows rows' : list User) (u u' : User) :
  Forall2 same_public rows rows' ->
  single rows = Some u -> single rows' = Some u' -> same_public u u'.
Proof.
  intros Hrows. destruct Hrows as [|x x' ? ? Hx Hrest]; [done|].
  destruct Hrest; cbn; [|done]. by intros [= <-] [= <-].
Qed.

Lemma generateToken_same_public (L : TokenLib) (env : option string) (now : Z)
    (u u' : User) :
  same_public u u' -> generateToken L env u now = generateToken L env u' now.
Proof.
  intros (Hid & Hmail & Hrole & _). unfold generateToken. by rewrite Hid, Hmail, Hrole.
Qed.

(** C10. What the responses of [login] and of [register] show of the
    stored password hash.
    - No object of the body, at any depth, has a [password_hash] key; in
      particular a [user] field of the body is an object without that key,
      although the row read from the store has that column.
    - The successful responses, 200 for [login] and 201 for [register], do
      carry the [user] object: the row without its [password_hash].
    - The body of a successful response does not depend on the hash. Two
      accepted logins of the same request, on stores whose user rows differ
      in the password hashes only and with whatever [bcrypt], have the same
      body; so have two accepted registrations of the same request that
      differ in the [bcrypt] that hashes the password, when the ids the
      store draws do not depend on the hash. *)
Theorem responses_never_carry_password_hash :
  forall (L : TokenLib) (env : option string) (R : Runtime) (S : Store) (now : Z)
         (db : Db),
    (forall (req : AuthRequest LoginRequest.t),
       let res := (catch_AppError (login L env R now req) db).2 in
       has_key "password_hash" (JObj (json res)) = false /\
       (forall o, json res !! "user" = Some (JObj o) -> o !! "password_hash" = None) /\
       (status res = 200 ->
          exists u, u ∈ users db /\
            Users.to_json u !! "password_hash" = Some (JStr (Users.password_hash u)) /\
            json res !! "user" = Some (JObj (delete "password_hash" (Users.to_json u)))) /\
       (forall (R' : Runtime) (db' : Db),
          let res' := (catch_AppError (login L env R' now req) db').2 in
          Forall2 same_public (users db) (users db') ->
          toLowerCase R' (str (LoginRequest.email (body req)))
          = toLowerCase R (str (LoginRequest.email (body req))) ->
          status res = 200 -> status res' = 200 -> json res' = json res)) /\
    (forall (req : AuthRequest RegisterUserRequest.t),
       let res := (catch_AppError (register R S now req) db).2 in
       has_key "password_hash" (JObj (json res)) = false /\
       (forall o, json res !! "user" = Some (JObj o) -> o !! "password_hash" = None) /\
       (status res = 201 ->
          exists u,
            Users.password_hash u
            = bcrypt_hash R (str (RegisterUserRequest.password (body req))) /\
            Users.to_json u !! "password_hash" = Some (JStr (Users.password_hash u)) /\
            json res !! "user" = Some (JObj (delete "password_hash" (Users.to_json u)))) /\
       (forall (R' : Runtime),
          let res' := (catch_AppError (register R' S now req) db).2 in
          toLowerCase R' (str (RegisterUserRequest.email (body req)))
          = toLowerCase R (str (RegisterUserRequest.email (body req))) ->
          draws_blind_to_hash S db ->
          status res = 201 -> status res' = 201 -> json res' = json res)).
Proof.
  intros L env R S now db. split.
  - intros req res.
    assert (Hkeys : has_key "password_hash" (JObj (json res)) = false).
    { subst res.
      destruct (login_ends L env R now req db)
        as [(code & msg & Hcode & ->)|(u & Hu & ->)]; cbn [status json].
      - apply fail_body_no_hash.
      - apply has_key_insert; [done|done|].
        apply has_key_insert; [done|apply stripped_user_no_hash|].
        apply ok_body_no_hash. }
    split; [exact Hkeys|]. split; [|split].
    + intros o Ho. apply has_key_JObj in Hkeys as [_ Hall].
      specialize (Hall _ _ Ho). cbn beta in Hall. by apply has_key_JObj in Hall as [? _].
    + subst res.
      destruct (login_ends L env R now req db)
        as [(code & msg & Hcode & ->)|(u & Hu & ->)]; cbn [status json]; [done|].
      intros _. exists u. split; [done|]. split; [apply stored_hash_is_a_column|].
      rewrite lookup_insert_ne by done. apply lookup_insert_eq.
    + intros R' db' res' Hdb Hlow Hok Hok'.
      destruct (login_accepted L env R now req db Hok) as (u & Hu & Hbody).
      destruct (login_accepted L env R' now req db' Hok') as (u' & Hu' & Hbody').
      rewrite Hlow in Hu'.
      assert (Hsame : same_public u u').
      { eapply single_same_public; [|exact Hu|exact Hu'].
        by apply where_eq_same_public. }
      fold res in Hbody. fold res' in Hbody'. rewrite Hbody, Hbody'.
      by rewrite (generateToken_same_public L env now u u' Hsame),
                 (stripped_same_public u u' Hsame).
  - intros req res.
    assert (Hends : (exists code msg, res = {| status := code; json := fail_body msg |})
                    \/ status res = 201).
    { subst res.
      destruct (register_ends R S now req db) as
        [code msg Hcode | newUser msg Hrole Hid Hdone | newUser msg e Hrole Hid Hleft
        | newUser body Hrole Hbody | newUser p body Hrole Hrow Hacc Hbody];
        cbn [snd status]; eauto. }
    assert (Hkeys : has_key "password_hash" (JObj (json res)) = false).
    { destruct Hends as [(code & msg & ->)|Hok]; [apply fail_body_no_hash|].
      destruct (register_created R S now req db Hok)
        as (u & _ & _ & _ & _ & _ & _ & _ & _ & _ & _ & Hbody).
      fold res in Hbody. rewrite Hbody.
      apply has_key_insert; [done|apply stripped_user_no_hash|].
      apply has_key_insert; [done|apply has_key_if; [apply has_key_opt_json|done]|].
      apply has_key_insert; [done|apply has_key_if; [apply has_key_opt_json|done]|].
      apply ok_body_no_hash. }
    split; [exact Hkeys|]. split; [|split].
    + intros o Ho. apply has_key_JObj in Hkeys as [_ Hall].
      specialize (Hall _ _ Ho). cbn beta in Hall. by apply has_key_JObj in Hall as [? _].
    + intros Hok.
      destruct (register_created R S now req db Hok)
        as (u & _ & _ & _ & Hhash & _ & _ & _ & _ & _ & _ & Hbody).
      fold res in Hbody. exists u. split; [done|].
      split; [apply stored_hash_is_a_column|].
      rewrite Hbody. apply lookup_insert_eq.
    + intros R' res' Hlow Hblind Hok Hok'.
      destruct (register_created R S now req db Hok)
        as (u & Hid & Hmail & Hrole & _ & Hf & Hl & Hph & Him & Hact & Hlast & Hbody).
      destruct (register_created R' S now req db Hok')
        as (u' & Hid' & Hmail' & Hrole' & _ & Hf' & Hl' & Hph' & Him' & Hact' & Hlast'
            & Hbody').
      assert (Hsame : same_public u u').
      { rewrite Hrole in Hrole'. injection Hrole' as Hrole'.
        unfold same_public.
        by rewrite Hid, Hid', Hmail, Hmail', Hlow, Hrole', Hf, Hf', Hl, Hl', Hph, Hph',
                   Him, Him', Hact, Hact', Hlast, Hlast'. }
      fold res in Hbody. fold res' in Hbody'. rewrite Hbody, Hbody'.
      rewrite (stripped_same_public u u' Hsame), (Hblind u u' Hsame).
      by destruct Hsame as (_ & _ & -> & _).
Qed.

Lemma responses_never_carry_password_hash_witness :
  let req := request None None ""
               {| LoginRequest.email := Some "TCH@School.com";
                  LoginRequest.password := Some "u-tch" |} in
  let login_on R db :=
    (catch_AppError (login sample_lib None R 1767600000000 req) db).2 in
  let register_with R :=
    catch_AppError (register R lenient_store 1767600000000 new_student_request)
      sample_db in
  (status (login_on sample_runtime sample_db) = 200 /\
   status (login_on other_runtime rehashed_db) = 200 /\
   json (login_on other_runtime rehashed_db) = json (login_on sample_runtime sample_db) /\
   has_key "password_hash" (JObj (json (login_on sample_runtime sample_db))) = false /\
   exists o, json (login_on sample_runtime sample_db) !! "user" = Some (JObj o) /\
             o !! "password_hash" = None /\
             o !! "email" = Some (JStr "tch@school.com")) /\
  (status (register_with sample_runtime).2 = 201 /\
   status (register_with other_runtime).2 = 201 /\
   Users.password_hash <$> last (users (register_with sample_runtime).1)
   = Some "$2a$10$s3cret" /\
   Users.password_hash <$> last (users (register_with other_runtime).1)
   = Some "$2b$12$s3cret" /\
   json (register_with other_runtime).2 = json (register_with sample_runtime).2 /\
   has_key "password_hash" (JObj (json (register_with sample_runtime).2)) = false).
Proof.
  intros req login_on register_with.
  pose proof (responses_never_carry_password_hash sample_lib None sample_runtime
                lenient_store 1767600000000 sample_db) as [Hlogin Hregister].
  split.
  - destruct (Hlogin req) as (Hkeys & Huser & _ & Hsame).
    split; [reflexivity|]. split; [reflexivity|]. split; [|split; [exact Hkeys|]].
    + apply (Hsame other_runtime rehashed_db); [|reflexivity..].
      unfold same_public. apply (bool_decide_unpack _). exact I.
    + exists (delete "password_hash" (Users.to_json maths_teacher)).
      split; [reflexivity|]. split; [|reflexivity]. exact (Huser _ eq_refl).
  - destruct (Hregister new_student_request) as (Hkeys & _ & _ & Hsame).
    do 4 (split; [reflexivity|]). split; [|exact Hkeys].
    apply (Hsame other_runtime); [reflexivity| |reflexivity..].
    intros u u' Hu. reflexivity.
Defined.

(** * Further properties *)

(** ** The session resolver and the role gate together *)

Lemma authenticateToken_active (L : TokenLib) (env : option string) {B}
    (db : Db) (now : Z) (req : AuthRequest B) (tok : string) (c : JwtClaims)
    (u : User) :
  bearer_token req = Some tok ->
  tok ≠ "" ->
  jwt_verify L tok (JWT_SECRET env) now = Some c ->
  single (where_eq Users.id (userId (payload c)) (users db)) = Some u ->
  Users.is_active u = true ->
  authenticateToken L env db now req = Next (attach_user u req).
Proof.
  intros Htok Hne Hver Hrow Hact. unfold authenticateToken.
  rewrite Htok, (truthy_Some _ Hne). cbn [negb].
  rewrite Hver, Hrow, Hact. reflexivity.
Qed.

Lemma truthy_true_inv (o : option string) :
  truthy o = true -> exists s, o = Some s /\ s ≠ "".
Proof.
  destruct o as [s|]; cbn; [|done]. intros H. exists s. split; [done|].
  intros ->. discriminate.
Qed.

Lemma authenticateToken_next_inv (L : TokenLib) (env : option string) {B}
    (db : Db) (now : Z) (req req' : AuthRequest B) :
  authenticateToken L env db now req = Next req' ->
  exists tok c u,
    bearer_token req = Some tok /\ tok ≠ "" /\
    jwt_verify L tok (JWT_SECRET env) now = Some c /\
    single (where_eq Users.id (userId (payload c)) (users db)) = Some u /\
    Users.is_active u = true /\
    req' = attach_user u req.
Proof.
  unfold authenticateToken.
  destruct (bearer_token req) as [tok|] eqn:Htok; [|done].
  destruct (truthy (Some tok)) eqn:Htruthy; cbn [negb]; [|done].
  apply truthy_true_inv in Htruthy as (s & [= <-] & Hne).
  destruct (jwt_verify L tok (JWT_SECRET env) now) as [c|] eqn:Hver; [|done].
  destruct (single _) as [u|] eqn:Hrow; [|done].
  destruct (Users.is_active u) eqn:Hact; cbn [negb]; [|done].
  intros [= <-]. by exists tok, c, u.
Qed.

(** X1. [authenticateToken] calls [next()] only in one situation: the header
    carries a non-empty token, the token verifies, exactly one users row has
    the token's [userId], and that row is active. The identity it attaches
    is that row as the store has it now. *)
Theorem authenticateToken_next_iff :
  forall (L : TokenLib) (env : option string) (B : Type) (db : Db) (now : Z)
         (req req' : AuthRequest B),
    authenticateToken L env db now req = Next req' <->
    exists tok c u,
      bearer_token req = Some tok /\ tok ≠ "" /\
      jwt_verify L tok (JWT_SECRET env) now = Some c /\
      single (where_eq Users.id (userId (payload c)) (users db)) = Some u /\
      Users.is_active u = true /\
      req' = attach_user u req.
Proof.
  intros L env B db now req req'. split.
  - apply authenticateToken_next_inv.
  - intros (tok & c & u & Htok & Hne & Hver & Hrow & Hact & ->).
    by apply authenticateToken_active with tok c.
Qed.

Lemma authenticateToken_next_witness :
  let req := request (Some "Bearer u-old.your-super-secret-jwt-token/u-old")
               None "" tt in
  let active_db := with_users (map (Users.set_active true)) sample_db in
  authenticateToken sample_lib None active_db 1700000500000 req
  = Next (attach_user (Users.set_active true retired_teacher) req).
Proof.
  intros req active_db.
  apply (proj2 (authenticateToken_next_iff sample_lib None unit active_db
                  1700000500000 req _)).
  exists "u-old.your-super-secret-jwt-token/u-old", old_claims,
    (Users.set_active true retired_teacher).
  repeat split; (reflexivity || discriminate).
Defined.

(** X2. Behind a verified token of an active identity, the role gate decides
    on the role of the row in the store, not on the role in the token's
    payload: the handler runs, on the request with that row attached, when
    the store's role is in the allow-list, and the answer is the 403 naming
    the store's role when it is not, even if the payload's role is listed. *)
Theorem protected_decides_on_store_role :
  forall (L : TokenLib) (env : option string) (B : Type) (roles : list Role)
         (handler : AuthRequest B -> Db -> Db * Response)
         (db : Db) (now : Z) (req : AuthRequest B) (tok : string) (c : JwtClaims)
         (u : User),
    bearer_token req = Some tok ->
    tok ≠ "" ->
    jwt_verify L tok (JWT_SECRET env) now = Some c ->
    single (where_eq Users.id (userId (payload c)) (users db)) = Some u ->
    Users.is_active u = true ->
    (Users.role u ∈ roles ->
       protected L env roles handler now req db = handler (attach_user u req) db) /\
    (Users.role u ∉ roles ->
       protected L env roles handler now req db
       = (db, access_denied roles (Users.role u))).
Proof.
  intros L env B roles handler db now req tok c u Htok Hne Hver Hrow Hact.
  unfold protected.
  rewrite (authenticateToken_active L env db now req tok c u) by done.
  unfold authorizeRoles, includes. cbn [user attach_user].
  split; intros Hrole.
  - by rewrite bool_decide_eq_true_2.
  - by rewrite bool_decide_eq_false_2.
Qed.

Lemma protected_decides_on_store_role_witness :
  let req := request (Some "Bearer u-old.your-super-secret-jwt-token/u-old")
               None "" tt in
  let promoted :=
    with_users (map (fun u => if decide (Users.id u = "u-old")
                              then sample_user "u-old" "old@school.com" hod true
                              else u)) sample_db in
  role (payload old_claims) = teacher /\
  protected sample_lib None [teacher] noop_handler 1700000500000 req promoted
  = (promoted, access_denied [teacher] hod) /\
  protected sample_lib None [hod] noop_handler 1700000500000 req promoted
  = (promoted, {| status := 200; json := ok_body "ok" |}).
Proof.
  intros req promoted.
  pose proof (fun roles =>
    protected_decides_on_store_role sample_lib None unit roles noop_handler
      promoted 1700000500000 req "u-old.your-super-secret-jwt-token/u-old"
      old_claims (sample_user "u-old" "old@school.com" hod true)
      eq_refl ltac:(discriminate) eq_refl eq_refl eq_refl) as H.
  split; [reflexivity|]. split.
  - apply (proj2 (H [teacher])). apply (bool_decide_unpack _). exact I.
  - apply (proj1 (H [hod])). apply (bool_decide_unpack _). exact I.
Defined.

(** X3. Whatever the request, a protected route either answers 401 or 403
    without touching the store, the same answer for every handler, or runs
    the handler on the request with an identity attached that is a row of
    the store, is active and has a role on the allow-list. *)
Theorem protected_runs_handler_only_for_listed_active_identity :
  forall (L : TokenLib) (env : option string) (B : Type) (roles : list Role)
         (db : Db) (now : Z) (req : AuthRequest B),
    (exists res, (status res = 401 \/ status res = 403) /\
       forall handler, protected L env roles handler now req db = (db, res)) \/
    (exists u, u ∈ users db /\ Users.is_active u = true /\ Users.role u ∈ roles /\
       forall handler,
         protected L env roles handler now req db = handler (attach_user u req) db).
Proof.
  intros L env B roles db now req. unfold protected.
  destruct (authenticateToken L env db now req) as [req1|res] eqn:Hauth.
  - apply authenticateToken_next_inv in Hauth
      as (tok & c & u & _ & _ & _ & Hrow & Hact & ->).
    unfold authorizeRoles, includes. cbn [user attach_user].
    destruct (decide (Users.role u ∈ roles)) as [Hin|Hout].
    + right. exists u. split; [|split; [done|split; [done|]]].
      * apply single_elem_of in Hrow. unfold where_eq in Hrow.
        by apply list_elem_of_filter in Hrow as [_ ?].
      * intros handler. by rewrite bool_decide_eq_true_2.
    + left. exists (access_denied roles (Users.role u)). split; [by right|].
      intros handler. by rewrite bool_decide_eq_false_2.
  - left. exists res. split; [|done].
    revert Hauth. unfold authenticateToken.
    repeat (case_match; try done); intros [= <-]; cbn; auto.
Qed.

(** X4. A token that verifies but whose [userId] matches no users row (or
    more than one) is answered 401 with ['Invalid token'], and no handler
    runs. So the token of a deleted identity is dead at once: after a
    [deleteUser] that the store carried out by removing the rows of that
    id, the next request with the identity's token is answered this way. *)
Theorem token_of_missing_identity_is_rejected :
  forall (L : TokenLib) (env : option string) (B : Type) (roles : list Role)
         (handler : AuthRequest B -> Db -> Db * Response)
         (db : Db) (now : Z) (req : AuthRequest B) (tok : string) (c : JwtClaims),
    bearer_token req = Some tok ->
    tok ≠ "" ->
    jwt_verify L tok (JWT_SECRET env) now = Some c ->
    (single (where_eq Users.id (userId (payload c)) (users db)) = None ->
       protected L env roles handler now req db
       = (db, {| status := 401; json := error_body "Invalid token" |})) /\
    (forall (delete_user : Db -> string -> option Db) (B' : Type)
            (admin_req : AuthRequest B') (db' : Db),
       params_id admin_req = userId (payload c) ->
       Users.id <$> user admin_req ≠ Some (params_id admin_req) ->
       delete_user db (userId (payload c)) = Some db' ->
       where_eq Users.id (userId (payload c)) (users db') = [] ->
       let after := (catch_any (deleteUser delete_user admin_req) db).1 in
       after = db' /\
       protected L env roles handler now req after
       = (after, {| status := 401; json := error_body "Invalid token" |})).
Proof.
  intros L env B roles handler db now req tok c Htok Hne Hver.
  assert (Hgone : forall d,
    single (where_eq Users.id (userId (payload c)) (users d)) = None ->
    protected L env roles handler now req d
    = (d, {| status := 401; json := error_body "Invalid token" |})).
  { intros d Hrow. unfold protected, authenticateToken.
    rewrite Htok, (truthy_Some _ Hne). cbn [negb]. by rewrite Hver, Hrow. }
  split; [apply Hgone|].
  intros delete_user B' admin_req db' Hid Hself Hdel Hrows after.
  assert (Hafter : after = db').
  { subst after. unfold catch_any, deleteUser.
    rewrite bool_decide_eq_false_2 by (intros E; by rewrite <- E in Hself).
    unfold bind, query, exec, ret. by rewrite Hid, Hdel. }
  split; [exact Hafter|]. rewrite Hafter. apply Hgone. by rewrite Hrows.
Qed.

Lemma token_of_missing_identity_witness :
  let req := request (Some "Bearer u-old.your-super-secret-jwt-token/u-old")
               None "" tt in
  let admin_req := request None (Some root_admin) "u-old" tt in
  let delete_user := fun (db : Db) (id : string) =>
                       Some (with_users (delete_where Users.id id) db) in
  let after := (catch_any (deleteUser delete_user admin_req) sample_db).1 in
  length (users after) = 3%nat /\
  protected sample_lib None [teacher] noop_handler 1700000500000 req after
  = (after, {| status := 401; json := error_body "Invalid token" |}).
Proof.
  intros req admin_req delete_user after. split; [reflexivity|].
  refine (proj2 (proj2 (token_of_missing_identity_is_rejected sample_lib None unit
            [teacher] noop_handler sample_db 1700000500000 req
            "u-old.your-super-secret-jwt-token/u-old" old_claims
            eq_refl _ eq_refl) delete_user unit admin_req _ eq_refl _ eq_refl
            eq_refl)); discriminate.
Defined.

(** ** Reading the [Authorization] header *)

Lemma split_free (sep : ascii) (s : string) : free_of sep s -> split sep s = [s].
Proof.
  induction s as [|a s IH]; [done|]. intros [Ha Hs]. cbn -[Ascii.eqb].
  destruct (Ascii.eqb_spec a sep); [done|]. by rewrite IH.
Qed.

Lemma split_app_sep (sep : ascii) (w s : string) :
  free_of sep w -> split sep (w +:+ String sep s) = w :: split sep s.
Proof.
  induction w as [|a w IH].
  - intros _. change ("" +:+ String sep s) with (String sep s).
    cbn -[Ascii.eqb]. by rewrite Ascii.eqb_refl.
  - intros [Ha Hw].
    change (String a w +:+ String sep s) with (String a (w +:+ String sep s)).
    cbn -[Ascii.eqb]. destruct (Ascii.eqb_spec a sep); [done|]. by rewrite IH.
Qed.

Lemma bearer_token_second_word {B} (w tok : string) (u : option User) (id : string)
    (b : B) :
  free_of " " w -> free_of " " tok ->
  bearer_token (request (Some (w +:+ String " " tok)) u id b) = Some tok.
Proof.
  intros Hw Htok. unfold bearer_token, request. cbn [authorization].
  assert (Htruthy : truthy (Some (w +:+ String " " tok)) = true).
  { apply truthy_Some. by destruct w. }
  rewrite Htruthy, split_app_sep, split_free by done. reflexivity.
Qed.

(** X5. [authenticateToken] takes the second space-separated word of the
    header as the token and never looks at the first: with any scheme word
    in front, even none, it attaches the same identity or sends the same
    response as with ["Bearer"] and the same token. A header without a
    space carries no token and is answered 401. *)
Theorem authorization_scheme_is_not_checked :
  forall (L : TokenLib) (env : option string) (B : Type) (db : Db) (now : Z)
         (u : option User) (id : string) (b : B),
    (forall w tok : string,
       free_of " " w -> free_of " " tok ->
       verdict (authenticateToken L env db now
                  (request (Some (w +:+ String " " tok)) u id b))
       = verdict (authenticateToken L env db now
                    (request (Some ("Bearer" +:+ String " " tok)) u id b))) /\
    (forall h : string,
       free_of " " h ->
       authenticateToken L env db now (request (Some h) u id b)
       = Sent {| status := 401; json := error_body "Access token required" |}).
Proof.
  intros L env B db now u id b. split.
  - intros w tok Hw Htok. unfold authenticateToken.
    rewrite !bearer_token_second_word by (done || by repeat split).
    destruct (negb (truthy (Some tok))); [done|].
    destruct (jwt_verify L tok (JWT_SECRET env) now) as [c|]; [|done].
    destruct (single _) as [x|]; [|done].
    by destruct (negb (Users.is_active x)).
  - intros h Hh. unfold authenticateToken, bearer_token, request.
    cbn [authorization]. destruct (truthy (Some h)) eqn:E.
    + by rewrite split_free.
    + by rewrite E.
Qed.

Lemma authorization_scheme_witness :
  let active_db := with_users (map (Users.set_active true)) sample_db in
  verdict (authenticateToken sample_lib None active_db 1700000500000
             (request (Some "Basic u-old.your-super-secret-jwt-token/u-old")
                None "" tt))
  = verdict (authenticateToken sample_lib None active_db 1700000500000
               (request (Some "Bearer u-old.your-super-secret-jwt-token/u-old")
                  None "" tt)) /\
  authenticateToken sample_lib None active_db 1700000500000
    (request (Some "Bearer") None "" tt)
  = Sent {| status := 401; json := error_body "Access token required" |}.
Proof.
  intros active_db.
  destruct (authorization_scheme_is_not_checked sample_lib None unit active_db
              1700000500000 None "" tt) as [Hword Hnone].
  split.
  - apply (Hword "Basic" "u-old.your-super-secret-jwt-token/u-old");
      cbn; repeat split; discriminate.
  - apply (Hnone "Bearer"). cbn. repeat split; discriminate.
Defined.

(** ** Managing accounts *)

Lemma with_users_id (f : list Users.row -> list Users.row) (db : Db) :
  f (users db) = users db -> with_users f db = db.
Proof. destruct db. unfold with_users. cbn. by intros ->. Qed.

Lemma with_users_compose (f g : list Users.row -> list Users.row) (db : Db) :
  with_users f (with_users g db) = with_users (fun t => f (g t)) db.
Proof. reflexivity. Qed.

Lemma set_active_same (b : bool) (u : User) :
  Users.is_active u = b -> Users.set_active b u = u.
Proof. destruct u. cbn. by intros ->. Qed.

Lemma update_where_twice {A} (col : A -> string) (v : string) (f g : A -> A)
    (rows : list A) :
  (forall r, col (g r) = col r) ->
  update_where col v f (update_where col v g rows)
  = update_where col v (fun r => f (g r)) rows.
Proof.
  intros Hcol. unfold update_where. rewrite map_map. apply map_ext. intros r.
  destruct (decide (col r = v)) as [Hr|Hr].
  - rewrite decide_True; [done|]. by rewrite Hcol.
  - by rewrite decide_False.
Qed.

Lemma update_where_same {A} (col : A -> string) (v : string) (f : A -> A)
    (rows : list A) :
  Forall (fun r => col r = v -> f r = r) rows -> update_where col v f rows = rows.
Proof.
  unfold update_where. induction 1 as [|r rows Hr _ IH]; [done|].
  cbn. rewrite IH. by destruct (decide (col r = v)) as [E|E]; [rewrite Hr|].
Qed.


Lemma activateUser_store {B} (req : AuthRequest B) (db : Db) :
  (catch_any (activateUser req) db).1
  = with_users (update_where Users.id (params_id req) (Users.set_active true)) db.
Proof.
  unfold catch_any, activateUser, bind, exec, query. cbn. by destruct (single _).
Qed.



(** X7. [activateUser] undoes [deactivateUser]: for an id other than the
    caller's whose rows were active, deactivating and then activating gives
    back the store exactly. *)
Theorem activateUser_undoes_deactivateUser :
  forall (B : Type) (req : AuthRequest B) (db : Db),
    Users.id <$> user req ≠ Some (params_id req) ->
    Forall (fun u => Users.id u = params_id req -> Users.is_active u = true)
      (users db) ->
    (catch_any (activateUser req) (catch_any (deactivateUser req) db).1).1 = db.
Proof.
  intros B req db Hself Hactive.
  rewrite activateUser_store, deactivateUser_store by done.
  rewrite with_users_compose. apply with_users_id.
  rewrite update_where_twice by done.
  apply update_where_same. eapply Forall_impl; [exact Hactive|].
  intros u Hu Hid. cbn. rewrite <- (set_active_same true u) at 2 by auto.
  by destruct u.
Qed.

Lemma activateUser_undoes_deactivateUser_witness :
  let req := request None (Some root_admin) "u-tch" tt in
  status (catch_any (deactivateUser req) sample_db).2 = 200 /\
  Users.is_active <$> single (where_eq Users.id "u-tch"
    (users (catch_any (deactivateUser req) sample_db).1)) = Some false /\
  (catch_any (activateUser req) (catch_any (deactivateUser req) sample_db).1).1
  = sample_db.
Proof.
  intros req. split; [reflexivity|]. split; [reflexivity|].
  apply (activateUser_undoes_deactivateUser unit req sample_db).
  - discriminate.
  - repeat (apply Forall_cons_2; [first [discriminate | reflexivity]|]).
    apply Forall_nil_2.
Defined.

Lemma createUser_ends (R : Runtime) (S : Store) (req : AuthRequest CreateUserBody.t)
    (db : Db) :
  (exists code msg, code ≠ 201 /\
     catch_any (createUser R S req) db
     = (db, {| status := code; json := fail_body msg |})) \/
  (exists (r : Role) (data : User) (res : gmap string Json),
     role_of_string (str (CreateUserBody.role (body req))) = Some r /\
     Users.role data = r /\ Users.id data = gen_id S db /\
     Users.email data = toLowerCase R (str (CreateUserBody.email (body req))) /\
     Users.is_active data = true /\
     catch_any (createUser R S req) db
     = (with_users (fun t => t ++ [data]) db, {| status := 201; json := res |})).
Proof.
  remember (catch_any (createUser R S req) db) as out eqn:E.
  revert E. unfold catch_any, createUser.
  match goal with |- context [if ?c then throw _ 400 else _] => destruct c end;
    [intros ->; left; do 2 eexists; (split; [|reflexivity]); done|].
  destruct (role_of_string _) as [r|] eqn:Hr;
    [|intros ->; left; do 2 eexists; (split; [|reflexivity]); done].
  unfold bind at 1. unfold query at 1.
  destruct (bool_decide (is_Some _));
    [intros ->; left; do 2 eexists; (split; [|reflexivity]); done|].
  unfold bind at 1. unfold query at 1.
  unfold bind at 1. unfold query at 1.
  destruct (users_reject S db _) as [e|];
    [intros ->; left; do 2 eexists; (split; [|reflexivity]); done|].
  intros ->. right. eexists r, _, _.
  do 5 (split; [shelve|]). reflexivity.
  Unshelve. all: first [exact Hr | reflexivity].
Qed.

(** X8. [createUser] writes the users table only: the role-profile tables
    are never touched, and a call that does not answer 201 changes nothing.
    So a teacher, student or parent created through it (under an id no
    profile row refers to yet) is an identity without its profile row,
    unlike one created through [register]. *)
Theorem createUser_writes_no_profile :
  forall (R : Runtime) (S : Store) (req : AuthRequest CreateUserBody.t) (db : Db),
    let out := catch_any (createUser R S req) db in
    teachers out.1 = teachers db /\ students out.1 = students db /\
    parents out.1 = parents db /\
    (status out.2 ≠ 201 -> out.1 = db) /\
    (status out.2 = 201 ->
     forall r, role_of_string (str (CreateUserBody.role (body req))) = Some r ->
       r ∈ [teacher; student; parent] ->
       Forall (fun t => Teachers.user_id t ≠ gen_id S db) (teachers db) ->
       Forall (fun s => Students.user_id s ≠ gen_id S db) (students db) ->
       Forall (fun p => Parents.user_id p ≠ gen_id S db) (parents db) ->
       ¬ profiles_complete out.1).
Proof.
  intros R S req db out. subst out.
  destruct (createUser_ends R S req db)
    as [(code & msg & Hcode & ->)
       |(r & data & res & Hr & Hrole & Hid & _ & _ & ->)]; cbn [fst snd status].
  - repeat split; done.
  - repeat split; try done.
    intros _ r' Hr' Hin Ht Hs Hp Hall. rewrite Hr in Hr'. injection Hr' as <-.
    unfold profiles_complete in Hall. cbn [users with_users] in Hall.
    apply Forall_app in Hall as [_ Hnew]. rewrite Forall_singleton in Hnew.
    unfold has_profile in Hnew. rewrite Hrole, Hid in Hnew.
    cbn [teachers students parents with_users] in Hnew.
    destruct r; rewrite ?Exists_exists in Hnew;
      try (destruct Hnew as (x & Hx & E);
           first [ rewrite Forall_forall in Ht; by apply (Ht x)
                 | rewrite Forall_forall in Hs; by apply (Hs x)
                 | rewrite Forall_forall in Hp; by apply (Hp x) ]).
    all: apply (bool_decide_pack _) in Hin; exact Hin.
Qed.

Lemma createUser_writes_no_profile_witness :
  let out := catch_any (createUser sample_runtime lenient_store
                          (request None (Some root_admin) "" new_teacher_body))
               sample_db in
  status out.2 = 201 /\ teachers out.1 = teachers sample_db /\
  ¬ profiles_complete out.1.
Proof.
  intros out.
  destruct (createUser_writes_no_profile sample_runtime lenient_store
              (request None (Some root_admin) "" new_teacher_body) sample_db)
    as (Ht & _ & _ & _ & Hbroken).
  split; [reflexivity|]. split; [exact Ht|].
  apply (Hbroken eq_refl teacher eq_refl).
  - apply (bool_decide_unpack _). exact I.
  - repeat (apply Forall_cons_2; [discriminate|]). apply Forall_nil_2.
  - apply Forall_nil_2.
  - repeat (apply Forall_cons_2; [discriminate|]). apply Forall_nil_2.
Defined.

(** ** Assigning teachers *)

Lemma with_class_subjects_id (f : list ClassSubjects.row -> list ClassSubjects.row)
    (db : Db) :
  f (class_subjects db) = class_subjects db -> with_class_subjects f db = db.
Proof. destruct db. unfold with_class_subjects. cbn. by intros ->. Qed.

Lemma delete_where_fresh {A} (col : A -> string) (v : string) (rows : list A) (r : A) :
  Forall (fun x => col x ≠ v) rows -> col r = v ->
  delete_where col v (rows ++ [r]) = rows.
Proof.
  intros Hfresh Hr. unfold delete_where. rewrite filter_app.
  rewrite (filter_cons_False _ r) by (intros H; by apply H).
  rewrite filter_nil, app_nil_r.
  induction Hfresh as [|x rows Hx _ IH]; [done|].
  rewrite filter_cons_True by done. by rewrite IH.
Qed.

Lemma assignTeacher_ends (S : Store) (req : AuthRequest AssignTeacherBody.t) (db : Db) :
  (exists code msg,
     (code = 400 \/ code = 404 \/ code = 409 \/ code = 500) /\
     catch_any (assignTeacherToSubject S req) db
     = (db, {| status := code; json := fail_body msg |})) \/
  (exists (t s c : string) (res : gmap string Json),
     AssignTeacherBody.teacher_id (body req) = Some t /\ t ≠ "" /\
     AssignTeacherBody.subject_id (body req) = Some s /\ s ≠ "" /\
     AssignTeacherBody.class_id (body req) = Some c /\ c ≠ "" /\
     is_Some (single (filter (fun u => Users.id u = t ∧ Users.role u = teacher)
                        (users db))) /\
     is_Some (single (where_eq Subjects.id s (subjects db))) /\
     is_Some (single (where_eq Classes.id c (classes db))) /\
     catch_any (assignTeacherToSubject S req) db
     = (with_class_subjects
          (fun rows => rows ++ [ {| ClassSubjects.id := gen_id S db;
                                    ClassSubjects.class_id := c;
                                    ClassSubjects.subject_id := s;
                                    ClassSubjects.teacher_id := t |} ]) db,
        {| status := 201; json := res |})).
Proof.
  remember (catch_any (assignTeacherToSubject S req) db) as out eqn:E.
  revert E. unfold catch_any, assignTeacherToSubject.
  destruct (truthy (AssignTeacherBody.teacher_id (body req))) eqn:Ht; cbn [negb orb];
    [|intros ->; left; do 2 eexists; (split; [|reflexivity]); auto].
  destruct (truthy (AssignTeacherBody.subject_id (body req))) eqn:Hs; cbn [negb orb];
    [|intros ->; left; do 2 eexists; (split; [|reflexivity]); auto].
  destruct (truthy (AssignTeacherBody.class_id (body req))) eqn:Hc; cbn [negb orb];
    [|intros ->; left; do 2 eexists; (split; [|reflexivity]); auto].
  apply truthy_true_inv in Ht as (t & Ht & Hte).
  apply truthy_true_inv in Hs as (s & Hs & Hse).
  apply truthy_true_inv in Hc as (c & Hc & Hce).
  rewrite Ht, Hs, Hc. change (str (Some t)) with t.
  change (str (Some s)) with s. change (str (Some c)) with c.
  unfold bind at 1. unfold query at 1.
  destruct (single (filter _ (users db))) as [tch|] eqn:Etch;
    [rewrite decide_is_Some|rewrite decide_is_None]; cbn [negb];
    [|intros ->; left; do 2 eexists; (split; [|reflexivity]); auto].
  unfold bind at 1. unfold query at 1.
  destruct (single (where_eq Subjects.id s (subjects db))) as [sub|] eqn:Esub;
    [rewrite decide_is_Some|rewrite decide_is_None]; cbn [negb];
    [|intros ->; left; do 2 eexists; (split; [|reflexivity]); auto].
  unfold bind at 1. unfold query at 1.
  destruct (single (where_eq Classes.id c (classes db))) as [cls|] eqn:Ecls;
    [rewrite decide_is_Some|rewrite decide_is_None]; cbn [negb];
    [|intros ->; left; do 2 eexists; (split; [|reflexivity]); auto].
  unfold bind at 1. unfold query at 1.
  destruct (bool_decide (is_Some (maybeSingle _)));
    [intros ->; left; do 2 eexists; (split; [|reflexivity]); auto|].
  unfold bind at 1. unfold query at 1.
  unfold bind at 1. unfold query at 1.
  destruct (class_subjects_reject S db _) as [e|];
    [intros ->; left; do 2 eexists; (split; [|reflexivity]); auto|].
  intros ->. right. exists t, s, c. eexists.
  do 9 (split; [done|]). reflexivity.
Qed.

(** X9. [assignTeacherToSubject] writes all or nothing: an answer of 400,
    404, 409 or 500 leaves the store as it was, and otherwise the answer is
    201 and the store gained exactly one [class_subjects] row, carrying the
    request's class, subject and teacher under the id the store drew, after
    all three had resolved. No other table changes. *)
Theorem assignTeacher_writes_one_row_or_nothing :
  forall (S : Store) (req : AuthRequest AssignTeacherBody.t) (db : Db),
    let out := catch_any (assignTeacherToSubject S req) db in
    (status out.2 ≠ 201 /\ out.1 = db /\
     (status out.2 = 400 \/ status out.2 = 404 \/ status out.2 = 409 \/
      status out.2 = 500)) \/
    (status out.2 = 201 /\
     exists row,
       out.1 = with_class_subjects (fun rows => rows ++ [row]) db /\
       ClassSubjects.id row = gen_id S db /\
       Some (ClassSubjects.class_id row) = AssignTeacherBody.class_id (body req) /\
       Some (ClassSubjects.subject_id row) = AssignTeacherBody.subject_id (body req) /\
       Some (ClassSubjects.teacher_id row) = AssignTeacherBody.teacher_id (body req) /\
       is_Some (single (where_eq Classes.id (ClassSubjects.class_id row) (classes db))) /\
       is_Some (single (where_eq Subjects.id (ClassSubjects.subject_id row)
                          (subjects db)))).
Proof.
  intros S req db out. subst out.
  destruct (assignTeacher_ends S req db)
    as [(code & msg & Hcode & ->)
       |(t & s & c & res & Ht & _ & Hs & _ & Hc & _ & _ & Hsub & Hcls & ->)];
    cbn [fst snd status].
  - left. split; [|by split]. destruct Hcode as [-> | [-> | [-> | ->]]]; done.
  - right. split; [done|]. eexists. split; [reflexivity|]. by cbn.
Qed.

(** X10. Assigning the same teacher to the same subject and class twice:
    when no row carries the triple yet and the first call answers 201, the
    second call answers 409 and writes nothing. *)
Theorem assignTeacher_twice_conflicts :
  forall (S : Store) (req : AuthRequest AssignTeacherBody.t) (db : Db) (t s c : string),
    AssignTeacherBody.teacher_id (body req) = Some t ->
    AssignTeacherBody.subject_id (body req) = Some s ->
    AssignTeacherBody.class_id (body req) = Some c ->
    Forall (fun r => ¬ same_triple c s t r) (class_subjects db) ->
    let first := catch_any (assignTeacherToSubject S req) db in
    status first.2 = 201 ->
    catch_any (assignTeacherToSubject S req) first.1
    = (first.1,
       {| status := 409;
          json := fail_body
            "This teacher is already assigned to teach this subject in this class" |}).
Proof.
  intros S req db t s c Ht Hs Hc Hnone first Hok. subst first.
  destruct (assignTeacher_ends S req db)
    as [(code & msg & Hcode & Hout)
       |(t' & s' & c' & res & Ht' & Hte & Hs' & Hse & Hc' & Hce
         & [tch Htch] & [sub Hsub] & [cls Hcls] & Hout)];
    rewrite Hout in Hok |- *; cbn [fst snd status] in Hok |- *.
  { destruct Hcode as [-> | [-> | [-> | ->]]]; done. }
  rewrite Ht in Ht'. rewrite Hs in Hs'. rewrite Hc in Hc'.
  injection Ht' as <-. injection Hs' as <-. injection Hc' as <-.
  unfold catch_any, assignTeacherToSubject.
  rewrite Ht, Hs, Hc, !truthy_Some by done. cbn [negb orb].
  change (str (Some t)) with t. change (str (Some s)) with s.
  change (str (Some c)) with c.
  unfold bind at 1. unfold query at 1. cbn [users with_class_subjects].
  rewrite Htch, decide_is_Some. cbn [negb].
  unfold bind at 1. unfold query at 1. cbn [subjects with_class_subjects].
  rewrite Hsub, decide_is_Some. cbn [negb].
  unfold bind at 1. unfold query at 1. cbn [classes with_class_subjects].
  rewrite Hcls, decide_is_Some. cbn [negb].
  unfold bind at 1. unfold query at 1. cbn [class_subjects with_class_subjects].
  rewrite filter_app.
  assert (Hold : filter (fun r => ClassSubjects.class_id r = c ∧
                                  ClassSubjects.subject_id r = s ∧
                                  ClassSubjects.teacher_id r = t)
                   (class_subjects db) = []).
  { clear -Hnone. induction Hnone as [|r rows Hr _ IH]; [done|].
    by rewrite filter_cons_False. }
  rewrite Hold, filter_cons_True by done. cbn [app filter maybeSingle].
  rewrite filter_nil. cbn [maybeSingle]. by rewrite decide_is_Some.
Qed.

Lemma assignTeacher_twice_witness :
  let req := request None (Some root_admin) "" physics_assignment in
  let first := catch_any (assignTeacherToSubject lenient_store req) sample_db in
  status first.2 = 201 /\
  status (catch_any (assignTeacherToSubject lenient_store req) first.1).2 = 409 /\
  (catch_any (assignTeacherToSubject lenient_store req) first.1).1 = first.1.
Proof.
  intros req first.
  pose proof (assignTeacher_twice_conflicts lenient_store req sample_db
                "u-tch" "s-phy" "c-1a" eq_refl eq_refl eq_refl
                (Forall_nil_2 _) eq_refl) as H.
  split; [reflexivity|]. fold first in H. by rewrite H.
Defined.

Lemma where_eq_app {A} (col : A -> string) (v : string) (l1 l2 : list A) :
  where_eq col v (l1 ++ l2) = where_eq col v l1 ++ where_eq col v l2.
Proof. unfold where_eq. apply filter_app. Qed.


(** X11. [removeTeacherAssignment] undoes a successful
    [assignTeacherToSubject]: when the id the store drew is not the id of an
    older row, removing the assignment by that id gives back the store
    exactly, with answer 200. *)
Theorem removeTeacherAssignment_undoes_assignment :
  forall (S : Store) (B : Type) (req : AuthRequest AssignTeacherBody.t)
         (rm : AuthRequest B) (db : Db),
    Forall (fun r => ClassSubjects.id r ≠ gen_id S db) (class_subjects db) ->
    params_id rm = gen_id S db ->
    let assigned := catch_any (assignTeacherToSubject S req) db in
    status assigned.2 = 201 ->
    catch_any (removeTeacherAssignment rm) assigned.1
    = (db, {| status := 200;
              json := ok_body "Teacher assignment removed successfully" |}).
Proof.
  intros S B req rm db Hfresh Hid assigned Hok. subst assigned.
  destruct (assignTeacher_ends S req db)
    as [(code & msg & Hcode & Hout)
       |(t & s & c & res & _ & _ & _ & _ & _ & _ & _ & _ & _ & Hout)];
    rewrite Hout in Hok |- *; cbn [fst snd status] in Hok |- *.
  { destruct Hcode as [-> | [-> | [-> | ->]]]; done. }
  change (catch_any (removeTeacherAssignment rm) ?d)
    with (with_class_subjects (delete_where ClassSubjects.id (params_id rm)) d,
          {| status := 200;
             json := ok_body "Teacher assignment removed successfully" |}).
  f_equal. rewrite Hid.
  change (with_class_subjects ?f (with_class_subjects ?g db))
    with (with_class_subjects (fun rows => f (g rows)) db).
  apply with_class_subjects_id. by apply delete_where_fresh.
Qed.

Lemma removeTeacherAssignment_witness :
  let req := request None (Some root_admin) "" physics_assignment in
  let rm := request None (Some root_admin) "new-id" tt in
  let assigned := catch_any (assignTeacherToSubject lenient_store req) sample_db in
  length (class_subjects assigned.1) = 1%nat /\
  catch_any (removeTeacherAssignment rm) assigned.1
  = (sample_db, {| status := 200;
                   json := ok_body "Teacher assignment removed successfully" |}).
Proof.
  intros req rm assigned. split; [reflexivity|].
  apply (removeTeacherAssignment_undoes_assignment lenient_store unit req rm
           sample_db (Forall_nil_2 _) eq_refl eq_refl).
Defined.



(** ** Linking parents and students *)

Lemma student_parents_verdict_None (S : Store) (db : Db)
    (rows : list StudentParents.row) :
  student_parents_verdict S db rows = None ->
  NoDup rows /\ Forall (fun r => r ∉ student_parents db) rows.
Proof.
  unfold student_parents_verdict.
  destruct (bool_decide (NoDup rows)) eqn:Hnd; cbn [andb]; [|done].
  destruct (forallb _ rows) eqn:Hall; [|done]. intros _.
  apply bool_decide_eq_true in Hnd. split; [done|].
  rewrite forallb_forall in Hall. apply Forall_forall. intros r Hr.
  apply list_elem_of_In, Hall in Hr. by apply bool_decide_eq_true in Hr.
Qed.

Lemma linkParent_ends (S : Store) (req : AuthRequest LinkBody.t) (db : Db) :
  (exists code msg,
     (code = 400 \/ code = 404 \/ code = 409 \/ code = 500) /\
     catch_any (linkParentToStudents S req) db
     = (db, {| status := code; json := fail_body msg |})) \/
  (exists (p : string) (ids : list string) (res : gmap string Json),
     LinkBody.parent_id (body req) = Some p /\ p ≠ "" /\
     LinkBody.student_ids (body req) = Some ids /\ ids ≠ [] /\
     is_Some (single (where_eq Parents.id p (parents db))) /\
     NoDup (links p ids) /\
     Forall (fun r => r ∉ student_parents db) (links p ids) /\
     catch_any (linkParentToStudents S req) db
     = (with_student_parents (fun rows => rows ++ links p ids) db,
        {| status := 201; json := res |})).
Proof.
  remember (catch_any (linkParentToStudents S req) db) as out eqn:E.
  revert E. unfold catch_any, linkParentToStudents.
  destruct (LinkBody.student_ids (body req)) as [ids|] eqn:Hids;
    [|intros ->; left; do 2 eexists; (split; [|reflexivity]); auto].
  destruct (truthy (LinkBody.parent_id (body req))) eqn:Hp; cbn [negb orb];
    [|intros ->; left; do 2 eexists; (split; [|reflexivity]); auto].
  apply truthy_true_inv in Hp as (p & Hp & Hpe). rewrite Hp.
  change (str (Some p)) with p.
  case_bool_decide as Hlen;
    [intros ->; left; do 2 eexists; (split; [|reflexivity]); auto|].
  unfold bind at 1. unfold query at 1.
  destruct (single (where_eq Parents.id p (parents db))) as [par|] eqn:Hpar;
    [rewrite decide_is_Some|rewrite decide_is_None]; cbn [negb];
    [|intros ->; left; do 2 eexists; (split; [|reflexivity]); auto].
  unfold bind at 1. unfold query at 1. fold (links p ids).
  destruct (student_parents_verdict S db (links p ids)) as [code|] eqn:Hverdict.
  - destruct (String.eqb code "23505");
      intros ->; left; do 2 eexists; (split; [|reflexivity]); auto.
  - apply student_parents_verdict_None in Hverdict as [Hnd Hnew].
    intros ->. right. exists p, ids. eexists.
    do 7 (split; [done || (by destruct ids) || eauto|]). reflexivity.
Qed.

(** X13. [linkParentToStudents] writes all or nothing: an answer of 400,
    404, 409 or 500 leaves the store as it was, whatever part of the batch
    was fine; a 201 appends one [student_parents] row per student id of the
    request, in order, and then the parent resolved, no id was repeated in
    the request and none of the pairs was linked before. *)
Theorem linkParent_writes_whole_batch_or_nothing :
  forall (S : Store) (req : AuthRequest LinkBody.t) (db : Db),
    let out := catch_any (linkParentToStudents S req) db in
    (status out.2 ≠ 201 /\ out.1 = db /\
     (status out.2 = 400 \/ status out.2 = 404 \/ status out.2 = 409 \/
      status out.2 = 500)) \/
    (status out.2 = 201 /\
     exists p ids,
       LinkBody.parent_id (body req) = Some p /\
       LinkBody.student_ids (body req) = Some ids /\
       out.1 = with_student_parents (fun rows => rows ++ links p ids) db /\
       is_Some (single (where_eq Parents.id p (parents db))) /\
       NoDup ids /\
       Forall (fun r => r ∉ student_parents db) (links p ids)).
Proof.
  intros S req db out. subst out.
  destruct (linkParent_ends S req db)
    as [(code & msg & Hcode & ->)
       |(p & ids & res & Hp & _ & Hids & _ & Hpar & Hnd & Hnew & ->)];
    cbn [fst snd status].
  - left. split; [|by split]. destruct Hcode as [-> | [-> | [-> | ->]]]; done.
  - right. split; [done|]. exists p, ids. repeat split; try done.
    unfold links in Hnd. by apply NoDup_fmap_1 in Hnd.
Qed.

Lemma filter_not_linked_fresh (p s : string) (rows : list StudentParents.row) :
  {| StudentParents.parent_id := p; StudentParents.student_id := s |} ∉ rows ->
  filter (fun r => ¬ (StudentParents.parent_id r = p ∧
                      StudentParents.student_id r = s)) rows = rows.
Proof.
  induction rows as [|r rows IH]; [done|].
  intros Hnot. apply not_elem_of_cons in Hnot as [Hr Hrows].
  rewrite filter_cons_True.
  - by rewrite IH.
  - intros [Hp Hs]. apply Hr. destruct r. cbn in *. by subst.
Qed.

(** X14. [unlinkParentFromStudent] undoes a successful link of one student:
    after [linkParentToStudents] answered 201 for a parent and a single
    student id, unlinking that pair gives back the store exactly. *)
Theorem unlink_undoes_link_of_one_student :
  forall (S : Store) (req : AuthRequest LinkBody.t)
         (un : AuthRequest UnlinkBody.t) (db : Db) (p s : string),
    LinkBody.parent_id (body req) = Some p ->
    LinkBody.student_ids (body req) = Some [s] ->
    UnlinkBody.parent_id (body un) = Some p ->
    UnlinkBody.student_id (body un) = Some s ->
    s ≠ "" ->
    let linked_db := catch_any (linkParentToStudents S req) db in
    status linked_db.2 = 201 ->
    catch_any (unlinkParentFromStudent un) linked_db.1
    = (db, {| status := 200;
              json := ok_body "Parent unlinked from student successfully" |}).
Proof.
  intros S req un db p s Hp Hids Hup Hus Hse linked_db Hok. subst linked_db.
  destruct (linkParent_ends S req db)
    as [(code & msg & Hcode & Hout)
       |(p' & ids & res & Hp' & Hpe & Hids' & _ & _ & _ & Hnew & Hout)];
    rewrite Hout in Hok |- *; cbn [fst snd status] in Hok |- *.
  { destruct Hcode as [-> | [-> | [-> | ->]]]; done. }
  rewrite Hp in Hp'. rewrite Hids in Hids'.
  injection Hp' as <-. injection Hids' as <-.
  unfold catch_any, unlinkParentFromStudent.
  rewrite Hup, Hus, !truthy_Some by done. cbn [negb orb].
  change (str (Some p)) with p. change (str (Some s)) with s.
  unfold bind, exec, ret. f_equal.
  change (with_student_parents ?f (with_student_parents ?g db))
    with (with_student_parents (fun rows => f (g rows)) db).
  apply with_student_parents_id. cbn [links map].
  rewrite filter_app, filter_cons_False by (intros H; by apply H).
  rewrite filter_nil, app_nil_r. apply filter_not_linked_fresh.
  cbn [links map] in Hnew. by rewrite Forall_singleton in Hnew.
Qed.

Lemma unlink_undoes_link_witness :
  let req := request None (Some root_admin) ""
               {| LinkBody.parent_id := Some "p-1";
                  LinkBody.student_ids := Some ["st-2"] |} in
  let un := request None (Some root_admin) ""
              {| UnlinkBody.parent_id := Some "p-1";
                 UnlinkBody.student_id := Some "st-2" |} in
  let linked_db := catch_any (linkParentToStudents lenient_store req) sample_db in
  length (student_parents linked_db.1) = 2%nat /\
  (catch_any (unlinkParentFromStudent un) linked_db.1).1 = sample_db.
Proof.
  intros req un linked_db. split; [reflexivity|]. unfold linked_db.
  by rewrite (unlink_undoes_link_of_one_student lenient_store req un sample_db
                "p-1" "st-2" eq_refl eq_refl eq_refl eq_refl
                ltac:(discriminate) eq_refl).
Defined.

(** ** What a parent sees *)

Lemma getMyChildren_count {B} (req : AuthRequest B) (db : Db) (par : Parents.row) :
  my_parent_profile req db = Some par ->
  json (catch_any (getMyChildren req) db).2 !! "count"
  = Some (JNum (Z.of_nat (length
      (where_eq StudentParents.parent_id (Parents.id par) (student_parents db))))).
Proof.
  intros Hpar. unfold catch_any, getMyChildren, bind, query, ret. rewrite Hpar.
  cbn [snd json]. rewrite lookup_insert_ne by done. by rewrite lookup_insert_eq.
Qed.

Lemma where_eq_links (p : string) (ids : list string) :
  where_eq StudentParents.parent_id p (links p ids) = links p ids.
Proof.
  unfold where_eq. induction ids as [|s ids IH]; [done|].
  cbn [links map]. rewrite filter_cons_True by done. by rewrite <- IH at 2.
Qed.

(** X15. [getMyChildren] follows the links: a caller without a parent
    profile is answered 404; for a caller with one, after a successful
    [linkParentToStudents] for that profile the [count] of children is the
    old count plus the number of student ids linked. *)
Theorem getMyChildren_counts_new_links :
  forall (S : Store) (B : Type) (link : AuthRequest LinkBody.t)
         (me : AuthRequest B) (db : Db),
    (my_parent_profile me db = None ->
       catch_any (getMyChildren me) db
       = (db, {| status := 404; json := fail_body "Parent profile not found" |})) /\
    (forall (par : Parents.row) (ids : list string),
       my_parent_profile me db = Some par ->
       LinkBody.parent_id (body link) = Some (Parents.id par) ->
       LinkBody.student_ids (body link) = Some ids ->
       let linked_db := catch_any (linkParentToStudents S link) db in
       status linked_db.2 = 201 ->
       exists n : nat,
         json (catch_any (getMyChildren me) db).2 !! "count"
         = Some (JNum (Z.of_nat n)) /\
         json (catch_any (getMyChildren me) linked_db.1).2 !! "count"
         = Some (JNum (Z.of_nat (n + length ids)))).
Proof.
  intros S B link me db. split.
  - intros Hnone. unfold catch_any, getMyChildren, bind, query, throw.
    by rewrite Hnone.
  - intros par ids Hpar Hp Hids linked_db Hok. subst linked_db.
    destruct (linkParent_ends S link db)
      as [(code & msg & Hcode & Hout)
         |(p' & ids' & res & Hp' & _ & Hids' & _ & _ & _ & _ & Hout)];
      rewrite Hout in Hok |- *; cbn [fst snd status] in Hok |- *.
    { destruct Hcode as [-> | [-> | [-> | ->]]]; done. }
    rewrite Hp in Hp'. rewrite Hids in Hids'.
    injection Hp' as <-. injection Hids' as <-.
    eexists. split; [by apply getMyChildren_count|].
    rewrite (getMyChildren_count me _ par) by done.
    cbn [student_parents with_student_parents].
    rewrite where_eq_app, where_eq_links, length_app.
    unfold links. by rewrite length_map.
Qed.

Lemma getMyChildren_witness :
  let link := request None (Some root_admin) ""
                {| LinkBody.parent_id := Some "p-1";
                   LinkBody.student_ids := Some ["st-2"; "st-3"] |} in
  let me := request None (Some parent_user) "" tt in
  let linked_db := catch_any (linkParentToStudents lenient_store link) sample_db in
  json (catch_any (getMyChildren me) sample_db).2 !! "count" = Some (JNum 1) /\
  json (catch_any (getMyChildren me) linked_db.1).2 !! "count" = Some (JNum 3) /\
  status (catch_any (getMyChildren (request None (Some root_admin) "" tt))
            sample_db).2 = 404.
Proof.
  intros link me linked_db.
  destruct (getMyChildren_counts_new_links lenient_store unit link me sample_db)
    as [_ Hcount].
  destruct (Hcount {| Parents.id := "p-1"; Parents.user_id := "u-par";
                      Parents.relationship := None; Parents.occupation := None |}
              ["st-2"; "st-3"] eq_refl eq_refl eq_refl eq_refl)
    as (n & Hbefore & Hafter).
  split; [reflexivity|]. split; [|reflexivity].
  fold linked_db in Hafter. rewrite Hafter.
  rewrite (getMyChildren_count me sample_db
             {| Parents.id := "p-1"; Parents.user_id := "u-par";
                Parents.relationship := None; Parents.occupation := None |} eq_refl)
    in Hbefore.
  injection Hbefore as Hn. apply Nat2Z.inj in Hn. subst n. reflexivity.
Defined.

Section ChildPerformanceProperties.
Variable Grade : Type.
Variable grade_student_id : Grade -> string.
Variable grade_json : Db -> Grade -> Json.
Variable order_by_created_at_desc : list Grade -> list Grade.

Lemma filter_linked_none (p s : string) (rows : list StudentParents.row) :
  filter (fun r => StudentParents.parent_id r = p ∧ StudentParents.student_id r = s)
    (filter (fun r => ¬ (StudentParents.parent_id r = p ∧
                         StudentParents.student_id r = s)) rows) = [].
Proof.
  induction rows as [|r rows IH]; [done|].
  destruct (decide (StudentParents.parent_id r = p ∧ StudentParents.student_id r = s)).
  - by rewrite (filter_cons_False (fun r => ¬ _)) by (intros H; by apply H).
  - rewrite (filter_cons_True (fun r => ¬ _)) by done.
    by rewrite filter_cons_False.
Qed.

(** X16. Unlinking takes a parent's access away at once: after
    [unlinkParentFromStudent] for a parent profile and a student, that
    parent's [getChildPerformance] for the student is answered 403, the same
    answer whatever the grades table holds. A caller without a parent
    profile is answered 404. *)
Theorem unlink_revokes_access_to_grades :
  forall (B : Type) (me : AuthRequest B) (un : AuthRequest UnlinkBody.t)
         (db : Db) (grades : list Grade),
    (my_parent_profile me db = None ->
       catch_any (getChildPerformance Grade grade_student_id grade_json
                    order_by_created_at_desc grades me) db
       = (db, {| status := 404; json := fail_body "Parent profile not found" |})) /\
    (forall par : Parents.row,
       my_parent_profile me db = Some par ->
       UnlinkBody.parent_id (body un) = Some (Parents.id par) ->
       Parents.id par ≠ "" ->
       UnlinkBody.student_id (body un) = Some (params_id me) ->
       params_id me ≠ "" ->
       let db' := (catch_any (unlinkParentFromStudent un) db).1 in
       catch_any (getChildPerformance Grade grade_student_id grade_json
                    order_by_created_at_desc grades me) db'
       = (db', {| status := 403; json := fail_body "Access denied" |})).
Proof.
  intros B me un db grades. split.
  - intros Hnone. unfold catch_any, getChildPerformance, bind, query, throw.
    by rewrite Hnone.
  - intros par Hpar Hp Hpe Hs Hse db'.
    assert (Hdb' : db' = with_student_parents
              (filter (fun r => ¬ (StudentParents.parent_id r = Parents.id par ∧
                                   StudentParents.student_id r = params_id me))) db).
    { subst db'. unfold catch_any, unlinkParentFromStudent.
      by rewrite Hp, Hs, !truthy_Some. }
    rewrite Hdb'.
    unfold catch_any, getChildPerformance, bind, query, throw.
    change (my_parent_profile me (with_student_parents ?f db))
      with (my_parent_profile me db).
    rewrite Hpar. cbn [student_parents with_student_parents].
    by rewrite filter_linked_none.
Qed.

Lemma filter_links_one (p s : string) (ids : list string) :
  NoDup ids -> s ∈ ids ->
  filter (fun r => StudentParents.parent_id r = p ∧ StudentParents.student_id r = s)
    (links p ids)
  = [ {| StudentParents.parent_id := p; StudentParents.student_id := s |} ].
Proof.
  intros Hnd. induction Hnd as [|a ids Ha Hnd IH]; [by intros ?%elem_of_nil|].
  intros Hin. cbn [links map]. fold (links p ids).
  destruct (decide (a = s)) as [->|Hne].
  - rewrite filter_cons_True by done. f_equal.
    clear -Ha. induction ids as [|b ids IH]; [done|].
    apply not_elem_of_cons in Ha as [Hb Hids]. cbn [links map]. fold (links p ids).
    rewrite filter_cons_False by (cbn; intros [_ ?]; congruence). by apply IH.
  - rewrite filter_cons_False by (cbn; intros [_ ?]; congruence).
    apply IH. apply elem_of_cons in Hin as [?|?]; [congruence|done].
Qed.

Lemma filter_linked_fresh (p s : string) (rows : list StudentParents.row) :
  {| StudentParents.parent_id := p; StudentParents.student_id := s |} ∉ rows ->
  filter (fun r => StudentParents.parent_id r = p ∧ StudentParents.student_id r = s)
    rows = [].
Proof.
  induction rows as [|r rows IH]; [done|].
  intros Hnot. apply not_elem_of_cons in Hnot as [Hr Hrows].
  rewrite filter_cons_False; [by apply IH|].
  intros [Hp Hs]. apply Hr. destruct r. cbn in *. by subst.
Qed.

(** X17. Linking gives a parent access to the linked child, and to that
    child's grades only: after [linkParentToStudents] answered 201 for the
    caller's parent profile, [getChildPerformance] for any of the linked
    students is answered 200, and, the store's ordering being a
    rearrangement of the rows, the grades shown are exactly the rows of the
    grades table whose [student_id] is the student asked for. *)
Theorem link_grants_access_to_own_childs_grades :
  forall (S : Store) (B : Type) (link : AuthRequest LinkBody.t)
         (me : AuthRequest B) (db : Db) (grades : list Grade)
         (par : Parents.row) (ids : list string),
    (forall l, order_by_created_at_desc l ≡ₚ l) ->
    my_parent_profile me db = Some par ->
    LinkBody.parent_id (body link) = Some (Parents.id par) ->
    LinkBody.student_ids (body link) = Some ids ->
    params_id me ∈ ids ->
    let linked_db := (catch_any (linkParentToStudents S link) db).1 in
    status (catch_any (linkParentToStudents S link) db).2 = 201 ->
    exists shown,
      shown ≡ₚ where_eq grade_student_id (params_id me) grades /\
      Forall (fun g => grade_student_id g = params_id me) shown /\
      catch_any (getChildPerformance Grade grade_student_id grade_json
                   order_by_created_at_desc grades me) linked_db
      = (linked_db,
         {| status := 200;
            json := <["success" := JBool true]>
                    (<["grades" := JArr (map (grade_json linked_db) shown)]> ∅) |}).
Proof.
  intros S B link me db grades par ids Hperm Hpar Hp Hids Hin linked_db Hok.
  subst linked_db.
  destruct (linkParent_ends S link db)
    as [(code & msg & Hcode & Hout)
       |(p' & ids' & res & Hp' & _ & Hids' & _ & _ & Hnd & Hnew & Hout)];
    rewrite Hout in Hok |- *; cbn [fst snd status] in Hok |- *.
  { destruct Hcode as [-> | [-> | [-> | ->]]]; done. }
  rewrite Hp in Hp'. rewrite Hids in Hids'.
  injection Hp' as <-. injection Hids' as <-.
  unfold links in Hnd. apply NoDup_fmap_1 in Hnd. fold (links (Parents.id par) ids) in *.
  exists (order_by_created_at_desc (where_eq grade_student_id (params_id me) grades)).
  split; [apply Hperm|]. split.
  - apply Forall_forall. intros g Hg. rewrite Hperm in Hg.
    unfold where_eq in Hg. by apply list_elem_of_filter in Hg as [? _].
  - unfold catch_any, getChildPerformance, bind, query, ret.
    change (my_parent_profile me (with_student_parents ?f db))
      with (my_parent_profile me db).
    rewrite Hpar. cbn [student_parents with_student_parents].
    rewrite filter_app, filter_links_one by done.
    rewrite filter_linked_fresh; [reflexivity|].
    rewrite Forall_forall in Hnew. apply Hnew.
    unfold links. apply list_elem_of_fmap. by exists (params_id me).
Qed.

End ChildPerformanceProperties.

Lemma unlink_revokes_access_witness :
  let me := request None (Some parent_user) "st-1" tt in
  let un := request None (Some root_admin) ""
              {| UnlinkBody.parent_id := Some "p-1";
                 UnlinkBody.student_id := Some "st-1" |} in
  let grades := [("st-1", 71); ("st-2", 55); ("st-1", 90)] in
  let read := getChildPerformance (string * Z) fst (fun _ g => JNum g.2)
                (fun l => l) grades me in
  (catch_any read sample_db).2
  = {| status := 200;
       json := <["success" := JBool true]>
               (<["grades" := JArr [JNum 71; JNum 90]]> ∅) |} /\
  (catch_any read (catch_any (unlinkParentFromStudent un) sample_db).1).2
  = {| status := 403; json := fail_body "Access denied" |}.
Proof.
  intros me un grades read. split; [reflexivity|].
  unfold read.
  by rewrite (proj2 (unlink_revokes_access_to_grades (string * Z) fst
                (fun _ g => JNum g.2) (fun l => l) unit me un sample_db grades)
             {| Parents.id := "p-1"; Parents.user_id := "u-par";
                Parents.relationship := None; Parents.occupation := None |}
             eq_refl eq_refl ltac:(discriminate) eq_refl ltac:(discriminate)).
Defined.

Lemma link_grants_access_witness :
  let me := request None (Some parent_user) "st-2" tt in
  let link := request None (Some root_admin) ""
                {| LinkBody.parent_id := Some "p-1";
                   LinkBody.student_ids := Some ["st-2"; "st-3"] |} in
  let grades := [("st-1", 71); ("st-2", 55); ("st-1", 90)] in
  let read := getChildPerformance (string * Z) fst (fun _ g => JNum g.2)
                (fun l => l) grades me in
  status (catch_any read sample_db).2 = 403 /\
  exists shown,
    Forall (fun g : string * Z => g.1 = "st-2") shown /\
    (catch_any read (catch_any (linkParentToStudents lenient_store link) sample_db).1).2
    = {| status := 200;
         json := <["success" := JBool true]>
                 (<["grades" := JArr (map (fun g : string * Z => JNum g.2) shown)]> ∅) |}.
Proof.
  intros me link grades read. split; [reflexivity|].
  destruct (link_grants_access_to_own_childs_grades (string * Z) fst
              (fun _ g => JNum g.2) (fun l => l) lenient_store unit link me
              sample_db grades
              {| Parents.id := "p-1"; Parents.user_id := "u-par";
                 Parents.relationship := None; Parents.occupation := None |}
              ["st-2"; "st-3"] (fun l => reflexivity l) eq_refl eq_refl eq_refl)
    as (shown & _ & Hall & Hres).
  - apply (bool_decide_unpack _). exact I.
  - reflexivity.
  - exists shown. split; [exact Hall|]. unfold read. by rewrite Hres.
Defined.

(** ** Subjects of an academic level *)

Lemma levelSubject_ends (S : Store) (req : AuthRequest LevelSubjectBody.t) (db : Db) :
  (exists code msg,
     (code = 400 \/ code = 409 \/ code = 500) /\
     catch_any (assignSubjectToAcademicLevel S req) db
     = (db, {| status := code; json := fail_body msg |})) \/
  (exists (l s : string) (res : gmap string Json),
     LevelSubjectBody.academic_level_id (body req) = Some l /\ l ≠ "" /\
     LevelSubjectBody.subject_id (body req) = Some s /\ s ≠ "" /\
     catch_any (assignSubjectToAcademicLevel S req) db
     = (with_subject_academic_levels
          (fun rows => rows ++
             [ {| SubjectAcademicLevels.id := gen_id S db;
                  SubjectAcademicLevels.subject_id := s;
                  SubjectAcademicLevels.academic_level_id := l;
                  SubjectAcademicLevels.is_required :=
                    default true (LevelSubjectBody.is_required (body req)) |} ]) db,
        {| status := 201; json := res |})).
Proof.
  remember (catch_any (assignSubjectToAcademicLevel S req) db) as out eqn:E.
  revert E. unfold catch_any, assignSubjectToAcademicLevel.
  destruct (truthy (LevelSubjectBody.academic_level_id (body req))) eqn:Hl;
    cbn [negb orb];
    [|intros ->; left; do 2 eexists; (split; [|reflexivity]); auto].
  destruct (truthy (LevelSubjectBody.subject_id (body req))) eqn:Hs; cbn [negb orb];
    [|intros ->; left; do 2 eexists; (split; [|reflexivity]); auto].
  apply truthy_true_inv in Hl as (l & Hl & Hle).
  apply truthy_true_inv in Hs as (s & Hs & Hse).
  rewrite Hl, Hs. change (str (Some l)) with l. change (str (Some s)) with s.
  unfold bind at 1. unfold query at 1.
  unfold bind at 1. unfold query at 1.
  destruct (subject_academic_levels_verdict db _) as [code|].
  - destruct (String.eqb code "23505");
      intros ->; left; do 2 eexists; (split; [|reflexivity]); auto.
  - intros ->. right. exists l, s.
    destruct (LevelSubjectBody.is_required (body req));
      eexists; (do 4 (split; [done|])); reflexivity.
Qed.

(** X18. Assigning a subject to an academic level twice: whatever the store
    held, when the first [assignSubjectToAcademicLevel] answers 201 the same
    request again answers 409 and writes nothing; and when the id the store
    drew was not in use, [removeSubjectFromAcademicLevel] with that id gives
    back the store as it was before the first call. *)
Theorem levelSubject_twice_conflicts_and_remove_undoes :
  forall (S : Store) (B : Type) (req : AuthRequest LevelSubjectBody.t)
         (rm : AuthRequest B) (db : Db),
    let first := catch_any (assignSubjectToAcademicLevel S req) db in
    status first.2 = 201 ->
    catch_any (assignSubjectToAcademicLevel S req) first.1
    = (first.1, {| status := 409;
                   json := fail_body
                     "Subject already assigned to this academic level" |}) /\
    (Forall (fun r => SubjectAcademicLevels.id r ≠ gen_id S db)
       (subject_academic_levels db) ->
     params_id rm = gen_id S db ->
     catch_any (removeSubjectFromAcademicLevel rm) first.1
     = (db, {| status := 200;
               json := ok_body
                 "Subject removed from academic level successfully" |})).
Proof.
  intros S B req rm db first Hok. subst first.
  destruct (levelSubject_ends S req db)
    as [(code & msg & Hcode & Hout)
       |(l & s & res & Hl & Hle & Hs & Hse & Hout)];
    rewrite Hout in Hok |- *; cbn [fst snd status] in Hok |- *.
  { destruct Hcode as [-> | [-> | ->]]; done. }
  split.
  - unfold catch_any, assignSubjectToAcademicLevel.
    rewrite Hl, Hs, !truthy_Some by done. cbn [negb orb].
    change (str (Some l)) with l. change (str (Some s)) with s.
    unfold bind, query, throw, subject_academic_levels_verdict.
    cbn [subject_academic_levels with_subject_academic_levels
         SubjectAcademicLevels.subject_id SubjectAcademicLevels.academic_level_id].
    rewrite bool_decide_eq_true_2; [reflexivity|].
    apply Exists_app. right. by apply Exists_cons_hd.
  - intros Hfresh Hid.
    change (catch_any (removeSubjectFromAcademicLevel rm) ?d)
      with (with_subject_academic_levels
              (delete_where SubjectAcademicLevels.id (params_id rm)) d,
            {| status := 200;
               json := ok_body
                 "Subject removed from academic level successfully" |}).
    f_equal. rewrite Hid.
    change (with_subject_academic_levels ?f (with_subject_academic_levels ?g db))
      with (with_subject_academic_levels (fun rows => f (g rows)) db).
    assert (Hsame : forall f, f (subject_academic_levels db) = subject_academic_levels db ->
              with_subject_academic_levels f db = db).
    { intros f Hf. destruct db. unfold with_subject_academic_levels. cbn in *.
      by rewrite Hf. }
    apply Hsame. by apply delete_where_fresh.
Qed.

Lemma levelSubject_twice_witness :
  let req := request None (Some root_admin) ""
               {| LevelSubjectBody.academic_level_id := Some "l-f1";
                  LevelSubjectBody.subject_id := Some "s-phy";
                  LevelSubjectBody.is_required := Some false |} in
  let rm := request None (Some root_admin) "new-id" tt in
  let first := catch_any (assignSubjectToAcademicLevel lenient_store req) sample_db in
  SubjectAcademicLevels.is_required <$> last (subject_academic_levels first.1)
  = Some false /\
  status (catch_any (assignSubjectToAcademicLevel lenient_store req) first.1).2 = 409 /\
  (catch_any (removeSubjectFromAcademicLevel rm) first.1).1 = sample_db.
Proof.
  intros req rm first.
  destruct (levelSubject_twice_conflicts_and_remove_undoes lenient_store unit req rm
              sample_db eq_refl) as [Htwice Hundo].
  split; [reflexivity|]. split.
  - unfold first. by rewrite Htwice.
  - unfold first. by rewrite (Hundo (Forall_nil_2 _) eq_refl).
Defined.

(** ** A head of department and the subjects *)

Lemma Forall2_map_r_same {A} (R : A -> A -> Prop) (f : A -> A) (l : list A) :
  (forall x, R x (f x)) -> Forall2 R l (map f l).
Proof. intros HR. induction l as [|x l IH]; cbn; constructor; auto. Qed.

Lemma Forall2_same {A} (R : A -> A -> Prop) (l : list A) :
  (forall x, R x x) -> Forall2 R l l.
Proof. intros HR. induction l; constructor; auto. Qed.

(** X19. [updateSubject] of the HOD controller never moves a subject and
    never reaches into another department: whatever the request and the
    outcome, the subjects table keeps its rows in place with their ids and
    departments, a row whose id is not the one asked for or whose department
    is not the caller's stays as it was, and no other table changes. *)
Theorem updateSubject_stays_in_own_department :
  forall (S : Store) (req : AuthRequest SubjectBody.t) (db : Db),
    let db' := (catch_any (updateSubject S req) db).1 in
    Forall2 (fun old new =>
               Subjects.id new = Subjects.id old /\
               Subjects.department_id new = Subjects.department_id old /\
               (Subjects.id old ≠ params_id req \/
                (forall d, my_department req db = Some d ->
                   Subjects.department_id old ≠ Some (Departments.id d)) ->
                new = old))
      (subjects db) (subjects db') /\
    db' = with_subjects (fun _ => subjects db') db.
Proof.
  intros S req db db'. subst db'.
  assert (Hsame : forall d : Db, d = with_subjects (fun _ => subjects d) d)
    by (by intros []).
  unfold catch_any, updateSubject, bind, query, throw, exec, ret.
  destruct (my_department req db) as [d|] eqn:Hd; cbn [fst].
  2: { split; [|apply Hsame]. apply Forall2_same. auto. }
  destruct (subjects_update_reject S db _) as [e|]; cbn [fst].
  { split; [|apply Hsame]. apply Forall2_same. auto. }
  assert (Hupd : Forall2 (fun old new =>
               Subjects.id new = Subjects.id old /\
               Subjects.department_id new = Subjects.department_id old /\
               (Subjects.id old ≠ params_id req \/
                Subjects.department_id old ≠ Some (Departments.id d) ->
                new = old))
      (subjects db)
      (map (fun s => if decide (Subjects.id s = params_id req ∧
                                Subjects.department_id s = Some (Departments.id d))
                     then apply_updates (body req) s else s) (subjects db))).
  { apply Forall2_map_r_same. intros s.
    destruct (decide _) as [[Hid Hdep]|Hno]; [|done].
    cbn. repeat split. intros [?|?]; done. }
  assert (Hupd' : Forall2 (fun old new =>
               Subjects.id new = Subjects.id old /\
               Subjects.department_id new = Subjects.department_id old /\
               (Subjects.id old ≠ params_id req \/
                (forall d0, Some d = Some d0 ->
                   Subjects.department_id old ≠ Some (Departments.id d0)) ->
                new = old))
      (subjects db)
      (map (fun s => if decide (Subjects.id s = params_id req ∧
                                Subjects.department_id s = Some (Departments.id d))
                     then apply_updates (body req) s else s) (subjects db))).
  { eapply Forall2_impl; [exact Hupd|]. intros old new (Hi & Hdp & Hkeep).
    repeat split; try done. intros [?|Hother]; apply Hkeep; [by left|right].
    by apply Hother. }
  destruct (single _); cbn [fst subjects with_subjects]; (split; [exact Hupd'|]);
    by destruct db.
Qed.

Lemma hod_createSubject_ends (S : Store) (req : AuthRequest SubjectBody.t) (db : Db)
    (d : Departments.row) :
  my_department req db = Some d ->
  (exists code msg, code ≠ 201 /\
     catch_any (createSubject S req) db
     = (db, {| status := code; json := fail_body msg |})) \/
  (exists res,
     catch_any (createSubject S req) db
     = (with_subjects
          (fun rows => rows ++
             [ {| Subjects.id := gen_id S db;
                  Subjects.name := SubjectBody.name (body req);
                  Subjects.code := SubjectBody.code (body req);
                  Subjects.description := SubjectBody.description (body req);
                  Subjects.department_id := Some (Departments.id d) |} ]) db,
        {| status := 201; json := res |})).
Proof.
  intros Hd.
  remember (catch_any (createSubject S req) db) as out eqn:E.
  revert E. unfold catch_any, createSubject, bind, query, throw, exec, ret.
  rewrite Hd.
  destruct (subjects_reject S db _) as [code|].
  - destruct (String.eqb code "23505");
      intros ->; left; do 2 eexists; (split; [|reflexivity]); done.
  - intros ->. right. by eexists.
Qed.

Section HodReadProperties.
Variable order_by_name : list Subjects.row -> list Subjects.row.

Lemma getDepartmentSubjects_shows {B} (me : AuthRequest B) (db : Db)
    (d : Departments.row) :
  my_department me db = Some d ->
  catch_any (getDepartmentSubjects order_by_name me) db
  = (db,
     let shown := order_by_name
                    (where_eq_opt Subjects.department_id (Departments.id d)
                       (subjects db)) in
     {| status := 200;
        json := <["success" := JBool true]>
                (<["count" := JNum (Z.of_nat (length shown))]>
                (<["subjects" :=
                     JArr (map (fun s => JObj (Subjects.to_json s)) shown)]> ∅)) |}).
Proof.
  intros Hd. unfold catch_any, getDepartmentSubjects, bind, query, ret.
  by rewrite Hd.
Qed.

(** X20. A head of department reads the subjects of the own department
    only, and sees what was just created: the store's ordering being a
    rearrangement of the rows, [getDepartmentSubjects] shows exactly the
    subjects whose [department_id] is the caller's department, and after a
    [createSubject] of the same caller answered 201 it shows one subject
    more: the old ones and the new one. *)
Theorem getDepartmentSubjects_shows_own_department :
  forall (S : Store) (create : AuthRequest SubjectBody.t) (B : Type)
         (me : AuthRequest B) (db : Db) (d : Departments.row),
    (forall l, order_by_name l ≡ₚ l) ->
    my_department me db = Some d ->
    (exists shown,
       shown ≡ₚ where_eq_opt Subjects.department_id (Departments.id d) (subjects db) /\
       Forall (fun s => Subjects.department_id s = Some (Departments.id d)) shown /\
       catch_any (getDepartmentSubjects order_by_name me) db
       = (db, {| status := 200;
                 json := <["success" := JBool true]>
                         (<["count" := JNum (Z.of_nat (length shown))]>
                         (<["subjects" :=
                              JArr (map (fun s => JObj (Subjects.to_json s)) shown)]>
                            ∅)) |})) /\
    (user create = user me ->
     let created := catch_any (createSubject S create) db in
     status created.2 = 201 ->
     exists (row : Subjects.row) (shown : list Subjects.row),
       Subjects.name row = SubjectBody.name (body create) /\
       shown ≡ₚ where_eq_opt Subjects.department_id (Departments.id d) (subjects db)
                ++ [row] /\
       catch_any (getDepartmentSubjects order_by_name me) created.1
       = (created.1,
          {| status := 200;
             json := <["success" := JBool true]>
                     (<["count" := JNum (Z.of_nat (length shown))]>
                     (<["subjects" :=
                          JArr (map (fun s => JObj (Subjects.to_json s)) shown)]>
                        ∅)) |})).
Proof.
  intros S create B me db d Hperm Hd. split.
  - eexists. split; [apply Hperm|]. split; [|by apply getDepartmentSubjects_shows].
    apply Forall_forall. intros s Hs. rewrite Hperm in Hs.
    unfold where_eq_opt in Hs. by apply list_elem_of_filter in Hs as [? _].
  - intros Huser created Hok. subst created.
    assert (Hd' : my_department create db = Some d)
      by (unfold my_department in *; by rewrite Huser).
    destruct (hod_createSubject_ends S create db d Hd')
      as [(code & msg & Hcode & Hout)|(res & Hout)];
      rewrite Hout in Hok |- *; cbn [fst snd status] in Hok |- *; [done|].
    set (row := {| Subjects.id := gen_id S db;
                   Subjects.name := SubjectBody.name (body create);
                   Subjects.code := SubjectBody.code (body create);
                   Subjects.description := SubjectBody.description (body create);
                   Subjects.department_id := Some (Departments.id d) |}).
    exists row,
      (order_by_name (where_eq_opt Subjects.department_id (Departments.id d)
                        (subjects db ++ [row]))).
    split; [reflexivity|]. split.
    + rewrite Hperm. unfold where_eq_opt. rewrite filter_app.
      by rewrite (filter_cons_True _ _ []).
    + by apply getDepartmentSubjects_shows.
Qed.

End HodReadProperties.

Lemma updateSubject_witness :
  let req := request None (Some head_of_science) "s-phy"
               {| SubjectBody.name := Some "Physics I"; SubjectBody.code := None;
                  SubjectBody.description := None;
                  SubjectBody.department_id := Some "d-art" |} in
  let db' := (catch_any (updateSubject lenient_store req) sample_db).1 in
  subjects db'
  = [ {| Subjects.id := "s-phy"; Subjects.name := Some "Physics I";
         Subjects.code := Some "PHY"; Subjects.description := None;
         Subjects.department_id := Some "d-sci" |} ] /\
  db' = with_subjects (fun _ => subjects db') sample_db.
Proof.
  intros req db'. split; [reflexivity|].
  exact (proj2 (updateSubject_stays_in_own_department lenient_store req sample_db)).
Defined.

Lemma getDepartmentSubjects_witness :
  let me := request None (Some head_of_science) "" tt in
  let create := request None (Some head_of_science) "" music_body in
  let created := catch_any (createSubject lenient_store create) sample_db in
  json (catch_any (getDepartmentSubjects reverse me) sample_db).2 !! "count"
  = Some (JNum 1) /\
  exists row shown,
    Subjects.name row = Some "Music" /\
    length shown = 2%nat /\
    catch_any (getDepartmentSubjects reverse me) created.1
    = (created.1,
       {| status := 200;
          json := <["success" := JBool true]>
                  (<["count" := JNum (Z.of_nat (length shown))]>
                  (<["subjects" :=
                       JArr (map (fun s => JObj (Subjects.to_json s)) shown)]> ∅)) |}).
Proof.
  intros me create created. split; [reflexivity|].
  destruct (getDepartmentSubjects_shows_own_department reverse lenient_store create
              unit me sample_db
              {| Departments.id := "d-sci"; Departments.name := "Science";
                 Departments.hod_id := Some "u-hod" |}
              (fun l => reverse_Permutation l) eq_refl) as [_ Hcreated].
  destruct (Hcreated eq_refl eq_refl) as (row & shown & Hname & Hperm & Hres).
  exists row, shown. split; [exact Hname|]. split; [|exact Hres].
  by rewrite Hperm.
Defined.

(** ** Logging in *)

Lemma login_success (L : TokenLib) (env : option string) (R : Runtime) (now : Z)
    (req : AuthRequest LoginRequest.t) (db : Db) (e p : string) (u : User) :
  LoginRequest.email (body req) = Some e -> e ≠ "" ->
  LoginRequest.password (body req) = Some p -> p ≠ "" ->
  single (where_eq Users.email (toLowerCase R e) (users db)) = Some u ->
  bcrypt_compare R p (Users.password_hash u) = true ->
  Users.is_active u = true ->
  catch_AppError (login L env R now req) db
  = (with_users (update_where Users.id (Users.id u)
                   (Users.set_last_login (toISOString R now))) db,
     {| status := 200;
        json := <["token" := JStr (generateToken L env u now)]>
                (<["user" := JObj (delete "password_hash" (Users.to_json u))]>
                (ok_body "Login successful")) |}).
Proof.
  intros He Hee Hp Hpe Hrow Hpw Hact. unfold catch_AppError, login.
  rewrite He, Hp, !truthy_Some by done. cbn [negb orb].
  change (str (Some e)) with e. change (str (Some p)) with p.
  unfold bind at 1. unfold query at 1. rewrite Hrow, Hpw, Hact. reflexivity.
Qed.

(** X21. [login] does not tell an unknown email from a wrong password: both
    are answered 401 with the same body, and the store is left as it was.
    That an account is disabled (403) is only said once the password was
    right. *)
Theorem login_failures_look_alike :
  forall (L : TokenLib) (env : option string) (R : Runtime) (now : Z)
         (req : AuthRequest LoginRequest.t) (db : Db) (e p : string),
    LoginRequest.email (body req) = Some e -> e ≠ "" ->
    LoginRequest.password (body req) = Some p -> p ≠ "" ->
    let refused := {| status := 401; json := fail_body "Invalid email or password" |} in
    (single (where_eq Users.email (toLowerCase R e) (users db)) = None ->
       catch_AppError (login L env R now req) db = (db, refused)) /\
    (forall u,
       single (where_eq Users.email (toLowerCase R e) (users db)) = Some u ->
       (bcrypt_compare R p (Users.password_hash u) = false ->
          catch_AppError (login L env R now req) db = (db, refused)) /\
       (bcrypt_compare R p (Users.password_hash u) = true ->
        Users.is_active u = false ->
          catch_AppError (login L env R now req) db
          = (db, {| status := 403;
                    json := fail_body
                      "Your account is not active. Please contact the administrator."
                 |}))).
Proof.
  intros L env R now req db e p He Hee Hp Hpe refused.
  assert (Hrun : catch_AppError (login L env R now req) db
    = catch_AppError
        (found <~ query (fun db =>
           single (where_eq Users.email (toLowerCase R e) (users db))) ;;
         match found with
         | None => throw "Invalid email or password" 401
         | Some u =>
             if negb (bcrypt_compare R p (Users.password_hash u)) then
               throw "Invalid email or password" 401
             else if negb (Users.is_active u) then
               throw "Your account is not active. Please contact the administrator."
                 403
             else
               exec (with_users
                       (update_where Users.id (Users.id u)
                          (Users.set_last_login (toISOString R now)))) ;;;
               ret {| status := 200;
                      json := <["token" := JStr (generateToken L env u now)]>
                              (<["user" := JObj (delete "password_hash"
                                                   (Users.to_json u))]>
                              (ok_body "Login successful")) |}
         end) db).
  { unfold login. by rewrite He, Hp, !truthy_Some. }
  rewrite Hrun. unfold catch_AppError, bind, query, throw. split.
  - by intros ->.
  - intros u ->. split.
    + by intros ->.
    + by intros -> ->.
Qed.

Lemma login_failures_witness :
  let wrong := request None None ""
                 {| LoginRequest.email := Some "tch@school.com";
                    LoginRequest.password := Some "guess" |} in
  let unknown := request None None ""
                   {| LoginRequest.email := Some "nobody@school.com";
                      LoginRequest.password := Some "guess" |} in
  let disabled := request None None ""
                    {| LoginRequest.email := Some "old@school.com";
                       LoginRequest.password := Some "u-old" |} in
  catch_AppError (login sample_lib None sample_runtime 0 wrong) sample_db
  = catch_AppError (login sample_lib None sample_runtime 0 unknown) sample_db /\
  status (catch_AppError (login sample_lib None sample_runtime 0 disabled) sample_db).2
  = 403.
Proof.
  intros wrong unknown disabled.
  destruct (login_failures_look_alike sample_lib None sample_runtime 0 wrong
              sample_db "tch@school.com" "guess"
              eq_refl ltac:(discriminate) eq_refl ltac:(discriminate))
    as [_ Hwrong].
  destruct (login_failures_look_alike sample_lib None sample_runtime 0 unknown
              sample_db "nobody@school.com" "guess"
              eq_refl ltac:(discriminate) eq_refl ltac:(discriminate))
    as [Hunknown _].
  destruct (login_failures_look_alike sample_lib None sample_runtime 0 disabled
              sample_db "old@school.com" "u-old"
              eq_refl ltac:(discriminate) eq_refl ltac:(discriminate))
    as [_ Hdisabled].
  split.
  - rewrite (proj1 (Hwrong maths_teacher eq_refl) eq_refl).
    by rewrite (Hunknown eq_refl).
  - by rewrite (proj2 (Hdisabled retired_teacher eq_refl) eq_refl eq_refl).
Defined.

Lemma jwt_verify_fresh (L : TokenLib) (env : option string) (u : User) (t0 t : Z) :
  let issued :=
    {| payload := {| userId := Users.id u; email := Users.email u;
                     role := Users.role u |};
       iat := t0 / 1000; exp := t0 / 1000 + 604800 |} in
  jws_decode L (generateToken L env u t0)
  = Some {| claims := issued; signature := hmac L (JWT_SECRET env) issued |} ->
  t / 1000 < t0 / 1000 + 604800 ->
  jwt_verify L (generateToken L env u t0) (JWT_SECRET env) t = Some issued.
Proof.
  intros issued Hcodec Ht. unfold jwt_verify. rewrite Hcodec. cbn.
  rewrite bool_decide_eq_true_2 by done. by rewrite bool_decide_eq_false_2 by lia.
Qed.

(** X22. The token [login] hands out opens the protected routes: after a
    successful login of an identity whose id is unique in the store, a
    request that carries the returned token within seven days passes
    [authenticateToken], with the identity's row attached as [login] left
    it, its [last_login] set. *)
Theorem login_token_passes_authenticateToken :
  forall (L : TokenLib) (env : option string) (R : Runtime) (now later : Z)
         (req : AuthRequest LoginRequest.t) (B : Type) (next_req : AuthRequest B)
         (db : Db) (e p : string) (u : User),
    LoginRequest.email (body req) = Some e -> e ≠ "" ->
    LoginRequest.password (body req) = Some p -> p ≠ "" ->
    single (where_eq Users.email (toLowerCase R e) (users db)) = Some u ->
    bcrypt_compare R p (Users.password_hash u) = true ->
    Users.is_active u = true ->
    single (where_eq Users.id (Users.id u) (users db)) = Some u ->
    let issued :=
      {| payload := {| userId := Users.id u; email := Users.email u;
                       role := Users.role u |};
         iat := now / 1000; exp := now / 1000 + 604800 |} in
    jws_decode L (generateToken L env u now)
    = Some {| claims := issued; signature := hmac L (JWT_SECRET env) issued |} ->
    bearer_token next_req = Some (generateToken L env u now) ->
    generateToken L env u now ≠ "" ->
    later / 1000 < now / 1000 + 604800 ->
    let out := catch_AppError (login L env R now req) db in
    json out.2 !! "token" = Some (JStr (generateToken L env u now)) /\
    authenticateToken L env out.1 later next_req
    = Next (attach_user (Users.set_last_login (toISOString R now) u) next_req).
Proof.
  intros L env R now later req B next_req db e p u He Hee Hp Hpe Hrow Hpw Hact Hid
    issued Hcodec Htok Hne Hlater out. subst out.
  rewrite (login_success L env R now req db e p u) by done.
  cbn [fst snd json]. split; [by rewrite lookup_insert_eq|].
  apply authenticateToken_active
    with (tok := generateToken L env u now) (c := issued); try done.
  - by apply jwt_verify_fresh.
  - cbn [users with_users payload userId issued].
    rewrite where_eq_update_where by done. by apply single_map.
Qed.

Lemma login_token_witness :
  let req := request None None ""
               {| LoginRequest.email := Some "Old@School.com";
                  LoginRequest.password := Some "u-old" |} in
  let db := with_users (map (Users.set_active true)) sample_db in
  let out := catch_AppError (login sample_lib None sample_runtime 1700000000123 req) db in
  let next_req := request (Some "Bearer u-old.your-super-secret-jwt-token/u-old")
                    None "" tt in
  status out.2 = 200 /\
  authenticateToken sample_lib None out.1 1700604799999 next_req
  = Next (attach_user
            (Users.set_last_login "2026-01-05T08:00:00.000Z"
               (Users.set_active true retired_teacher)) next_req).
Proof.
  intros req db out next_req. split; [reflexivity|].
  refine (proj2 (login_token_passes_authenticateToken sample_lib None sample_runtime
            1700000000123 1700604799999 req unit next_req db "Old@School.com" "u-old"
            (Users.set_active true retired_teacher)
            eq_refl _ eq_refl _ eq_refl eq_refl eq_refl eq_refl eq_refl eq_refl _
            eq_refl)); discriminate.
Defined.

(** ** Registering, then logging in *)

Lemma register_appends_user (R : Runtime) (S : Store) (now : Z)
    (req : AuthRequest RegisterUserRequest.t) (db : Db) :
  status (catch_AppError (register R S now req) db).2 = 201 ->
  exists r,
    role_of_string (str (RegisterUserRequest.role (body req))) = Some r /\
    Users.role <$> user req = Some admin /\
    users (catch_AppError (register R S now req) db).1
    = users db ++
      [ {| Users.id := gen_id S db;
           Users.email := toLowerCase R (str (RegisterUserRequest.email (body req)));
           Users.password_hash :=
             bcrypt_hash R (str (RegisterUserRequest.password (body req)));
           Users.role := r;
           Users.first_name := str (RegisterUserRequest.first_name (body req));
           Users.last_name := str (RegisterUserRequest.last_name (body req));
           Users.phone := RegisterUserRequest.phone (body req);
           Users.profile_image := None;
           Users.is_active := true;
           Users.last_login := None |} ].
Proof.
  remember (catch_AppError (register R S now req) db) as out eqn:E.
  revert E. unfold catch_AppError, register.
  case_bool_decide as Hadmin; cbn [negb]; [|by intros ->].
  match goal with |- context [if ?c then throw _ 400 else _] => destruct c end;
    [by intros ->|].
  destruct (role_of_string _) as [r|] eqn:Hr; [|by intros ->].
  unfold bind at 1. unfold query at 1.
  destruct (bool_decide (is_Some _)); [by intros ->|].
  unfold bind at 1. unfold query at 1.
  unfold bind at 1. unfold query at 1.
  destruct (users_reject S db _) as [e|]; [by intros ->|].
  unfold bind at 1. unfold exec at 1.
  destruct r; decide_roles;
    cbv beta iota delta [bind query exec ret throw rollback_user].
  1-3: intros -> _; eexists; by repeat split.
  - destruct (teachers_reject S _ _);
      [destruct (users_delete_reject S _ _); by intros ->|].
    intros -> Hok. eexists; by repeat split.
  - destruct (parents_reject S _ _);
      [destruct (users_delete_reject S _ _); by intros ->|].
    intros -> Hok. eexists; by repeat split.
  - destruct (students_reject S _ _);
      [destruct (users_delete_reject S _ _); by intros ->|].
    intros -> Hok. eexists; by repeat split.
Qed.

(** X23. Who was registered can log in: when [register] answers 201 for an
    email no row had, and [bcrypt.compare] accepts a password against its
    own hash, a [login] with that password and any email that the engine's
    [toLowerCase] maps to the same string as the registered one, so the
    same email in any letter case, is answered 200 with a token of the new
    identity, which is active and stored under the lower-cased email. *)
Theorem registered_identity_can_log_in :
  forall (L : TokenLib) (env : option string) (R : Runtime) (S : Store)
         (now later : Z) (req : AuthRequest RegisterUserRequest.t)
         (lreq : AuthRequest LoginRequest.t) (db : Db) (e e' p : string),
    RegisterUserRequest.email (body req) = Some e ->
    RegisterUserRequest.password (body req) = Some p ->
    where_eq Users.email (toLowerCase R e) (users db) = [] ->
    bcrypt_compare R p (bcrypt_hash R p) = true ->
    LoginRequest.email (body lreq) = Some e' -> e' ≠ "" ->
    toLowerCase R e' = toLowerCase R e ->
    LoginRequest.password (body lreq) = Some p -> p ≠ "" ->
    let registered := catch_AppError (register R S now req) db in
    status registered.2 = 201 ->
    exists u,
      u ∈ users registered.1 /\
      Users.email u = toLowerCase R e /\ Users.is_active u = true /\
      Some (Users.role u) = role_of_string (str (RegisterUserRequest.role (body req))) /\
      (catch_AppError (login L env R later lreq) registered.1).2
      = {| status := 200;
           json := <["token" := JStr (generateToken L env u later)]>
                   (<["user" := JObj (delete "password_hash" (Users.to_json u))]>
                   (ok_body "Login successful")) |}.
Proof.
  intros L env R S now later req lreq db e e' p He Hp Hfresh Hbcrypt
    He' Hee' Hlower Hp' Hpe registered Hok. subst registered.
  destruct (register_appends_user R S now req db Hok) as (r & Hr & _ & Husers).
  rewrite He, Hp in Husers. change (str (Some e)) with e in Husers.
  change (str (Some p)) with p in Husers.
  eexists. split; [rewrite Husers; apply elem_of_app; right; apply list_elem_of_here|].
  cbn [Users.email Users.is_active Users.role]. split; [done|]. split; [done|].
  split; [done|].
  erewrite login_success; [reflexivity|exact He'|done|exact Hp'|done| |done|done].
  rewrite Hlower, Husers, where_eq_app, Hfresh. cbn [app].
  unfold where_eq. by rewrite filter_cons_True.
Qed.

Lemma registered_identity_witness :
  let lreq := request None None ""
                {| LoginRequest.email := Some "NEW.TEACHER@school.com";
                   LoginRequest.password := Some "s3cret" |} in
  let registered := catch_AppError
                      (register sample_runtime lenient_store 1767600000000
                         new_teacher_request) sample_db in
  status (catch_AppError (login sample_lib None sample_runtime 1767600005000 lreq)
            sample_db).2 = 401 /\
  status (catch_AppError (login sample_lib None sample_runtime 1767600005000 lreq)
            registered.1).2 = 200.
Proof.
  intros lreq registered. split; [reflexivity|].
  destruct (registered_identity_can_log_in sample_lib None sample_runtime
              lenient_store 1767600000000 1767600005000 new_teacher_request lreq
              sample_db "New.Teacher@School.com" "NEW.TEACHER@school.com" "s3cret"
              eq_refl eq_refl eq_refl eq_refl eq_refl ltac:(discriminate) eq_refl
              eq_refl ltac:(discriminate) eq_refl)
    as (u & _ & _ & _ & _ & Hres).
  unfold registered. by rewrite Hres.
Defined.

(** ** The caller's own account *)

Lemma where_eq_update_where_other {A} (col key : A -> string) (v w : string)
    (f : A -> A) (rows : list A) :
  (forall r, col (f r) = col r) ->
  where_eq col v (update_where key w f rows)
  = update_where key w f (where_eq col v rows).
Proof.
  intros Hcol. unfold where_eq, update_where.
  induction rows as [|r rows IH]; [done|]. cbn [map].
  destruct (decide (col r = v)) as [Hr|Hr].
  - rewrite !filter_cons_True; [|done|by destruct (decide (key r = w)); rewrite ?Hcol].
    cbn [map]. by rewrite IH.
  - rewrite !filter_cons_False; [done|done|].
    by destruct (decide (key r = w)); rewrite ?Hcol.
Qed.

(** X24. [changePassword] changes one thing: a new password of fewer than
    six UTF-16 code units, as [new_password.length] counts them, is refused
    with 400 and a wrong current password with 401, the store untouched;
    otherwise the rows with the caller's id get the hash of the new password
    and nothing else changes. When [bcrypt.compare] accepts the new password
    against its hash, the caller can then log in with the new password. *)
Theorem changePassword_replaces_only_the_hash :
  forall (L : TokenLib) (env : option string) (R : Runtime) (now : Z)
         (req : AuthRequest PasswordBody.t) (db : Db) (me u : User)
         (cur new : string),
    user req = Some me ->
    PasswordBody.current_password (body req) = Some cur -> cur ≠ "" ->
    PasswordBody.new_password (body req) = Some new -> new ≠ "" ->
    single (where_eq Users.id (Users.id me) (users db)) = Some u ->
    ((js_length new < 6)%nat ->
       catch_AppError (changePassword R req) db
       = (db, {| status := 400;
                 json := fail_body
                   "New password must be at least 6 characters long" |})) /\
    ((6 <= js_length new)%nat ->
     bcrypt_compare R cur (Users.password_hash u) = false ->
       catch_AppError (changePassword R req) db
       = (db, {| status := 401; json := fail_body "Current password is incorrect" |})) /\
    ((6 <= js_length new)%nat ->
     bcrypt_compare R cur (Users.password_hash u) = true ->
       catch_AppError (changePassword R req) db
       = (with_users (update_where Users.id (Users.id me)
                        (set_password_hash (bcrypt_hash R new))) db,
          {| status := 200; json := ok_body "Password changed successfully" |}) /\
       forall lreq : AuthRequest LoginRequest.t,
         LoginRequest.email (body lreq) = Some (Users.email u) ->
         Users.email u ≠ "" ->
         LoginRequest.password (body lreq) = Some new ->
         single (where_eq Users.email (toLowerCase R (Users.email u)) (users db))
         = Some u ->
         Users.is_active u = true ->
         bcrypt_compare R new (bcrypt_hash R new) = true ->
         status (catch_AppError (login L env R now lreq)
                   (catch_AppError (changePassword R req) db).1).2 = 200).
Proof.
  intros L env R now req db me u cur new Hme Hcur Hcure Hnew Hnewe Hrow.
  assert (Hrun : catch_AppError (changePassword R req) db
    = if (js_length new <? 6)%nat then
        (db, {| status := 400;
                json := fail_body
                  "New password must be at least 6 characters long" |})
      else if negb (bcrypt_compare R cur (Users.password_hash u)) then
        (db, {| status := 401; json := fail_body "Current password is incorrect" |})
      else
        (with_users (update_where Users.id (Users.id me)
                       (set_password_hash (bcrypt_hash R new))) db,
         {| status := 200; json := ok_body "Password changed successfully" |})).
  { unfold catch_AppError, changePassword.
    rewrite Hme, Hcur, Hnew, !truthy_Some by done. cbn [negb orb].
    change (str (Some cur)) with cur. change (str (Some new)) with new.
    destruct (js_length new <? 6)%nat; [done|].
    unfold bind at 1. unfold query at 1. rewrite Hrow.
    by destruct (bcrypt_compare R cur (Users.password_hash u)). }
  rewrite Hrun. split; [|split].
  - intros Hshort. apply Nat.ltb_lt in Hshort. by rewrite Hshort.
  - intros Hlong Hwrong. apply Nat.ltb_ge in Hlong. by rewrite Hlong, Hwrong.
  - intros Hlong Hright. apply Nat.ltb_ge in Hlong. rewrite Hlong, Hright.
    cbn [negb]. split; [done|].
    intros lreq He Hee Hp Hmail Hact Hbcrypt. cbn [fst].
    assert (Hidu : Users.id u = Users.id me).
    { apply single_elem_of in Hrow. unfold where_eq in Hrow.
      by apply list_elem_of_filter in Hrow as [? _]. }
    erewrite login_success; [done|exact He|done|exact Hp|done| | |].
    + cbn [users with_users].
      rewrite where_eq_update_where_other by done.
      destruct (where_eq Users.email (toLowerCase R (Users.email u)) (users db))
        as [|x [|y rest]]; cbn in Hmail; simplify_eq.
      unfold update_where. cbn [map single]. by rewrite decide_True.
    + done.
    + done.
Qed.

Lemma changePassword_witness :
  let changed := catch_AppError (changePassword sample_runtime tch_password_change)
                   sample_db in
  let with_new := request None None ""
                    {| LoginRequest.email := Some "tch@school.com";
                       LoginRequest.password := Some "longer-secret" |} in
  let with_old := request None None ""
                    {| LoginRequest.email := Some "tch@school.com";
                       LoginRequest.password := Some "u-tch" |} in
  status changed.2 = 200 /\
  status (catch_AppError (login sample_lib None sample_runtime 0 with_new) changed.1).2
  = 200 /\
  status (catch_AppError (login sample_lib None sample_runtime 0 with_old) changed.1).2
  = 401 /\
  String.length three_letter_password = 9%nat /\
  js_length three_letter_password = 3%nat /\
  catch_AppError (changePassword sample_runtime short_password_change) sample_db
  = (sample_db, {| status := 400;
                   json := fail_body
                     "New password must be at least 6 characters long" |}).
Proof.
  intros changed with_new with_old.
  destruct (changePassword_replaces_only_the_hash sample_lib None sample_runtime 0
              tch_password_change sample_db maths_teacher maths_teacher
              "u-tch" "longer-secret" eq_refl eq_refl ltac:(discriminate)
              eq_refl ltac:(discriminate) eq_refl) as (_ & _ & Hok).
  destruct Hok as [Hchanged Hlogin]; [by apply Nat.leb_le|reflexivity|].
  split; [reflexivity|]. split; [|split; [reflexivity|]].
  - apply (Hlogin with_new); (reflexivity || discriminate).
  - split; [reflexivity|]. split; [reflexivity|].
    apply (proj1 (changePassword_replaces_only_the_hash sample_lib None
                    sample_runtime 0 short_password_change sample_db maths_teacher
                    maths_teacher "u-tch" three_letter_password eq_refl eq_refl
                    ltac:(discriminate) eq_refl ltac:(discriminate) eq_refl)).
    by apply Nat.ltb_lt.
Defined.

(** X25. [updateProfile] cannot be used to change who one is: whatever the
    body, every users row keeps its id, email, password hash, role and
    activation, rows of other ids stay exactly as they were, no other table
    changes, and a [user] field in the response has no [password_hash]. A
    request without an identity is answered 401. *)
Theorem updateProfile_keeps_identity_columns :
  forall (req : AuthRequest ProfileBody.t) (db : Db),
    let out := catch_AppError (updateProfile req) db in
    Forall2 (fun old new =>
               Users.id new = Users.id old /\
               Users.email new = Users.email old /\
               Users.password_hash new = Users.password_hash old /\
               Users.role new = Users.role old /\
               Users.is_active new = Users.is_active old /\
               (Some (Users.id old) ≠ Users.id <$> user req -> new = old))
      (users db) (users out.1) /\
    out.1 = with_users (fun _ => users out.1) db /\
    (forall o, json out.2 !! "user" = Some (JObj o) -> o !! "password_hash" = None) /\
    (user req = None ->
       out = (db, {| status := 401; json := fail_body "User not authenticated" |})).
Proof.
  intros req db out. subst out.
  assert (Hsame : forall d : Db, d = with_users (fun _ => users d) d)
    by (by intros []).
  unfold catch_AppError, updateProfile.
  destruct (user req) as [me|] eqn:Hme.
  2: { unfold throw. cbn [fst snd json status].
       split; [by apply Forall2_same|]. split; [apply Hsame|]. split; [|done].
       intros o. by rewrite fail_body_no_user. }
  unfold bind, exec, query, throw, ret.
  assert (Hupd : Forall2 (fun old new =>
               Users.id new = Users.id old /\
               Users.email new = Users.email old /\
               Users.password_hash new = Users.password_hash old /\
               Users.role new = Users.role old /\
               Users.is_active new = Users.is_active old /\
               (Some (Users.id old) ≠ Users.id <$> Some me -> new = old))
      (users db)
      (update_where Users.id (Users.id me) (apply_profile (body req)) (users db))).
  { unfold update_where. apply Forall2_map_r_same. intros u.
    destruct (decide (Users.id u = Users.id me)) as [E|E]; [|done].
    cbn. repeat split. intros Hne. by rewrite E in Hne. }
  destruct (single _) as [data|]; cbn [fst snd json users with_users].
  - split; [exact Hupd|]. split; [by destruct db|]. split; [|done].
    intros o. rewrite lookup_insert_eq. intros [= <-]. apply stripped_user.
  - split; [exact Hupd|]. split; [by destruct db|]. split; [|done].
    intros o. by rewrite fail_body_no_user.
Qed.

Lemma updateProfile_witness :
  let req := request None (Some maths_teacher) ""
               {| ProfileBody.first_name := Some "Ada"; ProfileBody.last_name := None;
                  ProfileBody.phone := Some "555"; ProfileBody.profile_image := None |} in
  let out := catch_AppError (updateProfile req) sample_db in
  status out.2 = 200 /\
  Users.first_name <$> single (where_eq Users.id "u-tch" (users out.1)) = Some "Ada" /\
  out.1 = with_users (fun _ => users out.1) sample_db /\
  catch_AppError (updateProfile (request None None "" (body req))) sample_db
  = (sample_db, {| status := 401; json := fail_body "User not authenticated" |}).
Proof.
  intros req out. split; [reflexivity|]. split; [reflexivity|]. split.
  - exact (proj1 (proj2 (updateProfile_keeps_identity_columns req sample_db))).
  - exact (proj2 (proj2 (proj2 (updateProfile_keeps_identity_columns
                                  (request None None "" (body req)) sample_db)))
             eq_refl).
Defined.

(** X26. [GET /me]: behind [authenticateToken], [getCurrentUser] shows the
    identity's row as the store has it at the time of the request, without
    its [password_hash], and leaves the store alone. Called without an
    identity it answers 500: the 401 it throws is replaced by its own
    [catch] block. *)
Theorem getCurrentUser_shows_store_row_without_hash :
  forall (L : TokenLib) (env : option string) (B : Type) (db : Db) (now : Z)
         (req : AuthRequest B),
    (forall (tok : string) (c : JwtClaims) (u : User),
       bearer_token req = Some tok -> tok ≠ "" ->
       jwt_verify L tok (JWT_SECRET env) now = Some c ->
       single (where_eq Users.id (userId (payload c)) (users db)) = Some u ->
       Users.is_active u = true ->
       authenticated L env (fun r => catch_getCurrentUser (getCurrentUser r)) now req db
       = (db, {| status := 200;
                 json := <["success" := JBool true]>
                         (<["user" := JObj (delete "password_hash" (Users.to_json u))]>
                            ∅) |}) /\
       delete "password_hash" (Users.to_json u) !! "password_hash" = None /\
       delete "password_hash" (Users.to_json u) !! "role"
       = Some (JStr (role_name (Users.role u)))) /\
    (user req = None ->
       catch_getCurrentUser (getCurrentUser req) db
       = (db, {| status := 500; json := fail_body "Failed to get user data" |})).
Proof.
  intros L env B db now req. split.
  - intros tok c u Htok Hne Hver Hrow Hact. split; [|split].
    + unfold authenticated.
      by rewrite (authenticateToken_active L env db now req tok c u).
    + apply stripped_user.
    + rewrite lookup_delete_ne by done. unfold Users.to_json.
      rewrite !lookup_insert_ne by done. apply lookup_insert_eq.
  - intros Hnone. unfold catch_getCurrentUser, getCurrentUser. by rewrite Hnone.
Qed.

Lemma getCurrentUser_witness :
  let req := request (Some "Bearer u-old.your-super-secret-jwt-token/u-old")
               None "" tt in
  let promoted :=
    with_users (map (fun u => if decide (Users.id u = "u-old")
                              then sample_user "u-old" "old@school.com" hod true
                              else u)) sample_db in
  json (authenticated sample_lib None
          (fun r => catch_getCurrentUser (getCurrentUser r)) 1700000500000 req
          promoted).2 !! "user"
  = Some (JObj (delete "password_hash"
                  (Users.to_json (sample_user "u-old" "old@school.com" hod true)))) /\
  status (catch_getCurrentUser (getCurrentUser req) promoted).2 = 500.
Proof.
  intros req promoted.
  destruct (getCurrentUser_shows_store_row_without_hash sample_lib None unit promoted
              1700000500000 req) as [Hshown Hnone].
  split.
  - rewrite (proj1 (Hshown "u-old.your-super-secret-jwt-token/u-old" old_claims
                      (sample_user "u-old" "old@school.com" hod true)
                      eq_refl ltac:(discriminate) eq_refl eq_refl eq_refl)).
    reflexivity.
  - by rewrite (Hnone eq_refl).
Defined.

(** ** The admin's subjects *)

Lemma hod_createSubject_accepted (S : Store) (req : AuthRequest SubjectBody.t)
    (db : Db) (d : Departments.row) :
  my_department req db = Some d ->
  let row := {| Subjects.id := gen_id S db;
                Subjects.name := SubjectBody.name (body req);
                Subjects.code := SubjectBody.code (body req);
                Subjects.description := SubjectBody.description (body req);
                Subjects.department_id := Some (Departments.id d) |} in
  subjects_reject S db row = None ->
  catch_any (createSubject S req) db
  = (with_subjects (fun rows => rows ++ [row]) db,
     {| status := 201;
        json := <["subject" := JObj (Subjects.to_json row)]>
                (ok_body "Subject created successfully") |}).
Proof.
  intros Hd row Hrow. unfold catch_any, createSubject, bind, query, throw, exec, ret.
  rewrite Hd. fold row. by rewrite Hrow.
Qed.

Lemma admin_createSubject_accepted (S : Store) (req : AuthRequest SubjectBody.t)
    (db : Db) :
  truthy (SubjectBody.name (body req)) = true ->
  truthy (SubjectBody.code (body req)) = true ->
  let row := {| Subjects.id := gen_id S db;
                Subjects.name := SubjectBody.name (body req);
                Subjects.code := SubjectBody.code (body req);
                Subjects.description := SubjectBody.description (body req);
                Subjects.department_id := SubjectBody.department_id (body req) |} in
  subjects_reject S db row = None ->
  catch_any (Admin.createSubject S req) db
  = (with_subjects (fun rows => rows ++ [row]) db,
     {| status := 201;
        json := <["subject" := JObj (Subjects.to_json row)]>
                (ok_body "Subject created successfully") |}).
Proof.
  intros Hn Hc row Hrow. unfold catch_any, Admin.createSubject.
  rewrite Hn, Hc. cbn [negb orb]. unfold bind, query, throw, exec, ret.
  fold row. by rewrite Hrow.
Qed.

(** X27. The two [createSubject] handlers on the same request of a head of
    department: the admin's refuses a body without a name or a code with
    400, the HOD's checks nothing and sends it on; and with a name and a
    code, each inserting the row the store accepts, the two rows are the
    same but for the department: the admin's is the body's [department_id],
    the HOD's is the caller's own department. *)
Theorem admin_and_hod_createSubject_differ_in_department :
  forall (S : Store) (req : AuthRequest SubjectBody.t) (db : Db)
         (d : Departments.row),
    my_department req db = Some d ->
    let row (dep : option string) :=
      {| Subjects.id := gen_id S db;
         Subjects.name := SubjectBody.name (body req);
         Subjects.code := SubjectBody.code (body req);
         Subjects.description := SubjectBody.description (body req);
         Subjects.department_id := dep |} in
    subjects_reject S db (row (SubjectBody.department_id (body req))) = None ->
    subjects_reject S db (row (Some (Departments.id d))) = None ->
    (catch_any (createSubject S req) db).1
    = with_subjects (fun rows => rows ++ [row (Some (Departments.id d))]) db /\
    status (catch_any (createSubject S req) db).2 = 201 /\
    (truthy (SubjectBody.name (body req)) = false \/
     truthy (SubjectBody.code (body req)) = false ->
       catch_any (Admin.createSubject S req) db
       = (db, {| status := 400; json := fail_body "Name and code are required" |})) /\
    (truthy (SubjectBody.name (body req)) = true ->
     truthy (SubjectBody.code (body req)) = true ->
       (catch_any (Admin.createSubject S req) db).1
       = with_subjects
           (fun rows => rows ++ [row (SubjectBody.department_id (body req))]) db /\
       status (catch_any (Admin.createSubject S req) db).2 = 201).
Proof.
  intros S req db d Hd row Hadmin Hhod.
  rewrite (hod_createSubject_accepted S req db d Hd Hhod). cbn [fst snd status].
  split; [done|]. split; [done|]. split.
  - intros Hmissing. unfold catch_any, Admin.createSubject.
    destruct Hmissing as [-> | ->]; cbn [negb orb]; [done|]. by rewrite orb_true_r.
  - intros Hn Hc. by rewrite (admin_createSubject_accepted S req db Hn Hc Hadmin).
Qed.

Lemma admin_and_hod_createSubject_witness :
  let req := request None (Some head_of_science) "" music_body in
  Subjects.department_id <$> last (subjects (catch_any (createSubject lenient_store req)
                                              sample_db).1)
  = Some (Some "d-sci") /\
  Subjects.department_id <$> last (subjects (catch_any (Admin.createSubject
                                                          lenient_store req)
                                              sample_db).1)
  = Some (Some "d-art").
Proof.
  intros req.
  destruct (admin_and_hod_createSubject_differ_in_department lenient_store req
              sample_db
              {| Departments.id := "d-sci"; Departments.name := "Science";
                 Departments.hod_id := Some "u-hod" |} eq_refl eq_refl eq_refl)
    as (Hhod & _ & _ & Hadmin).
  rewrite Hhod. rewrite (proj1 (Hadmin eq_refl eq_refl)). split; reflexivity.
Defined.

(** ** Emails are stored in lower case *)

Lemma lower_ascii_idemp (c : ascii) : lower_ascii (lower_ascii c) = lower_ascii c.
Proof. by destruct c as [[] [] [] [] [] [] [] []]. Qed.

Lemma lower_ascii_string_idemp (s : string) :
  lower_ascii_string (lower_ascii_string s) = lower_ascii_string s.
Proof.
  induction s as [|c s IH]; [done|]. cbn [lower_ascii_string].
  by rewrite lower_ascii_idemp, IH.
Qed.

Lemma Forall_update_where {A} (P : A -> Prop) (col : A -> string) (v : string)
    (f : A -> A) (rows : list A) :
  (forall r, P r -> P (f r)) -> Forall P rows -> Forall P (update_where col v f rows).
Proof.
  intros Hf Hall. unfold update_where. apply Forall_fmap.
  eapply Forall_impl; [exact Hall|]. intros r Hr. cbn.
  destruct (decide (col r = v)); auto.
Qed.

(** Every users row [register] leaves is a row that was there or carries
    the lower-cased email of the request. *)
Lemma register_users_emails (R : Runtime) (S : Store) (now : Z)
    (req : AuthRequest RegisterUserRequest.t) (db : Db) (u : User) :
  u ∈ users (catch_AppError (register R S now req) db).1 ->
  u ∈ users db \/
  Users.email u = toLowerCase R (str (RegisterUserRequest.email (body req))).
Proof.
  remember (catch_AppError (register R S now req) db) as out eqn:E.
  revert E. unfold catch_AppError, register.
  destruct (bool_decide (Users.role <$> user req = Some admin)); cbn [negb];
    [|intros ->; by left].
  match goal with |- context [if ?c then throw _ 400 else _] => destruct c end;
    [intros ->; by left|].
  destruct (role_of_string _) as [role|]; [|intros ->; by left].
  unfold bind at 1. unfold query at 1.
  destruct (bool_decide (is_Some _)); [intros ->; by left|].
  unfold bind at 1. unfold query at 1.
  unfold bind at 1. unfold query at 1.
  destruct (users_reject S db _) as [e|]; [intros ->; by left|].
  match goal with
  | |- context [rollback_user S (Users.id ?x)] => set (newUser := x)
  end.
  assert (Hadded : u ∈ users db ++ [newUser] ->
            u ∈ users db \/
            Users.email u
            = toLowerCase R (str (RegisterUserRequest.email (body req)))).
  { rewrite elem_of_app, list_elem_of_singleton. intros [Hu| ->]; [by left|by right]. }
  assert (Hremoved : u ∈ delete_where Users.id (Users.id newUser) (users db ++ [newUser]) ->
            u ∈ users db \/
            Users.email u
            = toLowerCase R (str (RegisterUserRequest.email (body req)))).
  { unfold delete_where. rewrite list_elem_of_filter. intros [_ Hu]. by apply Hadded. }
  clearbody newUser.
  destruct role; decide_roles;
    cbv beta iota delta [bind query exec ret throw rollback_user].
  1-3: by intros ->.
  - destruct (teachers_reject S _ _);
      [destruct (users_delete_reject S _ _)|]; by intros ->.
  - destruct (parents_reject S _ _);
      [destruct (users_delete_reject S _ _)|]; by intros ->.
  - destruct (students_reject S _ _);
      [destruct (users_delete_reject S _ _)|]; by intros ->.
Qed.

(** X28. The handlers that write the users table keep every email in lower
    case. Lower case is what the engine's [toLowerCase] leaves as it is;
    when lower-casing twice is lower-casing once, and all stored emails are
    lower-case before, they are after any call of [register], [createUser],
    [login], [updateProfile], [changePassword], [deactivateUser] or
    [activateUser], whatever the request. So an account created through the
    API can always be found by [login], which looks the lower-cased email
    up. *)
Theorem emails_stay_lowercase :
  forall (L : TokenLib) (env : option string) (R : Runtime) (S : Store) (now : Z)
         (db : Db),
    (forall s, toLowerCase R (toLowerCase R s) = toLowerCase R s) ->
    emails_lowercase R db ->
    (forall req, emails_lowercase R (catch_AppError (register R S now req) db).1) /\
    (forall req, emails_lowercase R (catch_any (createUser R S req) db).1) /\
    (forall req, emails_lowercase R (catch_AppError (login L env R now req) db).1) /\
    (forall req, emails_lowercase R (catch_AppError (updateProfile req) db).1) /\
    (forall req, emails_lowercase R (catch_AppError (changePassword R req) db).1) /\
    (forall (B : Type) (req : AuthRequest B),
       emails_lowercase R (catch_any (deactivateUser req) db).1 /\
       emails_lowercase R (catch_any (activateUser req) db).1).
Proof.
  intros L env R S now db Hidemp Hdb. unfold emails_lowercase in *.
  split; [|split; [|split; [|split; [|split]]]].
  - intros req. apply Forall_forall. intros u Hu.
    destruct (register_users_emails R S now req db u Hu) as [Hold| ->].
    + rewrite Forall_forall in Hdb. by apply Hdb.
    + apply Hidemp.
  - intros req.
    destruct (createUser_ends R S req db)
      as [(code & msg & Hcode & ->)
         |(r & data & res & _ & _ & _ & Hmail & _ & ->)]; cbn [fst]; [done|].
    cbn [users with_users]. apply Forall_app. split; [done|].
    apply Forall_singleton. rewrite Hmail. apply Hidemp.
  - intros req. unfold catch_AppError, login.
    destruct (negb (truthy _) || negb (truthy _)); [done|].
    unfold bind at 1. unfold query at 1.
    destruct (single _) as [u|]; [|done].
    destruct (negb (bcrypt_compare R _ _)); [done|].
    destruct (negb (Users.is_active u)); [done|].
    cbn [fst]. unfold bind, exec, ret. cbn [fst users with_users].
    by apply Forall_update_where.
  - intros req. unfold catch_AppError, updateProfile.
    destruct (user req) as [me|]; [|done].
    unfold bind, exec, query, throw, ret.
    destruct (single _); cbn [fst users with_users]; by apply Forall_update_where.
  - intros req. unfold catch_AppError, changePassword.
    destruct (user req) as [me|]; [|done].
    destruct (negb (truthy _) || negb (truthy _)); [done|].
    destruct (js_length _ <? 6)%nat; [done|].
    unfold bind at 1. unfold query at 1.
    destruct (single _) as [u|]; [|done].
    destruct (negb (bcrypt_compare R _ _)); [done|].
    unfold bind, exec, ret. cbn [fst users with_users].
    by apply Forall_update_where.
  - intros B req. split.
    + unfold catch_any, deactivateUser. case_bool_decide; [done|].
      unfold bind, exec, query, throw, ret.
      destruct (single _); cbn [fst users with_users]; by apply Forall_update_where.
    + rewrite activateUser_store. cbn [users with_users].
      by apply Forall_update_where.
Qed.

Lemma sample_emails_lowercase : emails_lowercase sample_runtime sample_db.
Proof.
  unfold emails_lowercase. cbn [users sample_db].
  repeat (apply Forall_cons_2; [reflexivity|]). apply Forall_nil_2.
Qed.

Lemma emails_stay_lowercase_witness :
  emails_lowercase sample_runtime
    (catch_AppError (register sample_runtime lenient_store 1767600000000
                       new_teacher_request) sample_db).1 /\
  Users.email <$> last (users
    (catch_AppError (register sample_runtime lenient_store 1767600000000
                       new_teacher_request) sample_db).1)
  = Some "new.teacher@school.com" /\
  emails_lowercase sample_runtime
    (catch_AppError (register sample_runtime unreliable_store 1767600000000
                       new_parent_request) sample_db).1.
Proof.
  pose proof (emails_stay_lowercase sample_lib None sample_runtime lenient_store
                1767600000000 sample_db lower_ascii_string_idemp
                sample_emails_lowercase) as Hlenient.
  pose proof (emails_stay_lowercase sample_lib None sample_runtime unreliable_store
                1767600000000 sample_db lower_ascii_string_idemp
                sample_emails_lowercase) as Hunreliable.
  split; [exact (proj1 Hlenient new_teacher_request)|].
  split; [reflexivity|]. exact (proj1 Hunreliable new_parent_request).
Defined.

(** ** Deactivation and logging in *)

Lemma login_inactive (L : TokenLib) (env : option string) (R : Runtime) (now : Z)
    (req : AuthRequest LoginRequest.t) (db : Db) (e p : string) (u : User) :
  LoginRequest.email (body req) = Some e -> e ≠ "" ->
  LoginRequest.password (body req) = Some p -> p ≠ "" ->
  single (where_eq Users.email (toLowerCase R e) (users db)) = Some u ->
  bcrypt_compare R p (Users.password_hash u) = true ->
  Users.is_active u = false ->
  catch_AppError (login L env R now req) db
  = (db, {| status := 403;
            json := fail_body
              "Your account is not active. Please contact the administrator." |}).
Proof.
  intros He Hee Hp Hpe Hrow Hpw Hact. unfold catch_AppError, login.
  rewrite He, Hp, !truthy_Some by done. cbn [negb orb].
  change (str (Some e)) with e. change (str (Some p)) with p.
  unfold bind at 1. unfold query at 1. rewrite Hrow, Hpw, Hact. reflexivity.
Qed.

(** X29. A deactivated identity cannot log in, and activation gives the
    login back: after [deactivateUser] for an identity, a [login] with its
    email and the right password is answered 403 and changes nothing; after
    [activateUser] on top of that, the same login is answered 200. *)
Theorem deactivated_identity_cannot_log_in :
  forall (L : TokenLib) (env : option string) (R : Runtime) (now : Z)
         (B : Type) (admin_req : AuthRequest B)
         (lreq : AuthRequest LoginRequest.t) (db : Db) (e p : string) (u : User),
    Users.id <$> user admin_req ≠ Some (params_id admin_req) ->
    params_id admin_req = Users.id u ->
    LoginRequest.email (body lreq) = Some e -> e ≠ "" ->
    LoginRequest.password (body lreq) = Some p -> p ≠ "" ->
    single (where_eq Users.email (toLowerCase R e) (users db)) = Some u ->
    bcrypt_compare R p (Users.password_hash u) = true ->
    let off := (catch_any (deactivateUser admin_req) db).1 in
    let on := (catch_any (activateUser admin_req) off).1 in
    catch_AppError (login L env R now lreq) off
    = (off, {| status := 403;
               json := fail_body
                 "Your account is not active. Please contact the administrator." |}) /\
    status (catch_AppError (login L env R now lreq) on).2 = 200.
Proof.
  intros L env R now B admin_req lreq db e p u Hself Hid He Hee Hp Hpe Hrow Hpw off on.
  assert (Hoff : single (where_eq Users.email (toLowerCase R e) (users off))
                 = Some (Users.set_active false u)).
  { subst off. rewrite deactivateUser_store by done. cbn [users with_users].
    rewrite where_eq_update_where_other by done.
    destruct (where_eq Users.email (toLowerCase R e) (users db)) as [|x [|y rest]];
      cbn in Hrow; simplify_eq.
    unfold update_where. cbn [map single]. by rewrite decide_True. }
  assert (Hon : single (where_eq Users.email (toLowerCase R e) (users on))
                = Some (Users.set_active true (Users.set_active false u))).
  { subst on. rewrite activateUser_store. cbn [users with_users].
    rewrite where_eq_update_where_other by done.
    destruct (where_eq Users.email (toLowerCase R e) (users off)) as [|x [|y rest]];
      cbn in Hoff; simplify_eq.
    unfold update_where. cbn [map single]. by rewrite decide_True. }
  split.
  - by apply login_inactive with e p (Users.set_active false u).
  - by rewrite (login_success L env R now lreq on e p
                  (Users.set_active true (Users.set_active false u))).
Qed.

Lemma deactivated_identity_witness :
  let admin_req := request None (Some root_admin) "u-tch" tt in
  let lreq := request None None ""
                {| LoginRequest.email := Some "tch@school.com";
                   LoginRequest.password := Some "u-tch" |} in
  let off := (catch_any (deactivateUser admin_req) sample_db).1 in
  let on := (catch_any (activateUser admin_req) off).1 in
  status (catch_AppError (login sample_lib None sample_runtime 0 lreq) sample_db).2
  = 200 /\
  status (catch_AppError (login sample_lib None sample_runtime 0 lreq) off).2 = 403 /\
  status (catch_AppError (login sample_lib None sample_runtime 0 lreq) on).2 = 200.
Proof.
  intros admin_req lreq off on. split; [reflexivity|].
  destruct (deactivated_identity_cannot_log_in sample_lib None sample_runtime 0
              unit admin_req lreq sample_db "tch@school.com" "u-tch" maths_teacher
              ltac:(discriminate) eq_refl eq_refl ltac:(discriminate)
              eq_refl ltac:(discriminate) eq_refl eq_refl) as [Hoff Hon].
  split; [|exact Hon]. unfold off. by rewrite Hoff.
Defined.
